(** * IceTea: SQL script <-> XLSX workbook conversion

    A shallow embedding of the two converters of the repository,

    - [sql_to_xlsx] (src/IceTeaCCI/sql_to_xlsx.py): the tables of a SQLite
      database become the sheets of a workbook, one header row and one row
      per record, the column descriptions travelling as cell comments;
    - [xlsx_to_sql] (xlsx_to_sql.py): the sheets of a workbook become the
      CREATE TABLE and INSERT INTO statements of a SQL script.

    What the scripts get from their libraries is kept apart from what they do
    themselves.  The SQLite engine is represented by what it answers the three
    queries of the script with ([database]): rows, or an exception.  An
    openpyxl sheet in memory is a store of cells.  The calls into openpyxl
    that can raise or change what they are given are operations of
    [Libraries]: making a sheet ([create_sheet]), storing a value in a cell
    ([bind_value]), saving a workbook to a file ([save]) and loading one
    ([load_workbook]); so are the JSON codec and the interpreter's [repr] of
    floats, bytes and containers.  The theorems hold for every implementation
    of them, under the hypotheses they state about the calls of the run at
    hand.

    Scalars are [None], booleans, integers, floats, strings and bytes; a
    character of a string is one code point.  Dates and times, which openpyxl
    returns for cells formatted as such, are not represented. *)

From Stdlib Require Import ZArith String Ascii List Lia Bool Strings.Byte.
From stdpp Require Import base option list gmap strings pretty.

Open Scope string_scope.
Open Scope nat_scope.
Open Scope list_scope.

(** ** Characters that the scripts write as escapes *)

Definition nl : string := String (ascii_of_nat 10) EmptyString.
Definition tab : string := String (ascii_of_nat 9) EmptyString.
Definition dq : string := String (ascii_of_nat 34) EmptyString.
Definition sq : string := String (ascii_of_nat 39) EmptyString.

(** [s[:n]] and [s[n:]] *)
Fixpoint str_take (n : nat) (s : string) : string :=
  match n, s with
  | S n', String c s' => String c (str_take n' s')
  | _, _ => EmptyString
  end.

Fixpoint str_drop (n : nat) (s : string) : string :=
  match n, s with
  | S n', String _ s' => str_drop n' s'
  | _, _ => s
  end.

(** The text of a loop that appends one piece per iteration. *)
Definition str_concat (pieces : list string) : string :=
  foldr String.append EmptyString pieces.

(** ** Python values *)

(** A float that is a number: a zero, an infinity, or [m * 2^e] with its
    sign.  The scripts get their floats from sqlite3, which gives [None] for a
    NaN, and from openpyxl, which reads a number from its decimal text. *)
Inductive float : Type :=
| FZero (negative : bool)
| FInfinity (negative : bool)
| FFinite (negative : bool) (m : positive) (e : Z).

#[global] Instance byte_eq_dec : EqDecision byte := Byte.byte_eq_dec.

#[global] Instance float_eq_dec : EqDecision float.
Proof. solve_decision. Defined.

(** What a cell of a sheet or a column of a record holds. *)
Inductive scalar : Type :=
| PNone
| PBool (b : bool)
| PInt (n : Z)
| PFloat (x : float)
| PStr (s : string)
| PBytes (b : list byte).

#[global] Instance scalar_eq_dec : EqDecision scalar.
Proof. solve_decision. Defined.

(** [bool(v)] *)
Definition truthy (v : scalar) : bool :=
  match v with
  | PNone => false
  | PBool b => b
  | PInt n => negb (n =? 0)%Z
  | PFloat (FZero _) => false
  | PFloat _ => true
  | PStr s => negb (String.eqb s EmptyString)
  | PBytes b => negb (Nat.eqb (length b) 0)
  end.

Definition is_none (v : scalar) : bool :=
  match v with PNone => true | _ => false end.

Definition isinstance_str (v : scalar) : bool :=
  match v with PStr _ => true | _ => false end.

(** [m * 2^e == n * 2^f] *)
Definition dyadic_eqb (m e n f : Z) : bool :=
  (m * 2 ^ (e - Z.min e f) =? n * 2 ^ (f - Z.min e f))%Z.

Definition signed (negative : bool) (m : positive) : Z :=
  if negative then Z.neg m else Z.pos m.

(** [x == y] on floats, and [x == n] for a float and an integer *)
Definition float_eqb (x y : float) : bool :=
  match x, y with
  | FZero _, FZero _ => true
  | FInfinity s, FInfinity t => Bool.eqb s t
  | FFinite s m e, FFinite t n f => dyadic_eqb (signed s m) e (signed t n) f
  | _, _ => false
  end.

Definition float_eqb_int (x : float) (n : Z) : bool :=
  match x with
  | FZero _ => (n =? 0)%Z
  | FInfinity _ => false
  | FFinite s m e => dyadic_eqb (signed s m) e n 0
  end.

Definition int_of_bool (b : bool) : Z := if b then 1%Z else 0%Z.

(** [a == b]: booleans are the integers 0 and 1, numbers are compared by
    value, a string equals no number and no bytes, [None] equals only
    itself. *)
Definition py_eq (a b : scalar) : bool :=
  match a, b with
  | PNone, PNone => true
  | PStr s, PStr t => String.eqb s t
  | PBytes s, PBytes t => bool_decide (s = t)
  | PBool x, PBool y => Bool.eqb x y
  | PInt x, PInt y => (x =? y)%Z
  | PBool x, PInt y | PInt y, PBool x => (int_of_bool x =? y)%Z
  | PFloat x, PFloat y => float_eqb x y
  | PFloat x, PInt y | PInt y, PFloat x => float_eqb_int x y
  | PFloat x, PBool y | PBool y, PFloat x => float_eqb_int x (int_of_bool y)
  | _, _ => false
  end.

Set Warnings "-register-all".

(** What [json.loads] returns and [json.dumps] takes.  An object keeps its
    members in insertion order, each key once. *)
Inductive json : Type :=
| JNull
| JBool (b : bool)
| JInt (n : Z)
| JStr (s : string)
| JArr (items : list json)
| JObj (members : list (string * json)).

(** A Python dict with string keys, in insertion order. *)
Definition dict (A : Type) : Type := list (string * A).

Fixpoint dict_get {A} (key : string) (d : dict A) : option A :=
  match d with
  | [] => None
  | (k, v) :: rest => if String.eqb k key then Some v else dict_get key rest
  end.

(** [d[key] = v]: an existing key keeps its place. *)
Fixpoint dict_set {A} (key : string) (v : A) (d : dict A) : dict A :=
  match d with
  | [] => [(key, v)]
  | (k, w) :: rest =>
      if String.eqb k key then (k, v) :: rest else (k, w) :: dict_set key v rest
  end.

Definition json_truthy (j : json) : bool :=
  match j with
  | JNull => false
  | JBool b => b
  | JInt n => negb (n =? 0)%Z
  | JStr s => negb (String.eqb s EmptyString)
  | JArr items => negb (Nat.eqb (length items) 0)
  | JObj members => negb (Nat.eqb (length members) 0)
  end.

(** ** Exceptions and the error monad *)

Inductive exn : Type :=
| XLSXParseError (msg : string)   (* class XLSXParseError(Exception) *)
| JSONDecodeError                 (* json.JSONDecodeError, from json.loads *)
| KeyError (key : string)         (* a dict without the key *)
| TypeError                       (* subscripting what is not a dict *)
| ValueError                      (* openpyxl: a title or a value it refuses *)
| IllegalCharacterError           (* openpyxl: a string it cannot store *)
| OperationalError                (* sqlite3: a statement it cannot run *)
| IndexError                      (* openpyxl: saving a workbook without sheets *)
| LibraryError (name : string).   (* any other exception of a library *)

Inductive result (A : Type) : Type :=
| Ok (a : A)
| Raise (e : exn).
Arguments Ok {A} a.
Arguments Raise {A} e.

#[global] Instance result_ret : MRet result := fun A a => Ok a.

#[global] Instance result_bind : MBind result := fun A B k r =>
  match r with
  | Ok a => k a
  | Raise e => Raise e
  end.

(** [metadata[key]] *)
Definition getitem (metadata : json) (key : string) : result json :=
  match metadata with
  | JObj members =>
      match dict_get key members with
      | Some v => Ok v
      | None => Raise (KeyError key)
      end
  | _ => Raise TypeError
  end.

(** ** Workbooks *)

Record cell : Type := Cell {
  value : scalar;
  comment : option string   (* the text of the comment, when there is one *)
}.

Definition empty_cell : cell := Cell PNone None.

Record worksheet : Type := Worksheet {
  title : string;
  _cells : gmap (nat * nat) cell   (* keyed by (row, column), from 1 *)
}.

Record workbook : Type := Workbook {
  worksheets : list worksheet;
  description : string   (* workbook.properties.description *)
}.

(** [sheet.cell(row=r, column=c)]: the cell is made when it is not there; a new
    cell is empty, so reading it is reading [empty_cell]. *)
Definition ws_cell (ws : worksheet) (r c : nat) : cell :=
  default empty_cell (_cells ws !! (r, c)).

(** [sheet.max_row] and [sheet.max_column]: 1 for a sheet without cells *)
Definition max_row (ws : worksheet) : nat :=
  map_fold (fun k _ m => Nat.max k.1 m) 1 (_cells ws).

Definition max_column (ws : worksheet) : nat :=
  map_fold (fun k _ m => Nat.max k.2 m) 1 (_cells ws).

(** [sheet.rows]: rows 1 to [max_row], each with columns 1 to [max_column].
    A cell made by an earlier read past the last column adds an empty cell
    to each row, which the reverse mapper does not see ([any_value_wider]). *)
Definition rows (ws : worksheet) : list (list cell) :=
  (fun r => (fun c => ws_cell ws r c) <$> seq 1 (max_column ws)) <$> seq 1 (max_row ws).

(** ** The libraries *)

Class Libraries : Type := {
  (** [json.loads]; [None] when it raises [JSONDecodeError] *)
  json_loads : string -> option json;
  (** [json.dumps] *)
  json_dumps : json -> string;
  (** [repr] of a list or a dict *)
  py_repr : json -> string;
  (** [repr] of a float and of bytes, which is their [str] *)
  float_repr : float -> string;
  bytes_repr : list byte -> string;
  (** [workbook.create_sheet(title).title]: the title openpyxl gives a new
      sheet, from the titles in the workbook and the title asked for, or the
      exception it raises for a title it refuses *)
  create_sheet : list string -> string -> result string;
  (** [cell.value = v]: the value the cell holds afterwards, or the exception
      openpyxl raises for a value it cannot store *)
  bind_value : scalar -> result scalar;
  (** [workbook.save(path)]: the file written, or the exception *)
  xlsx_file : Type;
  save : workbook -> result xlsx_file;
  (** [openpyxl.load_workbook(path)] on such a file *)
  load_workbook : xlsx_file -> result workbook
}.

(** [str(v)], which is also what an f-string writes for [{v}] *)
Definition py_str `{Libraries} (v : scalar) : string :=
  match v with
  | PNone => "None"
  | PBool true => "True"
  | PBool false => "False"
  | PInt n => pretty n
  | PFloat x => float_repr x
  | PStr s => s
  | PBytes b => bytes_repr b
  end.

(** [str(j)] of a decoded JSON value *)
Definition json_str `{Libraries} (j : json) : string :=
  match j with
  | JNull => "None"
  | JBool true => "True"
  | JBool false => "False"
  | JInt n => pretty n
  | JStr s => s
  | JArr _ | JObj _ => py_repr j
  end.

(** ** xlsx_to_sql.py *)

Definition COMMENT_PREFIX : string := "AUTOGENERATED, DO NOT EDIT!" +:+ nl.

Definition DEFAULT_METADATA : json :=
  JObj [("type", JStr "VARCHAR(255)"); ("not_null", JBool false); ("pk", JInt 0)].

Section Reverse.
Context `{Libraries}.

(** Lines 77-90: the metadata of a header cell. *)
Definition cell_metadata (c : cell) : result json :=
  match comment c with
  | Some comment_text =>
      let prefix := str_take (String.length COMMENT_PREFIX) comment_text in
      let suffix := str_drop (String.length COMMENT_PREFIX) comment_text in
      if negb (String.eqb prefix COMMENT_PREFIX) then
        Raise (XLSXParseError
                 ("Comment verification failed: '" +:+ comment_text +:+ "'"))
      else
        match json_loads suffix with
        | Some metadata => Ok metadata
        | None => Raise JSONDecodeError
        end
  | None => Ok DEFAULT_METADATA
  end.

(** Lines 70-94: [while cell.value], from [column] on.  The loop ends at the
    first header cell that is empty; [fuel] bounds the number of fields, and
    [None] is a loop that has not ended within it. *)
Fixpoint header_loop (sheet : worksheet) (fuel column : nat)
  : option (result (list scalar * list json)) :=
  let c := ws_cell sheet 1 column in
  if truthy (value c) then
    match fuel with
    | O => None
    | S fuel' =>
        let field_name := value c in
        match cell_metadata c with
        | Raise e => Some (Raise e)
        | Ok metadata =>
            match header_loop sheet fuel' (column + 1) with
            | None => None
            | Some (Raise e) => Some (Raise e)
            | Some (Ok (fields, field_metadata)) =>
                Some (Ok (field_name :: fields, metadata :: field_metadata))
            end
        end
    end
  else Some (Ok ([], [])).

(** The fields of a sheet and their metadata.  No sheet has a field beyond
    its last column, so the fuel given here is never used up
    ([header_loop_ends]). *)
Definition detect_fields (sheet : worksheet)
  : result (list scalar * list json) :=
  match header_loop sheet (max_column sheet) 1 with
  | Some r => r
  | None => Ok ([], [])
  end.

(** Lines 103-119: one column line per field.  [primary_key_field] is [PNone]
    until a field with a true ["pk"] is met. *)
Fixpoint add_fields (table_name : string) (fields : list (scalar * json))
    (primary_key_field : scalar) (sql_script : string)
  : result (scalar * string) :=
  match fields with
  | [] => Ok (primary_key_field, sql_script)
  | (field_name, metadata) :: rest =>
      pk ← getitem metadata "pk";
      primary_key_field ←
        (if json_truthy pk then
           if negb (is_none primary_key_field) then
             Raise (XLSXParseError
                      ("Table " +:+ table_name
                       +:+ ": multiple primary key fields detected!"))
           else Ok field_name
         else Ok primary_key_field);
      let sql_script :=
        if py_eq primary_key_field field_name
        then sql_script +:+ tab +:+ py_str field_name
        else sql_script +:+ tab +:+ dq +:+ py_str field_name +:+ dq in
      ty ← getitem metadata "type";
      let sql_script := sql_script +:+ " " +:+ json_str ty in
      not_null ← getitem metadata "not_null";
      let sql_script :=
        if json_truthy not_null then sql_script +:+ " NOT NULL" else sql_script in
      add_fields table_name rest primary_key_field (sql_script +:+ "," +:+ nl)
  end.

(** Lines 98-128: the CREATE TABLE statement, appended to [sql_script]. *)
Definition create_table (table_name : string) (fields : list scalar)
    (field_metadata : list json) (sql_script : string) : result string :=
  let sql_script := sql_script +:+ "CREATE TABLE " +:+ dq +:+ table_name +:+ dq +:+ " (" +:+ nl in
  '(primary_key_field, sql_script) ←
     add_fields table_name (zip fields field_metadata) PNone sql_script;
  sql_script ←
    (if negb (is_none primary_key_field) then
       Ok (sql_script +:+ "  PRIMARY KEY (" +:+ py_str primary_key_field +:+ ")" +:+ nl)
     else
       Raise (XLSXParseError
                ("Table " +:+ table_name +:+ ": no primary key field detected!")));
  Ok (sql_script +:+ ");" +:+ nl).

(** Lines 138-145: the values of the record in row [row_index + 1]. *)
Definition record_values (sheet : worksheet) (fields : list scalar)
    (row_index : nat) : list scalar :=
  imap (fun column_index _ =>
          let v := value (ws_cell sheet (row_index + 1) (column_index + 1)) in
          let v := if is_none v then PStr EmptyString else v in
          PStr (py_str v))
       fields.

(** Lines 148-151: the values between the parentheses, from index [column]. *)
Fixpoint write_values (column : nat) (values : list scalar) : string :=
  match values with
  | [] => EmptyString
  | v :: rest =>
      (if Nat.ltb 0 column then "," else EmptyString)
      +:+ (if isinstance_str v then sq +:+ py_str v +:+ sq else py_str v)
      +:+ write_values (S column) rest
  end.

(** Lines 147-152 *)
Definition insert_statement (table_name : string) (values : list scalar)
  : string :=
  "INSERT INTO " +:+ dq +:+ table_name +:+ dq +:+ " VALUES("
  +:+ write_values 0 values +:+ ");" +:+ nl.

(** Line 135: [any(cell.value for cell in row_obj)] *)
Definition any_value (row_obj : list cell) : bool :=
  existsb (fun c => truthy (value c)) row_obj.

(** Lines 131-152: what one row of [sheet.rows] adds to the script. *)
Definition record_text (sheet : worksheet) (table_name : string)
    (fields : list scalar) (row_index : nat) (row_obj : list cell) : string :=
  if Nat.eqb row_index 0 then EmptyString
  else if negb (any_value row_obj) then EmptyString
  else insert_statement table_name (record_values sheet fields row_index).

Definition insert_records (sheet : worksheet) (table_name : string)
    (fields : list scalar) : string :=
  str_concat (imap (record_text sheet table_name fields) (rows sheet)).

(** Lines 63-154: one sheet. *)
Definition convert_sheet (sheet : worksheet) (sql_script : string)
  : result string :=
  let table_name := title sheet in
  '(fields, field_metadata) ← detect_fields sheet;
  sql_script ← create_table table_name fields field_metadata sql_script;
  Ok (sql_script +:+ insert_records sheet table_name fields).

Fixpoint convert_sheets (sheets : list worksheet) (sql_script : string)
  : result string :=
  match sheets with
  | [] => Ok sql_script
  | sheet :: rest =>
      sql_script ← convert_sheet sheet sql_script;
      convert_sheets rest sql_script
  end.

(** Lines 57-157: the script written to the output file, or the exception
    that ends the run before anything is written. *)
Definition xlsx_to_sql (wb : workbook) : result string :=
  let sql_script := EmptyString in
  let sql_script := sql_script +:+ "BEGIN TRANSACTION;" +:+ nl in
  sql_script ← convert_sheets (worksheets wb) sql_script;
  Ok (sql_script +:+ "COMMIT;" +:+ nl).

End Reverse.

(** ** sql_to_xlsx.py *)

(** A row of [sqlite_master]: what kind of object it is, and its name. *)
Record master_entry : Type := MasterEntry {
  entry_type : string;
  entry_name : string
}.

(** A row of [PRAGMA table_info]: (cid, name, type, notnull, dflt_value, pk). *)
Record column_info : Type := ColumnInfo {
  cid : Z;
  col_name : string;
  col_type : string;
  notnull : Z;
  dflt_value : scalar;
  pk : Z
}.

(** The database the input script has built, as the cursor shows it.  The
    two statements that the script builds from a table name take the name as
    it is, between single quotes: [table_info] and [select_all] are what
    [cur.execute] gives for the statement built from the name, its rows or
    the exception sqlite3 raises for that text. *)
Record database : Type := Database {
  sqlite_master : list master_entry;
  (* cur.execute(f"PRAGMA table_info('{name}')") *)
  table_info : string -> result (list column_info);
  (* cur.execute(f"SELECT * FROM '{name}'"); cur.fetchall() *)
  select_all : string -> result (list (list scalar))
}.

Definition AUTOGEN_PREFIX : string := "AUTOGENERATED, DO NOT EDIT!" +:+ nl.

(** Line 58: [SELECT name FROM sqlite_master WHERE type='table'] *)
Definition tables (db : database) : list string :=
  entry_name <$> filter (fun e => entry_type e = "table") (sqlite_master db).

(** Line 74: [table_name[:29]] *)
Definition sheet_target_name (table_name : string) : string :=
  str_take 29 table_name.

(** Line 92 *)
Definition field_metadata (field : column_info) : json :=
  JObj [("type", JStr (col_type field));
        ("not_null", JBool (negb (notnull field =? 0)%Z));
        ("pk", JInt (pk field))].

(** The cell at (r, c) replaced by [c']. *)
Definition put_cell (ws : worksheet) (r c : nat) (c' : cell) : worksheet :=
  Worksheet (title ws) (<[(r, c) := c']> (_cells ws)).

Section Forward.
Context `{Libraries}.

(** Lines 83-94: the header row, from field [i] on. *)
Fixpoint write_header (ws : worksheet) (i : nat)
    (fields : list column_info) : result worksheet :=
  match fields with
  | [] => Ok ws
  | field :: rest =>
      let c := ws_cell ws 1 (i + 1) in
      v ← bind_value (PStr (col_name field));
      let c := Cell v (comment c) in
      let metadata := field_metadata field in
      let metadata_string := AUTOGEN_PREFIX +:+ json_dumps metadata in
      let c := Cell (value c) (Some metadata_string) in
      write_header (put_cell ws 1 (i + 1) c) (S i) rest
  end.

(** Lines 98-100: record [i], from column [j] on. *)
Fixpoint write_row (ws : worksheet) (i j : nat) (row : list scalar)
  : result worksheet :=
  match row with
  | [] => Ok ws
  | col :: rest =>
      let c := ws_cell ws (i + 2) (j + 1) in
      v ← bind_value col;
      let c := Cell v (comment c) in
      write_row (put_cell ws (i + 2) (j + 1) c) i (S j) rest
  end.

(** Lines 97-100: the records, from record [i] on.  Line 102 formats the
    last value of the record for the log: a record that SQLite returns has at
    least one column, so there is one. *)
Fixpoint write_rows (ws : worksheet) (i : nat)
    (records : list (list scalar)) : result worksheet :=
  match records with
  | [] => Ok ws
  | row :: rest =>
      ws ← write_row ws i 0 row;
      write_rows ws (S i) rest
  end.

(** Lines 70-100: the sheet of one table, in a workbook whose sheets are
    [sheets]. *)
Definition table_sheet (db : database) (sheets : list worksheet)
    (table_name : string) : result worksheet :=
  sheet_name ← create_sheet (title <$> sheets) (sheet_target_name table_name);
  let ws := Worksheet sheet_name ∅ in
  fields ← table_info db table_name;
  ws ← write_header ws 0 fields;
  records ← select_all db table_name;
  write_rows ws 0 records.

(** Lines 69-100: one sheet per table; [table_names] links the title of each
    sheet to the name of its table. *)
Fixpoint add_tables (db : database) (names : list string)
    (sheets : list worksheet) (table_names : dict string)
  : result (list worksheet * dict string) :=
  match names with
  | [] => Ok (sheets, table_names)
  | table_name :: rest =>
      ws ← table_sheet db sheets table_name;
      let sheet_name := title ws in
      let table_names := dict_set sheet_name table_name table_names in
      add_tables db rest (sheets ++ [ws]) table_names
  end.

(** Lines 106-108 *)
Definition workbook_metadata (table_names : dict string) : json :=
  JObj [("table_names", JObj (prod_map id JStr <$> table_names))].

(** Lines 57-111: the workbook that line 114 saves. *)
Definition make_workbook (db : database) : result workbook :=
  '(sheets, table_names) ← add_tables db (tables db) [] [];
  Ok (Workbook sheets
        (AUTOGEN_PREFIX +:+ json_dumps (workbook_metadata table_names))).

(** Lines 57-114: the file written, or the exception that ends the run
    before a file is written. *)
Definition sql_to_xlsx (db : database) : result xlsx_file :=
  workbook ← make_workbook db;
  save workbook.

End Forward.

(** ** xlsx_to_sql.py, around the conversion

    Lines 54 and 159-172: the workbook is loaded, converted, and then the
    script is written, the workbook removed and the script opened, as the
    options say.  What is printed is not part of the effects. *)

Record options : Type := Options {
  INPUT_FILE : string;
  OUTPUT_FILE : string;
  OPEN_FILE : bool;
  DELETE_XLSX : bool
}.

Inductive effect : Type :=
| WriteFile (path text : string)   (* open(path, 'w'), f.write(text) *)
| Remove (path : string)           (* os.remove(path) *)
| StartFile (path : string)        (* os.startfile(path) *)
| System (command : string).       (* os.system(command) *)

(** The effects of a run on the workbook loaded from [INPUT_FILE], and the
    exception that ends it, if one does.  [platform_system] is what
    [platform.system()] answers. *)
Definition xlsx_to_sql_script `{Libraries} (args : options)
    (platform_system : string) (workbook : workbook)
  : list effect * option exn :=
  match xlsx_to_sql workbook with
  | Raise e => ([], Some e)
  | Ok sql_script =>
      ([WriteFile (OUTPUT_FILE args) sql_script]
       ++ (if DELETE_XLSX args then [Remove (INPUT_FILE args)] else [])
       ++ (if OPEN_FILE args then
             if String.eqb platform_system "Windows"
             then [StartFile (OUTPUT_FILE args)]
             else [System ("open " +:+ OUTPUT_FILE args)]
           else []),
       None)
  end.

(** * The vocabulary of the statements *)

(** A column line: the name, between double quotes or not, the type, and
    NOT NULL when the column asks for it. *)
Definition column_line `{Libraries} (quoted : bool) (field_name : scalar)
    (ty : string) (not_null : bool) : string :=
  tab +:+ (if quoted then dq +:+ py_str field_name +:+ dq else py_str field_name)
  +:+ " " +:+ ty +:+ (if not_null then " NOT NULL" else EmptyString)
  +:+ "," +:+ nl.

(** A descriptor with the three entries the reverse mapper reads. *)
Definition complete_descriptor (m : json) : bool :=
  match getitem m "pk", getitem m "type", getitem m "not_null" with
  | Ok _, Ok _, Ok _ => true
  | _, _, _ => false
  end.

(** The primary-key flag of a descriptor. *)
Definition pk_flag (m : json) : bool :=
  match getitem m "pk" with
  | Ok v => json_truthy v
  | Raise _ => false
  end.

Definition count_pk (mds : list json) : nat :=
  length (filter (fun m => pk_flag m = true) mds).

Definition multiple_pk_error (table_name : string) : exn :=
  XLSXParseError
    ("Table " +:+ table_name +:+ ": multiple primary key fields detected!").

Definition no_pk_error (table_name : string) : exn :=
  XLSXParseError ("Table " +:+ table_name +:+ ": no primary key field detected!").

(** The line [add_fields] writes for a field. *)
Definition line_of `{Libraries} (field : scalar * json) (line : string) : Prop :=
  ∃ quoted ty not_null,
    getitem field.2 "type" = Ok ty
    ∧ getitem field.2 "not_null" = Ok not_null
    ∧ line = column_line quoted field.1 (json_str ty) (json_truthy not_null).

(** The exceptions of [add_fields]. *)
Definition descriptor_error (table_name : string) (e : exn) : Prop :=
  e = TypeError ∨ (∃ key, e = KeyError key) ∨ e = multiple_pk_error table_name.

(** What a cell contributes to an INSERT: nothing for an empty cell, the text
    of its value otherwise. *)
Definition cell_text `{Libraries} (v : scalar) : string :=
  if is_none v then EmptyString else py_str v.

Definition quoted (s : string) : string := sq +:+ s +:+ sq.

(** The texts of the first [n] cells of row [r]. *)
Definition row_texts `{Libraries} (sheet : worksheet) (n r : nat)
  : list string :=
  (fun j => cell_text (value (ws_cell sheet r (j + 1)))) <$> seq 0 n.

(** The cells of row [r], as [sheet.rows] gives them. *)
Definition row_obj (sheet : worksheet) (r : nat) : list cell :=
  (fun c => ws_cell sheet r c) <$> seq 1 (max_column sheet).

Definition insert_line (table_name : string) (texts : list string) : string :=
  "INSERT INTO " +:+ dq +:+ table_name +:+ dq +:+ " VALUES("
  +:+ String.concat "," (quoted <$> texts) +:+ ");" +:+ nl.

(** What row [r] of a sheet adds to the script. *)
Definition row_text `{Libraries} (sheet : worksheet) (table_name : string)
    (n r : nat) : string :=
  if any_value (row_obj sheet r)
  then insert_line table_name (row_texts sheet n r)
  else EmptyString.

(** The number of fields of a sheet *)
Definition field_count `{Libraries} (sheet : worksheet) : nat :=
  match detect_fields sheet with
  | Ok (fields, _) => length fields
  | Raise _ => 0
  end.

(** [text] is what a sheet adds to the script: a CREATE TABLE statement under
    the title of the sheet, with one line per field and the PRIMARY KEY line,
    then the INSERT INTO statements of rows 2 to [max_row]. *)
Definition sheet_statements `{Libraries} (sheet : worksheet) (text : string) : Prop :=
  ∃ fields mds lines pkf,
    detect_fields sheet = Ok (fields, mds)
    ∧ Forall2 line_of (zip fields mds) lines
    ∧ is_none pkf = false
    ∧ text = "CREATE TABLE " +:+ dq +:+ title sheet +:+ dq
             +:+ " (" +:+ nl +:+ str_concat lines
             +:+ "  PRIMARY KEY (" +:+ py_str pkf +:+ ")" +:+ nl
             +:+ ");" +:+ nl
             +:+ str_concat (row_text sheet (title sheet) (length fields)
                             <$> seq 2 (max_row sheet - 1)).

(** The header cell of a column: the name as openpyxl has stored it, and
    the comment with the descriptor. *)
Definition header_cell `{Libraries} (field : column_info) (v : scalar) : cell :=
  Cell v (Some (AUTOGEN_PREFIX +:+ json_dumps (field_metadata field))).

(** The values that openpyxl stores for [values], one by one. *)
Definition bound `{Libraries} (values held : list scalar) : Prop :=
  Forall2 (fun v v' => bind_value v = Ok v') values held.

(** The sheet after the header cells of [fields] are put in row 1, from
    column [i + 1] on; after the values [held] are put in row [i + 2], from
    column [j + 1] on; after the rows [held] are put from row [i + 2] on. *)
Fixpoint header_cells `{Libraries} (ws : worksheet) (i : nat)
    (fields : list (column_info * scalar)) : worksheet :=
  match fields with
  | [] => ws
  | (field, v) :: rest =>
      header_cells (put_cell ws 1 (i + 1) (header_cell field v)) (S i) rest
  end.

Fixpoint row_cells (ws : worksheet) (i j : nat) (held : list scalar)
  : worksheet :=
  match held with
  | [] => ws
  | v :: rest =>
      let c := Cell v (comment (ws_cell ws (i + 2) (j + 1))) in
      row_cells (put_cell ws (i + 2) (j + 1) c) i (S j) rest
  end.

Fixpoint rows_cells (ws : worksheet) (i : nat) (held : list (list scalar))
  : worksheet :=
  match held with
  | [] => ws
  | row :: rest => rows_cells (row_cells ws i 0 row) (S i) rest
  end.

(** The columns and the records that the forward mapper gets for a table;
    none when the statement raises. *)
Definition columns (db : database) (table_name : string) : list column_info :=
  match table_info db table_name with
  | Ok fields => fields
  | Raise _ => []
  end.

Definition records (db : database) (table_name : string)
  : list (list scalar) :=
  match select_all db table_name with
  | Ok rows => rows
  | Raise _ => []
  end.



(** The column line of a column of the database: the primary key without
    quotes, the other columns between double quotes. *)
Definition column_definition `{Libraries} (c : column_info) : string :=
  column_line (pk c =? 0)%Z (PStr (col_name c)) (col_type c)
    (negb (notnull c =? 0)%Z).

Definition primary_key_columns (cols : list column_info) : list column_info :=
  filter (fun c => pk c ≠ 0%Z) cols.

Definition primary_key_name (cols : list column_info) : string :=
  match primary_key_columns cols with
  | c :: _ => col_name c
  | [] => EmptyString
  end.

Definition create_statement `{Libraries} (table_name : string)
    (cols : list column_info) : string :=
  "CREATE TABLE " +:+ dq +:+ table_name +:+ dq +:+ " (" +:+ nl
  +:+ str_concat (column_definition <$> cols)
  +:+ "  PRIMARY KEY (" +:+ primary_key_name cols +:+ ")" +:+ nl
  +:+ ");" +:+ nl.

(** The statements of a table: its CREATE TABLE statement, and an INSERT for
    each record that is kept, its values turned into text by [coerce]. *)
Definition table_statements `{Libraries} (coerce : scalar → string)
    (kept : list scalar → bool) (table_name : string)
    (cols : list column_info) (records : list (list scalar)) : string :=
  create_statement table_name cols
  +:+ str_concat ((fun row =>
                     if kept row
                     then insert_line table_name (coerce <$> row)
                     else EmptyString) <$> records).

(** An empty value: NULL or the empty string. *)
Definition is_empty (v : scalar) : bool :=
  match v with
  | PNone => true
  | PStr s => String.eqb s EmptyString
  | _ => false
  end.

(** What a file keeps of a value: the empty string is written as an empty
    cell. *)
Definition stored (v : scalar) : scalar := if is_empty v then PNone else v.

(** Two sheets with the same title and, cell by cell, the same comments and
    the same values, an empty string counting as an empty cell. *)
Definition same_cells (ws ws' : worksheet) : Prop :=
  title ws' = title ws
  ∧ ∀ r c,
      comment (ws_cell ws' r c) = comment (ws_cell ws r c)
      ∧ stored (value (ws_cell ws' r c)) = stored (value (ws_cell ws r c)).

(** The sheets of a workbook read back from a file as they were written. *)
Definition file_keeps (written loaded : workbook) : Prop :=
  Forall2 same_cells (worksheets written) (worksheets loaded).

(** A sheet that holds a table: row 1 has the header cells of the columns,
    and then a cell that does not count; the rows below have the values of
    the records, an empty string counting as an empty cell, and no other
    value. *)
Definition holds_table `{Libraries} (sheet : worksheet)
    (cols : list column_info) (rows : list (list scalar)) : Prop :=
  (∀ j, match cols !! j with
        | Some col =>
            ws_cell sheet 1 (1 + j) = header_cell col (PStr (col_name col))
        | None => truthy (value (ws_cell sheet 1 (1 + j))) = false
        end)
  ∧ ∀ i j,
      stored (value (ws_cell sheet (2 + i) (1 + j)))
      = stored (default PNone (rows !! i ≫= fun row => row !! j)).

(** A table that the round trip is stated for: named, distinct columns, one
    of them the primary key; descriptors that [json.loads] reads back as
    [json.dumps] wrote them; records as wide as the list of columns; names
    and values that openpyxl stores in a cell as they are given. *)
Record table_ok `{Libraries} (db : database) (table_name : string) : Prop := {
  ok_names :
    Forall (fun c => col_name c ≠ EmptyString) (columns db table_name);
  ok_distinct : NoDup (col_name <$> columns db table_name);
  ok_primary_key :
    length (primary_key_columns (columns db table_name)) = 1;
  ok_codec :
    Forall (fun c => json_loads (json_dumps (field_metadata c))
                     = Some (field_metadata c))
           (columns db table_name);
  ok_width :
    Forall (fun row => length row = length (columns db table_name))
           (records db table_name);
  ok_bound_names :
    Forall (fun c => bind_value (PStr (col_name c)) = Ok (PStr (col_name c)))
           (columns db table_name);
  ok_bound_values :
    Forall (Forall (fun v => bind_value v = Ok v)) (records db table_name)
}.

(** The script of a round trip: the statements of the tables, each under the
    title of its sheet in the workbook [written]. *)
Definition round_trip_script `{Libraries} (coerce : scalar → string)
    (kept : list scalar → bool) (db : database) (written : workbook) : string :=
  "BEGIN TRANSACTION;" +:+ nl
  +:+ str_concat
        (zip_with (fun sheet table_name =>
                     table_statements coerce kept (title sheet)
                       (columns db table_name) (records db table_name))
           (worksheets written) (tables db))
  +:+ "COMMIT;" +:+ nl.

(** The reverse mapper run on the file of the forward mapper. *)
Definition reverse_of_forward `{Libraries} (db : database) : result string :=
  file ← sql_to_xlsx db;
  workbook ← load_workbook file;
  xlsx_to_sql workbook.

(** The column line of a field with a complete descriptor. *)
Definition descriptor_line `{Libraries} (quoted : bool) (field : scalar * json)
  : string :=
  match getitem field.2 "type", getitem field.2 "not_null" with
  | Ok ty, Ok not_null =>
      column_line quoted field.1 (json_str ty) (json_truthy not_null)
  | _, _ => EmptyString
  end.

(** * Small inputs *)

(** ** The libraries on the texts of the examples

    [json.dumps] with its default separators, for values whose strings have no
    character to escape.  [json.loads] on the documents listed in
    [sample_documents], which it reads back as the values they were written
    from; every other text the examples give it is not JSON, and is refused.
    openpyxl's title for a new sheet: the title asked for when it is free, and
    the title followed by 1 when it is taken once; a title with one of the
    characters that openpyxl refuses raises [ValueError].  A value is stored
    in a cell as it is given, bytes as the string of their characters.  A
    workbook without sheets is not saved ([IndexError]); the file of a
    workbook is the workbook with the empty strings and the empty cells left
    out, and loading it gives it back.  No descriptor of the examples has a
    list or a dict for an entry and no cell holds a float or bytes, so [repr]
    is not called. *)

Fixpoint dumps_plain (j : json) : string :=
  match j with
  | JNull => "null"
  | JBool true => "true"
  | JBool false => "false"
  | JInt n => pretty n
  | JStr s => dq +:+ s +:+ dq
  | JArr items => "[" +:+ String.concat ", " (map dumps_plain items) +:+ "]"
  | JObj members =>
      "{" +:+ String.concat ", "
                (map (fun m => dq +:+ fst m +:+ dq +:+ ": " +:+ dumps_plain (snd m))
                     members)
      +:+ "}"
  end.

Definition descriptor (ty : string) (not_null : bool) (key : Z) : json :=
  JObj [("type", JStr ty); ("not_null", JBool not_null); ("pk", JInt key)].

Definition sample_documents : dict json :=
  (fun j => (dumps_plain j, j))
  <$> [descriptor "INTEGER" false 1; descriptor "TEXT" true 1;
       descriptor "TEXT" true 0; descriptor "TEXT" false 0;
       descriptor "TEXT" false 1; JObj [("pk", JInt 1)]].

(** The characters that openpyxl refuses in a title: backslash, star,
    question mark, colon, slash and the square brackets. *)
Definition refused_in_title (a : ascii) : bool :=
  existsb (Ascii.eqb a) (list_ascii_of_string "\*?:/[]").

Fixpoint refused_title (s : string) : bool :=
  match s with
  | EmptyString => false
  | String a rest => refused_in_title a || refused_title rest
  end.

#[global] Instance cell_eq_dec : EqDecision cell.
Proof. solve_decision. Defined.

(** What the file keeps of a cell: nothing of an empty cell. *)
Definition store_cell (c : cell) : option cell :=
  let c := Cell (stored (value c)) (comment c) in
  if decide (c = empty_cell) then None else Some c.

Definition store_sheet (ws : worksheet) : worksheet :=
  Worksheet (title ws) (omap store_cell (_cells ws)).

Definition sample_libraries : Libraries := {|
  json_loads := fun s => dict_get s sample_documents;
  json_dumps := dumps_plain;
  py_repr := fun _ => EmptyString;
  float_repr := fun _ => EmptyString;
  bytes_repr := fun _ => EmptyString;
  create_sheet := fun names value =>
    if refused_title value then Raise ValueError
    else Ok (if bool_decide (value ∈ names) then value +:+ "1" else value);
  bind_value := fun v =>
    match v with
    | PBytes b => Ok (PStr (string_of_list_byte b))
    | _ => Ok v
    end;
  xlsx_file := workbook;
  save := fun wb =>
    match worksheets wb with
    | [] => Raise IndexError
    | _ => Ok (Workbook (store_sheet <$> worksheets wb) (description wb))
    end;
  load_workbook := fun file => Ok file
|}.

(** What a database answers for a name that is not one of its tables: no
    column, and no SELECT. *)
Definition no_such_table {A} : result (list A) := Raise OperationalError.

(** A sheet from the list of its cells. *)
Definition sheet_of (name : string) (cells : list (nat * nat * cell))
  : worksheet :=
  Worksheet name (list_to_map cells).

Definition annotated (v : scalar) (metadata : string) : cell :=
  Cell v (Some (COMMENT_PREFIX +:+ metadata)).

Definition plain (v : scalar) : cell := Cell v None.

(** A database of two tables and an index; the name of the second table has
    35 characters, and its last record is blank. *)
Definition shop_db : database := {|
  sqlite_master :=
    [MasterEntry "table" "people";
     MasterEntry "table" "customer_order_line_item_history_v2";
     MasterEntry "index" "sqlite_autoindex_customer_order_line_item_history_v2_1"];
  table_info := fun name =>
    if String.eqb name "people" then
      Ok [ColumnInfo 0 "id" "INTEGER" 0 PNone 1;
          ColumnInfo 1 "name" "TEXT" 1 PNone 0;
          ColumnInfo 2 "nick" "TEXT" 0 PNone 0]
    else if String.eqb name "customer_order_line_item_history_v2" then
      Ok [ColumnInfo 0 "code" "TEXT" 1 PNone 1]
    else Ok [];
  select_all := fun name =>
    if String.eqb name "people" then
      Ok [[PInt 1; PStr "Ann"; PNone]; [PInt 2; PStr "O'Hara"; PStr "ohara"]]
    else if String.eqb name "customer_order_line_item_history_v2" then
      Ok [[PStr "x1"]; [PStr EmptyString]]
    else no_such_table
|}.

(** What AUTOINCREMENT leaves in [sqlite_master]: the table of the script and
    the sequence table of the engine. *)
Definition autoincrement_db : database := {|
  sqlite_master :=
    [MasterEntry "table" "t"; MasterEntry "table" "sqlite_sequence"];
  table_info := fun name =>
    if String.eqb name "t" then Ok [ColumnInfo 0 "id" "INTEGER" 0 PNone 1]
    else if String.eqb name "sqlite_sequence" then
      Ok [ColumnInfo 0 "name" EmptyString 0 PNone 0;
          ColumnInfo 1 "seq" EmptyString 0 PNone 0]
    else Ok [];
  select_all := fun name =>
    if String.eqb name "t" then Ok [[PInt 1]]
    else if String.eqb name "sqlite_sequence" then Ok [[PStr "t"; PInt 1]]
    else no_such_table
|}.

(** CREATE TABLE t(id INTEGER PRIMARY KEY); INSERT INTO t VALUES(0); *)
Definition zero_db : database := {|
  sqlite_master := [MasterEntry "table" "t"];
  table_info := fun name =>
    if String.eqb name "t" then Ok [ColumnInfo 0 "id" "INTEGER" 0 PNone 1]
    else Ok [];
  select_all := fun name =>
    if String.eqb name "t" then Ok [[PInt 0]] else no_such_table
|}.

(** CREATE TABLE t(k TEXT PRIMARY KEY);
    INSERT INTO t VALUES('a'); INSERT INTO t VALUES(''); *)
Definition blank_db : database := {|
  sqlite_master := [MasterEntry "table" "t"];
  table_info := fun name =>
    if String.eqb name "t" then Ok [ColumnInfo 0 "k" "TEXT" 0 PNone 1]
    else Ok [];
  select_all := fun name =>
    if String.eqb name "t" then Ok [[PStr "a"]; [PStr EmptyString]]
    else no_such_table
|}.

(** CREATE TABLE log(line TEXT); INSERT INTO log VALUES('started'); *)
Definition log_db : database := {|
  sqlite_master := [MasterEntry "table" "log"];
  table_info := fun name =>
    if String.eqb name "log" then Ok [ColumnInfo 0 "line" "TEXT" 0 PNone 0]
    else Ok [];
  select_all := fun name =>
    if String.eqb name "log" then Ok [[PStr "started"]] else no_such_table
|}.

(** Two tables whose names, of 35 characters, have their first 29 characters
    in common. *)
Definition twin_db : database := {|
  sqlite_master :=
    [MasterEntry "table" "customer_order_line_item_history_v1";
     MasterEntry "table" "customer_order_line_item_history_v2"];
  table_info := fun name =>
    if String.eqb (str_take 33 name) "customer_order_line_item_history_"
    then Ok [ColumnInfo 0 "code" "TEXT" 1 PNone 1]
    else Ok [];
  select_all := fun name =>
    if String.eqb (str_take 33 name) "customer_order_line_item_history_"
    then Ok [] else no_such_table
|}.

(** CREATE TABLE "a/b"(id INTEGER PRIMARY KEY); *)
Definition slash_db : database := {|
  sqlite_master := [MasterEntry "table" "a/b"];
  table_info := fun name =>
    if String.eqb name "a/b" then Ok [ColumnInfo 0 "id" "INTEGER" 0 PNone 1]
    else Ok [];
  select_all := fun name =>
    if String.eqb name "a/b" then Ok [] else no_such_table
|}.

(** CREATE TABLE "it's"(id INTEGER PRIMARY KEY); the statements built from
    the name are not statements. *)
Definition quote_db : database := {|
  sqlite_master := [MasterEntry "table" "it's"];
  table_info := fun _ => Raise OperationalError;
  select_all := fun _ => Raise OperationalError
|}.

(** The workbook that the forward mapper makes of a database of the
    examples, and the workbook loaded from the file it saves. *)
Definition workbook_of (db : database) : workbook :=
  match @make_workbook sample_libraries db with
  | Ok wb => wb
  | Raise _ => Workbook [] EmptyString
  end.

(** The sheet that the forward mapper makes of a table of the examples, in
    a workbook without sheets. *)
Definition table_sheet_of (db : database) (table_name : string) : worksheet :=
  match @table_sheet sample_libraries db [] table_name with
  | Ok ws => ws
  | Raise _ => Worksheet EmptyString ∅
  end.

Definition loaded_of (db : database) : workbook :=
  match @sql_to_xlsx sample_libraries db ≫= @load_workbook sample_libraries with
  | Ok wb => wb
  | Raise _ => Workbook [] EmptyString
  end.

Definition id_column : cell :=
  annotated (PStr "id") (dumps_plain (descriptor "INTEGER" false 1)).

(** A sheet with a primary key and a column typed in by hand. *)
Definition notes_sheet : worksheet :=
  sheet_of "notes"
    [((1, 1), id_column); ((1, 2), plain (PStr "note"));
     ((2, 1), plain (PInt 7)); ((2, 2), plain (PStr "seven"));
     ((2, 3), plain (PStr "beyond the header"));
     ((4, 2), plain (PBool true))].

(** The header of [notes_sheet], and a cell in row 1 after the first empty
    cell. *)
Definition gap_sheet : worksheet :=
  sheet_of "gap"
    [((1, 1), id_column); ((1, 2), plain (PStr "note"));
     ((1, 4), plain (PStr "later")); ((2, 1), plain (PInt 8))].

(** Sheets with no primary key, and with two. *)
Definition keyless_sheet : worksheet :=
  sheet_of "keyless" [((1, 1), plain (PStr "a")); ((2, 1), plain (PInt 1))].

Definition two_keys_sheet : worksheet :=
  sheet_of "two_keys"
    [((1, 1), id_column);
     ((1, 2), annotated (PStr "k") (dumps_plain (descriptor "TEXT" false 1)))].

(** Sheets whose comment is not JSON after the prefix, lacks entries, or does
    not start with the prefix. *)
Definition malformed_sheet : worksheet :=
  sheet_of "malformed" [((1, 1), annotated (PStr "id") "{")].

Definition incomplete_sheet : worksheet :=
  sheet_of "incomplete"
    [((1, 1), annotated (PStr "id") (dumps_plain (JObj [("pk", JInt 1)])))].

Definition edited_sheet : worksheet :=
  sheet_of "edited" [((1, 1), Cell (PStr "id") (Some "my own comment"))].

Definition begin_text : string := "BEGIN TRANSACTION;" +:+ nl.

(** A script from its lines. *)
Definition script_of (text : list string) : string :=
  str_concat ((fun line => line +:+ nl) <$> text).

Definition create_line (table_name : string) : string :=
  "CREATE TABLE " +:+ dq +:+ table_name +:+ dq +:+ " (".

Definition insert_into (table_name : string) (values : string) : string :=
  "INSERT INTO " +:+ dq +:+ table_name +:+ dq +:+ " VALUES(" +:+ values +:+ ");".

(** The round trip of [shop_db]. *)
Definition shop_script : string :=
  script_of
    ["BEGIN TRANSACTION;";
     create_line "people";
     tab +:+ "id INTEGER,";
     tab +:+ dq +:+ "name" +:+ dq +:+ " TEXT NOT NULL,";
     tab +:+ dq +:+ "nick" +:+ dq +:+ " TEXT,";
     "  PRIMARY KEY (id)";
     ");";
     insert_into "people" "'1','Ann',''";
     insert_into "people" "'2','O'Hara','ohara'";
     create_line "customer_order_line_item_hist";
     tab +:+ "code TEXT NOT NULL,";
     "  PRIMARY KEY (code)";
     ");";
     insert_into "customer_order_line_item_hist" "'x1'";
     "COMMIT;"].

(** The conversion of [notes_sheet]. *)
Definition notes_script : string :=
  script_of
    ["BEGIN TRANSACTION;";
     create_line "notes";
     tab +:+ "id INTEGER,";
     tab +:+ dq +:+ "note" +:+ dq +:+ " VARCHAR(255),";
     "  PRIMARY KEY (id)";
     ");";
     insert_into "notes" "'7','seven'";
     insert_into "notes" "'','True'"].

(** * Properties *)

(** One step of the error monad, in a hypothesis. *)
Ltac run_bind H := cbn [mbind result_bind] in H.

(** ** Strings *)

Lemma str_app_cons (x : ascii) (a b : string) :
  String x a +:+ b = String x (a +:+ b).
Proof. reflexivity. Qed.

Lemma str_app_nil_l (a : string) : EmptyString +:+ a = a.
Proof. reflexivity. Qed.

Lemma str_app_assoc (a b c : string) : (a +:+ b) +:+ c = a +:+ (b +:+ c).
Proof.
  induction a as [|x a IH]; [reflexivity |].
  by rewrite !str_app_cons, IH.
Qed.

Lemma str_app_nil_r (a : string) : a +:+ EmptyString = a.
Proof.
  induction a as [|x a IH]; [reflexivity |].
  by rewrite str_app_cons, IH.
Qed.

Lemma str_app_length (a b : string) :
  String.length (a +:+ b) = String.length a + String.length b.
Proof.
  induction a as [|x a IH]; [reflexivity |].
  rewrite str_app_cons. simpl. by rewrite IH.
Qed.

Lemma str_take_app (a b : string) : str_take (String.length a) (a +:+ b) = a.
Proof.
  induction a as [|x a IH]; [by destruct b |].
  rewrite str_app_cons. simpl. by rewrite IH.
Qed.

Lemma str_drop_app (a b : string) : str_drop (String.length a) (a +:+ b) = b.
Proof.
  induction a as [|x a IH]; [by destruct b |].
  rewrite str_app_cons. simpl. exact IH.
Qed.

Lemma str_take_drop (n : nat) (s : string) : str_take n s +:+ str_drop n s = s.
Proof.
  revert s; induction n as [|n IH]; intros [|x s]; simpl; try reflexivity.
  by rewrite str_app_cons, IH.
Qed.

Lemma str_take_length (n : nat) (s : string) :
  String.length (str_take n s) = Nat.min n (String.length s).
Proof.
  revert s; induction n as [|n IH]; intros [|x s]; simpl; try reflexivity.
  by rewrite IH.
Qed.

Lemma str_concat_app (l1 l2 : list string) :
  str_concat (l1 ++ l2) = str_concat l1 +:+ str_concat l2.
Proof.
  induction l1 as [|x l1 IH]; [reflexivity |].
  change (x +:+ str_concat (l1 ++ l2)
          = (x +:+ str_concat l1) +:+ str_concat l2).
  by rewrite IH, str_app_assoc.
Qed.

Lemma string_eqb_false (a b : string) : a ≠ b → String.eqb a b = false.
Proof. intros Hne. by apply String.eqb_neq. Qed.

(** ** The size of a sheet *)

Lemma max_row_ge (ws : worksheet) (r c : nat) (x : cell) :
  _cells ws !! (r, c) = Some x → r ≤ max_row ws.
Proof.
  unfold max_row. revert r c x.
  apply (map_fold_weak_ind
           (fun b (m : gmap (nat * nat) cell) =>
              ∀ r c x, m !! (r, c) = Some x → r ≤ b)).
  - intros r c x Hl. by rewrite lookup_empty in Hl.
  - intros [i j] y m b Hnone IH r c x Hl. simpl.
    destruct (decide ((i, j) = (r, c))) as [Heq | Hne].
    + inversion Heq; subst. lia.
    + rewrite lookup_insert_ne in Hl by done. specialize (IH _ _ _ Hl). lia.
Qed.

Lemma max_column_ge (ws : worksheet) (r c : nat) (x : cell) :
  _cells ws !! (r, c) = Some x → c ≤ max_column ws.
Proof.
  unfold max_column. revert r c x.
  apply (map_fold_weak_ind
           (fun b (m : gmap (nat * nat) cell) =>
              ∀ r c x, m !! (r, c) = Some x → c ≤ b)).
  - intros r c x Hl. by rewrite lookup_empty in Hl.
  - intros [i j] y m b Hnone IH r c x Hl. simpl.
    destruct (decide ((i, j) = (r, c))) as [Heq | Hne].
    + inversion Heq; subst. lia.
    + rewrite lookup_insert_ne in Hl by done. specialize (IH _ _ _ Hl). lia.
Qed.

(** The last row, and the last column, is 1 or holds a cell. *)
Lemma max_row_attained (ws : worksheet) :
  max_row ws = 1 ∨ ∃ c, is_Some (_cells ws !! (max_row ws, c)).
Proof.
  unfold max_row.
  apply (map_fold_weak_ind
           (fun b (m : gmap (nat * nat) cell) =>
              b = 1 ∨ ∃ c, is_Some (m !! (b, c)))).
  - by left.
  - intros [i j] y m b Hnone IH. simpl.
    destruct (Nat.max_spec i b) as [[Hlt ->] | [Hle ->]].
    + destruct IH as [-> | [c [z Hz]]]; [by left |].
      right. exists c. rewrite lookup_insert_ne; [by eexists |].
      intros Heq. inversion Heq; subst. congruence.
    + right. exists j. rewrite lookup_insert_eq. by eexists.
Qed.

Lemma max_column_attained (ws : worksheet) :
  max_column ws = 1 ∨ ∃ r, is_Some (_cells ws !! (r, max_column ws)).
Proof.
  unfold max_column.
  apply (map_fold_weak_ind
           (fun b (m : gmap (nat * nat) cell) =>
              b = 1 ∨ ∃ r, is_Some (m !! (r, b)))).
  - by left.
  - intros [i j] y m b Hnone IH. simpl.
    destruct (Nat.max_spec j b) as [[Hlt ->] | [Hle ->]].
    + destruct IH as [-> | [r [z Hz]]]; [by left |].
      right. exists r. rewrite lookup_insert_ne; [by eexists |].
      intros Heq. inversion Heq; subst. congruence.
    + right. exists i. rewrite lookup_insert_eq. by eexists.
Qed.

Lemma max_row_pos (ws : worksheet) : 1 ≤ max_row ws.
Proof.
  unfold max_row.
  apply (map_fold_weak_ind (fun b (m : gmap (nat * nat) cell) => 1 ≤ b)).
  - done.
  - intros; simpl; lia.
Qed.

Lemma max_column_pos (ws : worksheet) : 1 ≤ max_column ws.
Proof.
  unfold max_column.
  apply (map_fold_weak_ind (fun b (m : gmap (nat * nat) cell) => 1 ≤ b)).
  - done.
  - intros; simpl; lia.
Qed.

(** A cell beyond the last column is a new, empty cell. *)
Lemma ws_cell_beyond (ws : worksheet) (r c : nat) :
  max_column ws < c → ws_cell ws r c = empty_cell.
Proof.
  intros Hlt. unfold ws_cell.
  destruct (_cells ws !! (r, c)) as [x|] eqn:Hl; [| reflexivity].
  apply max_column_ge in Hl. lia.
Qed.

Lemma truthy_cell_within (ws : worksheet) (r c : nat) :
  truthy (value (ws_cell ws r c)) = true → c ≤ max_column ws.
Proof.
  intros Ht. destruct (decide (c ≤ max_column ws)) as [|Hgt]; [done |].
  rewrite ws_cell_beyond in Ht by lia. discriminate.
Qed.

(** ** The header loop *)

Section HeaderFacts.
Context `{Libraries}.

(** The loop ends before the fuel does when the fuel reaches past the last
    column. *)
Lemma header_loop_ends (sheet : worksheet) (fuel column : nat) :
  max_column sheet < fuel + column → is_Some (header_loop sheet fuel column).
Proof.
  revert column; induction fuel as [|fuel IH]; intros column Hlt; simpl.
  - rewrite ws_cell_beyond by lia. by eexists.
  - destruct (truthy (value (ws_cell sheet 1 column))); [| by eexists].
    destruct (cell_metadata (ws_cell sheet 1 column)); [| by eexists].
    destruct (IH (column + 1)) as [r Hr]; [lia |].
    rewrite Hr. destruct r as [[fields mds] | e]; by eexists.
Qed.

Lemma detect_fields_header_loop (sheet : worksheet) :
  header_loop sheet (max_column sheet) 1 = Some (detect_fields sheet).
Proof.
  unfold detect_fields.
  destruct (header_loop_ends sheet (max_column sheet) 1) as [r Hr]; [lia |].
  by rewrite Hr.
Qed.

(** What the loop returns when it returns fields: the values of the cells of
    row 1 up to the first empty one, each with the metadata of its cell. *)
Lemma header_loop_fields (sheet : worksheet) (fuel column : nat)
    (fields : list scalar) (mds : list json) :
  header_loop sheet fuel column = Some (Ok (fields, mds)) →
  ∃ n, fields = (fun i => value (ws_cell sheet 1 (column + i))) <$> seq 0 n
       ∧ Forall2 (fun i m => cell_metadata (ws_cell sheet 1 (column + i)) = Ok m)
                 (seq 0 n) mds
       ∧ Forall (fun v => truthy v = true) fields
       ∧ truthy (value (ws_cell sheet 1 (column + n))) = false.
Proof.
  revert column fields mds; induction fuel as [|fuel IH];
    intros column fields mds Hloop; simpl in Hloop.
  - destruct (truthy (value (ws_cell sheet 1 column))) eqn:Ht; [done |].
    inversion Hloop; subst. exists 0. rewrite Nat.add_0_r.
    repeat split; auto; constructor.
  - destruct (truthy (value (ws_cell sheet 1 column))) eqn:Ht.
    + destruct (cell_metadata (ws_cell sheet 1 column)) as [m|e] eqn:Hm;
        [| done].
      destruct (header_loop sheet fuel (column + 1)) as [[[fs ms]|e]|] eqn:Hrec;
        try done.
      inversion Hloop; subst.
      destruct (IH _ _ _ Hrec) as (n & Hfs & Hms & Htr & Hend).
      exists (S n). cbn [seq]. rewrite <- !fmap_S_seq. cbn [fmap list_fmap].
      rewrite Nat.add_0_r. repeat split.
      * f_equal. rewrite Hfs, <- list_fmap_compose. apply list_fmap_ext.
        intros _ i _. unfold compose.
        by replace (column + 1 + i) with (column + S i) by lia.
      * constructor; [by rewrite Nat.add_0_r |]. rewrite Forall2_fmap_l.
        eapply Forall2_impl; [exact Hms |]. intros i m' Hi. unfold compose.
        by replace (column + S i) with (column + 1 + i) by lia.
      * constructor; [done |]. done.
      * by replace (column + S n) with (column + 1 + n) by lia.
    + inversion Hloop; subst. exists 0. rewrite Nat.add_0_r.
      repeat split; auto; constructor.
Qed.

Lemma detect_fields_spec (sheet : worksheet) (fields : list scalar)
    (mds : list json) :
  detect_fields sheet = Ok (fields, mds) →
  ∃ n, fields = (fun i => value (ws_cell sheet 1 (1 + i))) <$> seq 0 n
       ∧ Forall2 (fun i m => cell_metadata (ws_cell sheet 1 (1 + i)) = Ok m)
                 (seq 0 n) mds
       ∧ Forall (fun v => truthy v = true) fields
       ∧ truthy (value (ws_cell sheet 1 (1 + n))) = false.
Proof.
  intros Hd. apply (header_loop_fields sheet (max_column sheet)).
  by rewrite detect_fields_header_loop, Hd.
Qed.

Lemma detect_fields_length (sheet : worksheet) (fields : list scalar)
    (mds : list json) :
  detect_fields sheet = Ok (fields, mds) → length mds = length fields.
Proof.
  intros Hd. destruct (detect_fields_spec _ _ _ Hd) as (n & -> & Hms & _).
  apply Forall2_length in Hms. by rewrite length_fmap, <- Hms.
Qed.

(** The other way round: a row 1 that holds [n] named cells with readable
    metadata, then an empty cell, is a header of [n] fields. *)
Lemma header_loop_reads (sheet : worksheet) (n fuel column : nat)
    (name : nat → scalar) (metadata : nat → json) :
  n ≤ fuel →
  (∀ i, i < n →
        value (ws_cell sheet 1 (column + i)) = name i
        ∧ truthy (name i) = true
        ∧ cell_metadata (ws_cell sheet 1 (column + i)) = Ok (metadata i)) →
  truthy (value (ws_cell sheet 1 (column + n))) = false →
  header_loop sheet fuel column
  = Some (Ok (name <$> seq 0 n, metadata <$> seq 0 n)).
Proof.
  revert fuel column name metadata; induction n as [|n IH];
    intros fuel column name metadata Hfuel Hcells Hend.
  - rewrite Nat.add_0_r in Hend. destruct fuel; simpl; by rewrite Hend.
  - destruct fuel as [|fuel]; [lia |]. simpl.
    destruct (Hcells 0) as (Hv & Ht & Hm); [lia |].
    rewrite Nat.add_0_r in Hv, Hm. rewrite Hv, Ht, Hm.
    rewrite (IH fuel (column + 1) (fun i => name (S i)) (fun i => metadata (S i))).
    + cbn [seq]. rewrite <- !fmap_S_seq. cbn [fmap list_fmap].
      rewrite <- !list_fmap_compose. reflexivity.
    + lia.
    + intros i Hi. destruct (Hcells (S i)) as (Hv' & Ht' & Hm'); [lia |].
      replace (column + 1 + i) with (column + S i) by lia. done.
    + replace (column + 1 + n) with (column + S n) by lia. done.
Qed.

(** A header cell whose metadata cannot be read ends the loop with its
    exception, when the cells before it are read. *)
Lemma header_loop_raises (sheet : worksheet) (k fuel column : nat) (e : exn) :
  k < fuel →
  (∀ i, i < k →
        truthy (value (ws_cell sheet 1 (column + i))) = true
        ∧ ∃ m, cell_metadata (ws_cell sheet 1 (column + i)) = Ok m) →
  truthy (value (ws_cell sheet 1 (column + k))) = true →
  cell_metadata (ws_cell sheet 1 (column + k)) = Raise e →
  header_loop sheet fuel column = Some (Raise e).
Proof.
  revert fuel column; induction k as [|k IH];
    intros fuel column Hfuel Hbefore Ht He;
    (destruct fuel as [|fuel]; [lia |]); simpl.
  - rewrite Nat.add_0_r in Ht, He. by rewrite Ht, He.
  - destruct (Hbefore 0) as (Ht0 & m & Hm); [lia |].
    rewrite Nat.add_0_r in Ht0, Hm. rewrite Ht0, Hm.
    rewrite (IH fuel (column + 1)); [reflexivity | lia | | |].
    + intros i Hi. replace (column + 1 + i) with (column + S i) by lia.
      apply Hbefore. lia.
    + by replace (column + 1 + k) with (column + S k) by lia.
    + by replace (column + 1 + k) with (column + S k) by lia.
Qed.

Lemma detect_fields_raises (sheet : worksheet) (k : nat) (e : exn) :
  (∀ i, i < k →
        truthy (value (ws_cell sheet 1 (1 + i))) = true
        ∧ ∃ m, cell_metadata (ws_cell sheet 1 (1 + i)) = Ok m) →
  truthy (value (ws_cell sheet 1 (1 + k))) = true →
  cell_metadata (ws_cell sheet 1 (1 + k)) = Raise e →
  detect_fields sheet = Raise e.
Proof.
  intros Hbefore Ht He. unfold detect_fields.
  rewrite (header_loop_raises sheet k (max_column sheet) 1 e); try done.
  apply truthy_cell_within in Ht. lia.
Qed.

End HeaderFacts.

(** ** The CREATE TABLE statement *)

Lemma count_pk_cons (m : json) (mds : list json) :
  count_pk (m :: mds) = (if pk_flag m then 1 else 0) + count_pk mds.
Proof.
  unfold count_pk. destruct (pk_flag m) eqn:Hm.
  - by rewrite filter_cons_True.
  - rewrite filter_cons_False; [done | congruence].
Qed.

Section TableFacts.
Context `{Libraries}.

Lemma add_fields_lines (table_name : string) (fields : list (scalar * json))
    (pk0 pk1 : scalar) (script script' : string) :
  add_fields table_name fields pk0 script = Ok (pk1, script') →
  ∃ lines, Forall2 line_of fields lines
           ∧ script' = script +:+ str_concat lines.
Proof.
  revert pk0 script; induction fields as [|[name md] rest IH];
    intros pk0 script Hadd; simpl in Hadd.
  - inversion Hadd; subst. exists []. split; [constructor |].
    by rewrite str_app_nil_r.
  - destruct (getitem md "pk") as [pkv|e] eqn:Hpk; run_bind Hadd; [| done].
    destruct (if json_truthy pkv
              then if negb (is_none pk0)
                   then Raise (multiple_pk_error table_name) else Ok name
              else Ok pk0) as [pk'|e] eqn:Hsel;
      unfold multiple_pk_error in Hsel; rewrite Hsel in Hadd;
      run_bind Hadd; [| done].
    destruct (getitem md "type") as [ty|e] eqn:Hty; run_bind Hadd; [| done].
    destruct (getitem md "not_null") as [nn|e] eqn:Hnn; run_bind Hadd;
      [| done].
    apply IH in Hadd as (lines & Hlines & ->).
    exists (column_line (negb (py_eq pk' name)) name (json_str ty)
              (json_truthy nn) :: lines).
    split.
    + constructor; [| done]. by exists (negb (py_eq pk' name)), ty, nn.
    + unfold column_line.
      change (str_concat (?x :: lines)) with (x +:+ str_concat lines).
      destruct (py_eq pk' name), (json_truthy nn); simpl negb; cbv iota;
        by rewrite ?str_app_assoc, ?str_app_nil_l.
Qed.

(** How many fields are flagged decides what [add_fields] does, for fields
    whose descriptors are complete. *)
Lemma add_fields_pk (table_name : string) (fields : list (scalar * json))
    (pk0 : scalar) (script : string) :
  Forall (fun f => is_none f.1 = false ∧ complete_descriptor f.2 = true) fields →
  match count_pk fields.*2, is_none pk0 with
  | 0, _ => ∃ s, add_fields table_name fields pk0 script = Ok (pk0, s)
  | 1, true => ∃ p s, add_fields table_name fields pk0 script = Ok (p, s)
                      ∧ is_none p = false
  | _, _ => add_fields table_name fields pk0 script
            = Raise (multiple_pk_error table_name)
  end.
Proof.
  intros Hall; revert pk0 script;
    induction Hall as [|[name md] rest [Hname Hmd] Hrest IH]; intros pk0 script.
  - simpl. by eexists.
  - simpl in Hname, Hmd. rewrite fmap_cons, count_pk_cons. cbn [snd].
    unfold complete_descriptor in Hmd. unfold pk_flag. simpl add_fields.
    destruct (getitem md "pk") as [pkv|] eqn:Hpk; [| done].
    destruct (getitem md "type") as [ty|] eqn:Hty; [| done].
    destruct (getitem md "not_null") as [nn|] eqn:Hnn; [| done].
    cbn [mbind result_bind].
    destruct (json_truthy pkv) eqn:Hflag.
    + destruct (is_none pk0) eqn:Hpk0; cbn [negb mbind result_bind].
      * match goal with
        | |- context [add_fields table_name rest name ?s] =>
            specialize (IH name s)
        end.
        rewrite Hname in IH. cbn [Nat.add].
        destruct (count_pk rest.*2) as [|n].
        -- destruct IH as [s Hs]. exists name, s. by rewrite Hs.
        -- by destruct n.
      * cbn [Nat.add]. by destruct (count_pk rest.*2).
    + cbn [Nat.add mbind result_bind]. apply IH.
Qed.

Lemma getitem_raises (m : json) (key : string) (e : exn) (table_name : string) :
  getitem m key = Raise e → descriptor_error table_name e.
Proof.
  unfold getitem, descriptor_error. intros Hg.
  destruct m as [| | | | |members]; try (inversion Hg; by left).
  destruct (dict_get key members); inversion Hg. right; left. by eexists.
Qed.

(** A descriptor that lacks an entry read by the loop ends the loop with an
    exception: the one of the missing entry, when no earlier field has ended
    the loop. *)
Lemma add_fields_incomplete (table_name : string)
    (fields : list (scalar * json)) (pk0 : scalar) (script : string) :
  Exists (fun f => complete_descriptor f.2 = false) fields →
  ∃ e, add_fields table_name fields pk0 script = Raise e
       ∧ descriptor_error table_name e.
Proof.
  intros Hex; revert pk0 script;
    induction fields as [|[name md] rest IH]; intros pk0 script.
  - by apply Exists_nil in Hex.
  - simpl add_fields.
    destruct (getitem md "pk") as [pkv|e] eqn:Hpk;
      [| eauto using getitem_raises].
    cbn [mbind result_bind].
    destruct (if json_truthy pkv
              then if negb (is_none pk0)
                   then Raise (multiple_pk_error table_name) else Ok name
              else Ok pk0) as [pk'|e] eqn:Hsel.
    2: { unfold multiple_pk_error in Hsel. rewrite Hsel. exists e.
         split; [done |]. right; right.
         destruct (json_truthy pkv), (negb (is_none pk0)); by inversion Hsel. }
    unfold multiple_pk_error in Hsel. rewrite Hsel. cbn [mbind result_bind].
    destruct (getitem md "type") as [ty|e] eqn:Hty;
      [| eauto using getitem_raises].
    cbn [mbind result_bind].
    destruct (getitem md "not_null") as [nn|e] eqn:Hnn;
      [| eauto using getitem_raises].
    cbn [mbind result_bind].
    apply IH. apply Exists_cons in Hex as [Hhead | Htail]; [| done].
    simpl in Hhead. unfold complete_descriptor in Hhead.
    by rewrite Hpk, Hty, Hnn in Hhead.
Qed.

End TableFacts.

Section CreateTableFacts.
Context `{Libraries}.

Lemma truthy_not_none (v : scalar) : truthy v = true → is_none v = false.
Proof. by destruct v. Qed.

(** The text of a CREATE TABLE statement that has been written. *)
Lemma create_table_text (table_name : string) (fields : list scalar)
    (mds : list json) (script script' : string) :
  create_table table_name fields mds script = Ok script' →
  ∃ lines pkf,
    Forall2 line_of (zip fields mds) lines
    ∧ is_none pkf = false
    ∧ script' = script +:+ "CREATE TABLE " +:+ dq +:+ table_name +:+ dq
                +:+ " (" +:+ nl +:+ str_concat lines
                +:+ "  PRIMARY KEY (" +:+ py_str pkf +:+ ")" +:+ nl
                +:+ ");" +:+ nl.
Proof.
  unfold create_table. intros Hc.
  destruct (add_fields table_name (zip fields mds) PNone _)
    as [[pkf s1]|e] eqn:Hadd; run_bind Hc; [| done].
  destruct (is_none pkf) eqn:Hpkf; cbn [negb] in Hc; run_bind Hc; [done |].
  inversion Hc; subst; clear Hc.
  apply add_fields_lines in Hadd as (lines & Hlines & ->).
  exists lines, pkf. repeat split; [done.. |].
  by rewrite !str_app_assoc.
Qed.

(** The number of flagged fields decides whether the statement is written. *)
Lemma create_table_pk (table_name : string) (fields : list scalar)
    (mds : list json) (script : string) :
  length mds = length fields →
  Forall (fun v => truthy v = true) fields →
  Forall (fun m => complete_descriptor m = true) mds →
  match count_pk mds with
  | 0 => create_table table_name fields mds script
         = Raise (no_pk_error table_name)
  | 1 => ∃ s, create_table table_name fields mds script = Ok s
  | _ => create_table table_name fields mds script
         = Raise (multiple_pk_error table_name)
  end.
Proof.
  intros Hlen Hfields Hmds. unfold create_table.
  match goal with
  | |- context [add_fields table_name ?fm PNone ?s] =>
      pose proof (add_fields_pk table_name fm PNone s) as Hpk
  end.
  rewrite snd_zip in Hpk by lia. cbn [is_none] in Hpk.
  assert (Forall (fun f : scalar * json =>
                    is_none f.1 = false ∧ complete_descriptor f.2 = true)
                 (zip fields mds)) as Hall.
  { apply Forall_forall. intros [v m] Hin.
    apply elem_of_zip_l in Hin as Hv. apply elem_of_zip_r in Hin as Hm.
    rewrite Forall_forall in Hfields. rewrite Forall_forall in Hmds.
    split; simpl.
    - apply truthy_not_none, Hfields, Hv.
    - apply Hmds, Hm. }
  specialize (Hpk Hall).
  destruct (count_pk mds) as [|[|n]].
  - destruct Hpk as [s ->]. reflexivity.
  - destruct Hpk as (p & s & -> & Hp). cbn [mbind result_bind].
    rewrite Hp. cbn [negb mbind result_bind]. by eexists.
  - by rewrite Hpk.
Qed.

(** An incomplete descriptor: no statement is written. *)
Lemma create_table_incomplete (table_name : string) (fields : list scalar)
    (mds : list json) (script : string) :
  length mds = length fields →
  Exists (fun m => complete_descriptor m = false) mds →
  ∃ e, create_table table_name fields mds script = Raise e
       ∧ descriptor_error table_name e.
Proof.
  intros Hlen Hex. unfold create_table.
  match goal with
  | |- context [add_fields table_name ?fm PNone ?s] =>
      destruct (add_fields_incomplete table_name fm PNone s) as (e & He & Hk)
  end.
  - apply Exists_exists in Hex as (m & Hm & Hinc).
    apply list_elem_of_lookup in Hm as [i Hi].
    destruct (lookup_lt_is_Some_2 fields i) as [v Hv].
    { rewrite <- Hlen. by eapply lookup_lt_Some. }
    apply Exists_exists. exists (v, m). split; [| done].
    apply list_elem_of_lookup. exists i. apply lookup_zip_with_Some. eauto.
  - rewrite He. by exists e.
Qed.

End CreateTableFacts.

(** ** The INSERT INTO statements *)

Lemma imap_const_seq {A B} (g : nat → B) (l : list A) :
  imap (fun j _ => g j) l = g <$> seq 0 (length l).
Proof.
  revert g; induction l as [|x l IH]; intros g; [reflexivity |].
  cbn [imap length seq fmap list_fmap]. f_equal.
  rewrite <- fmap_S_seq, <- list_fmap_compose. apply (IH (g ∘ S)).
Qed.

Lemma imap_seq_from {B} (f : nat → nat → B) (a n : nat) :
  imap f (seq a n) = (fun r => f (r - a) r) <$> seq a n.
Proof.
  revert f a; induction n as [|n IH]; intros f a; [reflexivity |].
  cbn [seq imap fmap list_fmap]. f_equal; [f_equal; lia |].
  rewrite (IH (f ∘ S) (S a)). apply list_fmap_ext.
  intros i r Hr. apply lookup_seq in Hr as [-> _]. unfold compose.
  f_equal. lia.
Qed.

Section InsertFacts.
Context `{Libraries}.

Lemma record_values_texts (sheet : worksheet) (fields : list scalar)
    (row_index : nat) :
  record_values sheet fields row_index
  = PStr <$> row_texts sheet (length fields) (row_index + 1).
Proof.
  unfold record_values, row_texts.
  rewrite (imap_const_seq
             (fun j => PStr (py_str
                (if is_none (value (ws_cell sheet (row_index + 1) (j + 1)))
                 then PStr EmptyString
                 else value (ws_cell sheet (row_index + 1) (j + 1)))))).
  rewrite <- list_fmap_compose. apply list_fmap_ext. intros _ j _.
  unfold compose, cell_text.
  by destruct (value (ws_cell sheet (row_index + 1) (j + 1))).
Qed.

Lemma write_values_rest (column : nat) (texts : list string) :
  write_values (S column) (PStr <$> texts)
  = str_concat ((fun t => "," +:+ quoted t) <$> texts).
Proof.
  revert column; induction texts as [|t texts IH]; intros column;
    [reflexivity |].
  cbn [fmap list_fmap write_values Nat.ltb Nat.leb isinstance_str py_str].
  change (list_fmap _ _ PStr texts) with (PStr <$> texts).
  rewrite IH. unfold quoted.
  change (str_concat (?x :: ?l)) with (x +:+ str_concat l).
  by rewrite !str_app_assoc.
Qed.

Lemma concat_comma (x : string) (xs : list string) :
  String.concat "," (x :: xs) = x +:+ str_concat ((fun t => "," +:+ t) <$> xs).
Proof.
  revert x; induction xs as [|y xs IH]; intros x.
  - simpl. by rewrite str_app_nil_r.
  - change (String.concat "," (x :: y :: xs))
      with (x +:+ "," +:+ String.concat "," (y :: xs)).
    rewrite IH. cbn [fmap list_fmap].
    change (str_concat (?a :: ?l)) with (a +:+ str_concat l).
    by rewrite !str_app_assoc.
Qed.

Lemma write_values_concat (texts : list string) :
  write_values 0 (PStr <$> texts) = String.concat "," (quoted <$> texts).
Proof.
  destruct texts as [|t texts]; [reflexivity |].
  cbn [fmap list_fmap write_values Nat.ltb Nat.leb isinstance_str py_str].
  change (list_fmap _ _ PStr texts) with (PStr <$> texts).
  change (list_fmap _ _ quoted texts) with (quoted <$> texts).
  rewrite write_values_rest, concat_comma, <- list_fmap_compose.
  unfold quoted. by rewrite !str_app_assoc.
Qed.

Lemma insert_statement_line (sheet : worksheet) (table_name : string)
    (fields : list scalar) (row_index : nat) :
  insert_statement table_name (record_values sheet fields row_index)
  = insert_line table_name (row_texts sheet (length fields) (row_index + 1)).
Proof.
  unfold insert_statement, insert_line.
  by rewrite record_values_texts, write_values_concat.
Qed.

(** Reading a cell that is not there makes it, and a cell made past the last
    column widens the rows that [sheet.rows] gives afterwards.  The cells it
    adds to a row are empty: the test of line 135 sees the same. *)
Lemma any_value_wider (sheet : worksheet) (r k : nat) :
  any_value ((fun c => ws_cell sheet r c) <$> seq 1 (max_column sheet + k))
  = any_value (row_obj sheet r).
Proof.
  unfold row_obj, any_value. rewrite seq_app, fmap_app, existsb_app.
  rewrite <- (orb_false_r (existsb _ ((fun c => ws_cell sheet r c)
                                       <$> seq 1 (max_column sheet)))) at 2.
  f_equal. apply not_true_is_false. intros Hex.
  apply existsb_exists in Hex as (c & Hin & Ht).
  apply list_elem_of_In, list_elem_of_fmap in Hin as (i & -> & Hi).
  apply elem_of_seq in Hi. rewrite ws_cell_beyond in Ht by lia. discriminate.
Qed.

(** The records of a sheet are its rows 2 to [max_row]. *)
Lemma insert_records_rows (sheet : worksheet) (table_name : string)
    (fields : list scalar) :
  insert_records sheet table_name fields
  = str_concat (row_text sheet table_name (length fields)
                <$> seq 2 (max_row sheet - 1)).
Proof.
  unfold insert_records, rows.
  rewrite imap_fmap, imap_seq_from.
  pose proof (max_row_pos sheet) as Hpos.
  destruct (max_row sheet) as [|m]; [lia |].
  cbn [seq fmap list_fmap]. replace (S m - 1) with m by lia.
  change (str_concat (?a :: ?l)) with (a +:+ str_concat l).
  unfold compose at 1. unfold record_text at 1. cbn [Nat.sub Nat.eqb].
  rewrite str_app_nil_l. f_equal. apply list_fmap_ext.
  intros i r Hr. apply lookup_seq in Hr as [-> Hi]. unfold compose.
  unfold record_text, row_text. fold (row_obj sheet (2 + i)).
  replace (2 + i - 1) with (S i) by lia. cbn [Nat.eqb].
  rewrite insert_statement_line. replace (S i + 1) with (2 + i) by lia.
  by destruct (any_value (row_obj sheet (2 + i))).
Qed.

End InsertFacts.

(** ** Sheets and runs *)

Section RunFacts.
Context `{Libraries}.

Lemma convert_sheet_text (sheet : worksheet) (script script' : string) :
  convert_sheet sheet script = Ok script' →
  ∃ text, sheet_statements sheet text ∧ script' = script +:+ text.
Proof.
  unfold convert_sheet. intros Hc.
  destruct (detect_fields sheet) as [[fields mds]|e] eqn:Hd; run_bind Hc;
    [| done].
  destruct (create_table (title sheet) fields mds script) as [s1|e] eqn:Hct;
    run_bind Hc; [| done].
  inversion Hc; subst; clear Hc.
  apply create_table_text in Hct as (lines & pkf & Hlines & Hpkf & ->).
  eexists. split.
  - exists fields, mds, lines, pkf. split; [done |]. split; [done |].
    split; [done | reflexivity].
  - by rewrite insert_records_rows, !str_app_assoc.
Qed.

Lemma convert_sheet_extends (sheet : worksheet) (script script' : string) :
  convert_sheet sheet script = Ok script' → ∃ text, script' = script +:+ text.
Proof.
  intros Hc. apply convert_sheet_text in Hc as (text & _ & ->). by eexists.
Qed.

Lemma convert_sheets_text (sheets : list worksheet) (script script' : string) :
  convert_sheets sheets script = Ok script' →
  ∃ texts, Forall2 sheet_statements sheets texts
           ∧ script' = script +:+ str_concat texts.
Proof.
  revert script; induction sheets as [|sheet sheets IH]; intros script Hc;
    cbn [convert_sheets] in Hc.
  - inversion Hc; subst. exists []. split; [constructor |].
    by rewrite str_app_nil_r.
  - destruct (convert_sheet sheet script) as [s|e] eqn:Hs; run_bind Hc;
      [| done].
    apply convert_sheet_text in Hs as (text & Htext & ->).
    apply IH in Hc as (texts & Htexts & ->). exists (text :: texts).
    split; [by constructor |].
    change (str_concat (text :: texts)) with (text +:+ str_concat texts).
    by rewrite str_app_assoc.
Qed.

Lemma convert_sheets_app (pre post : list worksheet) (script : string) :
  convert_sheets (pre ++ post) script
  = convert_sheets pre script ≫= convert_sheets post.
Proof.
  revert script; induction pre as [|sheet pre IH]; intros script;
    [reflexivity |].
  cbn [app convert_sheets].
  destruct (convert_sheet sheet script) as [s|e]; cbn [mbind result_bind];
    [apply IH | reflexivity].
Qed.

(** A sheet that raises ends the run, when the sheets before it are
    converted. *)
Lemma xlsx_to_sql_raises (wb : workbook) (pre post : list worksheet)
    (sheet : worksheet) (script : string) (e : exn) :
  worksheets wb = pre ++ sheet :: post →
  convert_sheets pre ("BEGIN TRANSACTION;" +:+ nl) = Ok script →
  convert_sheet sheet script = Raise e →
  xlsx_to_sql wb = Raise e.
Proof.
  intros Hwb Hpre Hsheet. unfold xlsx_to_sql.
  rewrite Hwb, convert_sheets_app, str_app_nil_l, Hpre.
  cbn [mbind result_bind convert_sheets]. by rewrite Hsheet.
Qed.

End RunFacts.

(** * The reverse mapper: claims *)

(** C7.  A header cell without a comment is no error: its metadata is the
    default descriptor, type VARCHAR(255), not_null false, pk 0, and that is
    the descriptor its field has among the detected fields of its sheet. *)
Theorem default_descriptor_fallback `{Libraries} (c : cell) :
  comment c = None →
  cell_metadata c
  = Ok (JObj [("type", JStr "VARCHAR(255)"); ("not_null", JBool false);
              ("pk", JInt 0)])
  ∧ ∀ sheet fields mds i,
      detect_fields sheet = Ok (fields, mds) →
      i < length fields →
      ws_cell sheet 1 (i + 1) = c →
      mds !! i
      = Some (JObj [("type", JStr "VARCHAR(255)"); ("not_null", JBool false);
                    ("pk", JInt 0)]).
Proof.
  intros Hnone.
  assert (cell_metadata c = Ok DEFAULT_METADATA) as Hm.
  { unfold cell_metadata. by rewrite Hnone. }
  split; [exact Hm |].
  intros sheet fields mds i Hd Hi Hcell.
  destruct (detect_fields_spec _ _ _ Hd) as (n & Hf & Hms & _).
  rewrite Hf, length_fmap, length_seq in Hi.
  destruct (Forall2_lookup_l _ _ _ i i Hms) as (m & Hmi & Hread).
  { by apply lookup_seq. }
  replace (1 + i) with (i + 1) in Hread by lia.
  rewrite Hcell, Hm in Hread. inversion Hread; subst. exact Hmi.
Qed.

(** C2, as the script has it.  In a run that reaches a sheet whose fields all
    carry a descriptor with its "pk", "type" and "not_null" entries: with no
    field flagged as primary key the run ends with the error "no primary key
    field detected", with more than one it ends with "multiple primary key
    fields detected", and with exactly one the statements of the sheet are
    written. *)
Theorem primary_key_cardinality `{Libraries} (wb : workbook)
    (pre post : list worksheet) (sheet : worksheet) (fields : list scalar)
    (mds : list json) (script : string) :
  worksheets wb = pre ++ sheet :: post →
  convert_sheets pre ("BEGIN TRANSACTION;" +:+ nl) = Ok script →
  detect_fields sheet = Ok (fields, mds) →
  Forall (fun m => complete_descriptor m = true) mds →
  (count_pk mds = 0 →
   xlsx_to_sql wb
   = Raise (XLSXParseError ("Table " +:+ title sheet
                            +:+ ": no primary key field detected!")))
  ∧ (2 ≤ count_pk mds →
     xlsx_to_sql wb
     = Raise (XLSXParseError ("Table " +:+ title sheet
                              +:+ ": multiple primary key fields detected!")))
  ∧ (count_pk mds = 1 →
     ∃ text, convert_sheet sheet script = Ok (script +:+ text)).
Proof.
  intros Hwb Hpre Hd Hmds.
  destruct (detect_fields_spec _ _ _ Hd) as (n & _ & _ & Htruthy & _).
  pose proof (create_table_pk (title sheet) fields mds script
                (detect_fields_length _ _ _ Hd) Htruthy Hmds) as Hpk.
  assert (∀ e, create_table (title sheet) fields mds script = Raise e →
               xlsx_to_sql wb = Raise e) as Hrun.
  { intros e He. eapply xlsx_to_sql_raises; [exact Hwb | exact Hpre |].
    unfold convert_sheet. rewrite Hd. cbn [mbind result_bind]. by rewrite He. }
  repeat split.
  - intros H0. rewrite H0 in Hpk. by apply Hrun.
  - intros H2. destruct (count_pk mds) as [|[|k]]; [lia | lia |].
    by apply Hrun.
  - intros H1. rewrite H1 in Hpk. destruct Hpk as [s Hs].
    destruct (convert_sheet sheet script) as [s'|e] eqn:Hc.
    + apply convert_sheet_extends in Hc as [text ->]. by exists text.
    + unfold convert_sheet in Hc. rewrite Hd in Hc. run_bind Hc.
      rewrite Hs in Hc. run_bind Hc. done.
Qed.

(** C5, as the script has it.  Take a header cell with a comment, in a sheet
    that the run reaches, the header cells before it read without error.  If
    the first characters of the comment are not the prefix, the run ends with
    [XLSXParseError], the text of the comment inside the message.  With the
    prefix in place, text that [json.loads] rejects ends the run with the
    decoder's own [JSONDecodeError], and text that it accepts is the metadata
    of the field, whatever entries it has.  A descriptor without a "pk",
    "type" or "not_null" entry is met only when the CREATE TABLE statement of
    its sheet is written: the run ends there, with a [KeyError] or
    [TypeError] (or with the error of an earlier second primary key). *)
Theorem metadata_decode_failure `{Libraries} (wb : workbook)
    (pre post : list worksheet) (sheet : worksheet) (script : string)
    (k : nat) (comment_text : string) :
  worksheets wb = pre ++ sheet :: post →
  convert_sheets pre ("BEGIN TRANSACTION;" +:+ nl) = Ok script →
  (∀ i, i < k →
        truthy (value (ws_cell sheet 1 (1 + i))) = true
        ∧ ∃ m, cell_metadata (ws_cell sheet 1 (1 + i)) = Ok m) →
  truthy (value (ws_cell sheet 1 (1 + k))) = true →
  comment (ws_cell sheet 1 (1 + k)) = Some comment_text →
  (str_take (String.length COMMENT_PREFIX) comment_text ≠ COMMENT_PREFIX →
   xlsx_to_sql wb
   = Raise (XLSXParseError
              ("Comment verification failed: '" +:+ comment_text +:+ "'")))
  ∧ (str_take (String.length COMMENT_PREFIX) comment_text = COMMENT_PREFIX →
     json_loads (str_drop (String.length COMMENT_PREFIX) comment_text) = None →
     xlsx_to_sql wb = Raise JSONDecodeError)
  ∧ (str_take (String.length COMMENT_PREFIX) comment_text = COMMENT_PREFIX →
     ∀ metadata,
       json_loads (str_drop (String.length COMMENT_PREFIX) comment_text)
       = Some metadata →
       cell_metadata (ws_cell sheet 1 (1 + k)) = Ok metadata)
  ∧ (∀ fields mds,
        detect_fields sheet = Ok (fields, mds) →
        Exists (fun m => complete_descriptor m = false) mds →
        ∃ e, xlsx_to_sql wb = Raise e
             ∧ (e = TypeError ∨ (∃ key, e = KeyError key)
                ∨ e = XLSXParseError
                        ("Table " +:+ title sheet
                         +:+ ": multiple primary key fields detected!"))).
Proof.
  intros Hwb Hpre Hbefore Ht Hc.
  assert (∀ e, cell_metadata (ws_cell sheet 1 (1 + k)) = Raise e →
               xlsx_to_sql wb = Raise e) as Hrun.
  { intros e He. eapply xlsx_to_sql_raises; [exact Hwb | exact Hpre |].
    unfold convert_sheet.
    by rewrite (detect_fields_raises sheet k e Hbefore Ht He). }
  split; [| split; [| split]].
  - intros Hne. apply Hrun. unfold cell_metadata.
    by rewrite Hc, string_eqb_false.
  - intros Heq Hloads. apply Hrun. unfold cell_metadata.
    by rewrite Hc, Heq, String.eqb_refl, Hloads.
  - intros Heq metadata Hloads. unfold cell_metadata.
    by rewrite Hc, Heq, String.eqb_refl, Hloads.
  - intros fields mds Hd Hex.
    destruct (create_table_incomplete (title sheet) fields mds script
                (detect_fields_length _ _ _ Hd) Hex) as (e & He & Hk).
    exists e. split; [| exact Hk].
    eapply xlsx_to_sql_raises; [exact Hwb | exact Hpre |].
    unfold convert_sheet. rewrite Hd. cbn [mbind result_bind]. by rewrite He.
Qed.

(** C8.  A script that is written is "BEGIN TRANSACTION;", the statements of
    the sheets in order, and "COMMIT;".  The INSERT of a row lists, between
    commas, the texts of its cells, each between single quotes and otherwise
    as it is: nothing for an empty cell, the decimal digits for an integer,
    the characters themselves for a string. *)
Theorem value_serialization `{Libraries} (wb : workbook) (script : string) :
  xlsx_to_sql wb = Ok script →
  (∃ texts,
      Forall2 sheet_statements (worksheets wb) texts
      ∧ script = "BEGIN TRANSACTION;" +:+ nl +:+ str_concat texts
                 +:+ "COMMIT;" +:+ nl)
  ∧ (∀ sheet table_name fields row_index,
        insert_statement table_name (record_values sheet fields row_index)
        = "INSERT INTO " +:+ dq +:+ table_name +:+ dq +:+ " VALUES("
          +:+ String.concat ","
                ((fun j =>
                    sq +:+ cell_text
                             (value (ws_cell sheet (row_index + 1) (j + 1)))
                    +:+ sq)
                 <$> seq 0 (length fields))
          +:+ ");" +:+ nl)
  ∧ cell_text PNone = EmptyString
  ∧ (∀ n, cell_text (PInt n) = pretty n)
  ∧ (∀ s, cell_text (PStr s) = s).
Proof.
  intros Hrun. split; [| split; [| by repeat split]].
  - unfold xlsx_to_sql in Hrun.
    destruct (convert_sheets (worksheets wb) _) as [s|e] eqn:Hs; run_bind Hrun;
      [| done].
    inversion Hrun; subst; clear Hrun.
    apply convert_sheets_text in Hs as (texts & Htexts & ->).
    exists texts. split; [done |]. by rewrite str_app_nil_l, !str_app_assoc.
  - intros sheet table_name fields row_index.
    rewrite insert_statement_line. unfold insert_line, row_texts, quoted.
    by rewrite <- list_fmap_compose.
Qed.

(** C9.  The description of the workbook plays no part in the conversion, and
    the statements of a sheet name their table by the title of the sheet:
    CREATE TABLE "title", and INSERT INTO "title" for each of its rows that is
    not skipped. *)
Theorem sheet_title_is_table_name `{Libraries} (sheets : list worksheet)
    (description1 description2 : string) :
  xlsx_to_sql (Workbook sheets description1)
  = xlsx_to_sql (Workbook sheets description2)
  ∧ (∀ sheet script script',
        convert_sheet sheet script = Ok script' →
        ∃ columns,
          script' = script +:+ "CREATE TABLE " +:+ dq +:+ title sheet +:+ dq
                    +:+ " (" +:+ nl +:+ columns
                    +:+ str_concat
                          ((fun r =>
                              if any_value (row_obj sheet r)
                              then "INSERT INTO " +:+ dq +:+ title sheet +:+ dq
                                   +:+ " VALUES("
                                   +:+ String.concat ","
                                         (quoted <$>
                                          row_texts sheet (field_count sheet) r)
                                   +:+ ");" +:+ nl
                              else EmptyString)
                           <$> seq 2 (max_row sheet - 1))).
Proof.
  split; [reflexivity |].
  intros sheet script script' Hc.
  apply convert_sheet_text in Hc
    as (text & (fields & mds & lines & pkf & Hd & _ & _ & ->) & ->).
  exists (str_concat lines +:+ "  PRIMARY KEY (" +:+ py_str pkf +:+ ")" +:+ nl
          +:+ ");" +:+ nl).
  unfold field_count. rewrite Hd. by rewrite !str_app_assoc.
Qed.


(** * The forward mapper *)

Lemma dict_get_set_eq {A} (key : string) (v : A) (d : dict A) :
  dict_get key (dict_set key v d) = Some v.
Proof.
  induction d as [|[k w] d IH]; simpl.
  - by rewrite String.eqb_refl.
  - destruct (String.eqb k key) eqn:Hk; simpl; by rewrite Hk.
Qed.

Lemma dict_get_set_ne {A} (key key' : string) (v : A) (d : dict A) :
  key ≠ key' → dict_get key' (dict_set key v d) = dict_get key' d.
Proof.
  intros Hne. induction d as [|[k w] d IH]; simpl.
  - by rewrite string_eqb_false.
  - destruct (String.eqb k key) eqn:Hk; simpl.
    + apply String.eqb_eq in Hk as ->. by rewrite string_eqb_false.
    + by rewrite IH.
Qed.

Lemma dict_set_absent {A} (key : string) (v : A) (d : dict A) :
  key ∉ d.*1 → dict_set key v d = d ++ [(key, v)].
Proof.
  induction d as [|[k w] d IH]; intros Hk; [reflexivity |].
  rewrite fmap_cons in Hk. apply not_elem_of_cons in Hk as [Hne Hk].
  cbn [fst] in Hne. cbn [dict_set app].
  rewrite string_eqb_false by congruence. by rewrite IH.
Qed.

Lemma ws_cell_put (ws : worksheet) (r0 c0 r c : nat) (x : cell) :
  ws_cell (put_cell ws r0 c0 x) r c
  = if decide ((r0, c0) = (r, c)) then x else ws_cell ws r c.
Proof.
  unfold ws_cell, put_cell. cbn [_cells]. rewrite lookup_insert.
  by case_decide.
Qed.

Section ForwardFacts.
Context `{Libraries}.

Lemma header_cells_title (ws : worksheet) (i : nat)
    (fields : list (column_info * scalar)) :
  title (header_cells ws i fields) = title ws.
Proof.
  revert ws i; induction fields as [|[f v] fields IH]; intros ws i;
    [reflexivity |].
  cbn [header_cells]. by rewrite IH.
Qed.

Lemma row_cells_title (ws : worksheet) (i j : nat) (held : list scalar) :
  title (row_cells ws i j held) = title ws.
Proof.
  revert ws j; induction held as [|v held IH]; intros ws j; [reflexivity |].
  cbn [row_cells]. by rewrite IH.
Qed.

Lemma rows_cells_title (ws : worksheet) (i : nat) (held : list (list scalar)) :
  title (rows_cells ws i held) = title ws.
Proof.
  revert ws i; induction held as [|row held IH]; intros ws i;
    [reflexivity |].
  cbn [rows_cells]. by rewrite IH, row_cells_title.
Qed.

(** The cells after the header is written. *)
Lemma header_cells_lookup (ws : worksheet) (i : nat)
    (fields : list (column_info * scalar)) (r c : nat) :
  _cells (header_cells ws i fields) !! (r, c)
  = if decide (r = 1 ∧ i < c ≤ i + length fields)
    then (fun f => header_cell f.1 f.2) <$> fields !! (c - i - 1)
    else _cells ws !! (r, c).
Proof.
  revert ws i; induction fields as [|[f v] fields IH]; intros ws i.
  - cbn [header_cells length]. case_decide; [lia | reflexivity].
  - cbn [header_cells length]. rewrite IH. unfold put_cell. cbn [_cells].
    destruct (decide (r = 1 ∧ S i < c ≤ S i + length fields)) as [Hin | Hout].
    + rewrite decide_True by lia.
      replace (c - i - 1) with (S (c - S i - 1)) by lia. reflexivity.
    + destruct (decide (r = 1 ∧ c = i + 1)) as [[-> ->] | Hne].
      * rewrite decide_True by lia. rewrite lookup_insert_eq.
        replace (i + 1 - i - 1) with 0 by lia. reflexivity.
      * rewrite decide_False by lia. rewrite lookup_insert_ne; [done |].
        intros Heq. inversion Heq. lia.
Qed.

(** The cells after a record is written. *)
Lemma row_cells_lookup (ws : worksheet) (i j : nat) (held : list scalar)
    (r c : nat) :
  _cells (row_cells ws i j held) !! (r, c)
  = if decide (r = i + 2 ∧ j < c ≤ j + length held)
    then (fun v => Cell v (comment (ws_cell ws r c))) <$> held !! (c - j - 1)
    else _cells ws !! (r, c).
Proof.
  revert ws j; induction held as [|v held IH]; intros ws j.
  - cbn [row_cells length]. case_decide; [lia | reflexivity].
  - cbn [row_cells length]. rewrite IH.
    destruct (decide (r = i + 2 ∧ S j < c ≤ S j + length held)) as [Hin | Hout].
    + rewrite decide_True by lia.
      replace (c - j - 1) with (S (c - S j - 1)) by lia.
      rewrite ws_cell_put, decide_False; [reflexivity |].
      intros Heq. inversion Heq. lia.
    + unfold put_cell. cbn [_cells].
      destruct (decide (r = i + 2 ∧ c = j + 1)) as [[-> ->] | Hne].
      * rewrite decide_True by lia. rewrite lookup_insert_eq.
        replace (j + 1 - j - 1) with 0 by lia. reflexivity.
      * rewrite decide_False by lia. rewrite lookup_insert_ne; [done |].
        intros Heq. inversion Heq. lia.
Qed.

(** The cells after all records are written. *)
Lemma rows_cells_lookup (ws : worksheet) (i : nat)
    (held : list (list scalar)) (r c : nat) :
  _cells (rows_cells ws i held) !! (r, c)
  = match held !! (r - i - 2) with
    | Some row =>
        if decide (i + 2 ≤ r ∧ 0 < c ≤ length row)
        then (fun v => Cell v (comment (ws_cell ws r c))) <$> row !! (c - 1)
        else _cells ws !! (r, c)
    | None => _cells ws !! (r, c)
    end.
Proof.
  revert ws i; induction held as [|row held IH]; intros ws i.
  - cbn [rows_cells]. by rewrite lookup_nil.
  - cbn [rows_cells]. rewrite IH.
    destruct (decide (r ≤ i + 2)) as [Hle | Hgt].
    + (* the first record, or a row above the records *)
      replace (r - S i - 2) with 0 by lia.
      replace (r - i - 2) with 0 by lia. cbn [lookup list_lookup].
      destruct held as [|row' held'].
      * cbn [lookup list_lookup]. rewrite row_cells_lookup.
        destruct (decide (i + 2 ≤ r ∧ 0 < c ≤ length row)).
        -- rewrite decide_True by lia. by replace (c - 0 - 1) with (c - 1) by lia.
        -- by rewrite decide_False by lia.
      * cbn [lookup list_lookup]. rewrite decide_False by lia.
        rewrite row_cells_lookup.
        destruct (decide (i + 2 ≤ r ∧ 0 < c ≤ length row)).
        -- rewrite decide_True by lia. by replace (c - 0 - 1) with (c - 1) by lia.
        -- by rewrite decide_False by lia.
    + replace (r - i - 2) with (S (r - S i - 2)) by lia.
      cbn [lookup list_lookup].
      assert (_cells (row_cells ws i 0 row) !! (r, c) = _cells ws !! (r, c))
        as Hsame.
      { rewrite row_cells_lookup. by rewrite decide_False by lia. }
      assert (ws_cell (row_cells ws i 0 row) r c = ws_cell ws r c) as Hcell.
      { unfold ws_cell. by rewrite Hsame. }
      rewrite Hsame, Hcell.
      destruct (held !! (r - S i - 2)) as [row'|]; [| reflexivity].
      destruct (decide (S i + 2 ≤ r ∧ 0 < c ≤ length row')).
      * by rewrite decide_True by lia.
      * by rewrite decide_False by lia.
Qed.

(** The loops of the forward mapper end without an exception exactly when
    openpyxl stores every value; the sheet is then the sheet with the values
    it has stored. *)
Lemma write_header_cells (ws ws' : worksheet) (i : nat)
    (fields : list column_info) :
  write_header ws i fields = Ok ws'
  ↔ ∃ held, bound (PStr ∘ col_name <$> fields) held
            ∧ ws' = header_cells ws i (zip fields held).
Proof.
  revert ws i; induction fields as [|f fields IH]; intros ws i.
  - cbn [write_header]. split.
    + intros Hw. inversion Hw; subst. exists []. split; [constructor | done].
    + intros (held & Hb & ->). apply Forall2_nil_inv_l in Hb as ->. reflexivity.
  - cbn [write_header]. split.
    + destruct (bind_value (PStr (col_name f))) as [v|e] eqn:Hv;
        cbn [mbind result_bind]; [| done].
      cbn [value]. intros Hw. apply IH in Hw as (held & Hb & ->).
      exists (v :: held). split; [by constructor | reflexivity].
    + intros (held & Hb & ->). rewrite fmap_cons in Hb.
      apply Forall2_cons_inv_l in Hb as (v & held' & Hv & Hb & ->).
      cbn [compose] in Hv. rewrite Hv. cbn [mbind result_bind value].
      apply IH. exists held'. split; [done | reflexivity].
Qed.

Lemma write_row_cells (ws ws' : worksheet) (i j : nat) (row : list scalar) :
  write_row ws i j row = Ok ws'
  ↔ ∃ held, bound row held ∧ ws' = row_cells ws i j held.
Proof.
  revert ws j; induction row as [|v row IH]; intros ws j.
  - cbn [write_row]. split.
    + intros Hw. inversion Hw; subst. exists []. split; [constructor | done].
    + intros (held & Hb & ->). apply Forall2_nil_inv_l in Hb as ->. reflexivity.
  - cbn [write_row]. split.
    + destruct (bind_value v) as [v'|e] eqn:Hv; cbn [mbind result_bind];
        [| done].
      intros Hw. apply IH in Hw as (held & Hb & ->).
      exists (v' :: held). split; [by constructor | reflexivity].
    + intros (held & Hb & ->).
      apply Forall2_cons_inv_l in Hb as (v' & held' & Hv & Hb & ->).
      rewrite Hv. cbn [mbind result_bind].
      apply IH. exists held'. split; [done | reflexivity].
Qed.

Lemma write_rows_cells (ws ws' : worksheet) (i : nat)
    (rows : list (list scalar)) :
  write_rows ws i rows = Ok ws'
  ↔ ∃ held, Forall2 bound rows held ∧ ws' = rows_cells ws i held.
Proof.
  revert ws i; induction rows as [|row rows IH]; intros ws i.
  - cbn [write_rows]. split.
    + intros Hw. inversion Hw; subst. exists []. split; [constructor | done].
    + intros (held & Hb & ->). apply Forall2_nil_inv_l in Hb as ->. reflexivity.
  - cbn [write_rows]. split.
    + destruct (write_row ws i 0 row) as [ws1|e] eqn:Hrow;
        cbn [mbind result_bind]; [| done].
      apply write_row_cells in Hrow as (h & Hh & ->).
      intros Hw. apply IH in Hw as (held & Hb & ->).
      exists (h :: held). split; [by constructor | reflexivity].
    + intros (held & Hb & ->).
      apply Forall2_cons_inv_l in Hb as (h & held' & Hh & Hb & ->).
      assert (write_row ws i 0 row = Ok (row_cells ws i 0 h)) as ->.
      { apply write_row_cells. by exists h. }
      cbn [mbind result_bind]. apply IH. exists held'. split; [done | reflexivity].
Qed.

(** The sheet of a table, when it is made: openpyxl has made a sheet, the
    engine has answered the two statements, and openpyxl has stored the names
    and the values. *)
Lemma table_sheet_cells (db : database) (sheets : list worksheet)
    (table_name : string) (ws : worksheet) :
  table_sheet db sheets table_name = Ok ws
  ↔ ∃ fields rows names held,
      create_sheet (title <$> sheets) (sheet_target_name table_name)
      = Ok (title ws)
      ∧ table_info db table_name = Ok fields
      ∧ select_all db table_name = Ok rows
      ∧ bound (PStr ∘ col_name <$> fields) names
      ∧ Forall2 bound rows held
      ∧ ws = rows_cells
               (header_cells (Worksheet (title ws) ∅) 0 (zip fields names))
               0 held.
Proof.
  unfold table_sheet. split.
  - destruct (create_sheet _ _) as [sheet_name|e]; cbn [mbind result_bind];
      [| done].
    destruct (table_info db table_name) as [fields|e];
      cbn [mbind result_bind]; [| done].
    destruct (write_header _ 0 fields) as [ws1|e] eqn:Hh;
      cbn [mbind result_bind]; [| done].
    apply write_header_cells in Hh as (names & Hnames & ->).
    destruct (select_all db table_name) as [rows|e];
      cbn [mbind result_bind]; [| done].
    intros Hr. apply write_rows_cells in Hr as (held & Hheld & ->).
    exists fields, rows, names, held.
    rewrite rows_cells_title, header_cells_title. cbn [title].
    by repeat split.
  - intros (fields & rows & names & held & -> & -> & -> & Hn & Hh & Hws).
    cbn [mbind result_bind].
    assert (write_header (Worksheet (title ws) ∅) 0 fields
            = Ok (header_cells (Worksheet (title ws) ∅) 0 (zip fields names)))
      as ->.
    { apply write_header_cells. by exists names. }
    cbn [mbind result_bind]. apply write_rows_cells. by exists held.
Qed.

(** Every cell of the sheets that the two loops leave. *)
Lemma table_cells_lookup (name : string)
    (fields : list (column_info * scalar)) (held : list (list scalar))
    (r c : nat) :
  _cells (rows_cells (header_cells (Worksheet name ∅) 0 fields) 0 held)
    !! (r, c)
  = if decide (r = 1 ∧ 0 < c)
    then (fun f => header_cell f.1 f.2) <$> fields !! (c - 1)
    else if decide (2 ≤ r ∧ 0 < c)
         then held !! (r - 2) ≫= fun row =>
                (fun v => Cell v None) <$> row !! (c - 1)
         else None.
Proof.
  set (ws0 := Worksheet name ∅).
  assert (∀ r' c', _cells (header_cells ws0 0 fields) !! (r', c')
                   = if decide (r' = 1 ∧ 0 < c')
                     then (fun f => header_cell f.1 f.2) <$> fields !! (c' - 1)
                     else None) as Hhdr.
  { intros r' c'. rewrite header_cells_lookup. unfold ws0. cbn [_cells].
    rewrite lookup_empty, Nat.sub_0_r.
    destruct (decide (r' = 1 ∧ 0 < c' ≤ 0 + length fields)).
    - by rewrite decide_True by lia.
    - case_decide; [| done]. by rewrite lookup_ge_None_2 by lia. }
  rewrite rows_cells_lookup, Nat.sub_0_r.
  destruct (held !! (r - 2)) as [row|] eqn:Hrow.
  - destruct (decide (0 + 2 ≤ r ∧ 0 < c ≤ length row)).
    + rewrite decide_False by lia. rewrite decide_True by lia.
      cbn [mbind option_bind]. unfold ws_cell. rewrite Hhdr.
      by rewrite decide_False by lia.
    + rewrite Hhdr. case_decide; [done |]. case_decide; [| done].
      cbn [mbind option_bind]. by rewrite lookup_ge_None_2 by lia.
  - rewrite Hhdr. case_decide; [done |]. by case_decide.
Qed.

End ForwardFacts.

Section TablesFacts.
Context `{Libraries}.

(** The sheets made for [names], after [sheets]. *)
Lemma add_tables_sheets (db : database) (names : list string)
    (sheets sheets' : list worksheet) (table_names table_names' : dict string) :
  add_tables db names sheets table_names = Ok (sheets', table_names') →
  ∃ new,
    sheets' = sheets ++ new
    ∧ length new = length names
    ∧ ∀ i table_name,
        names !! i = Some table_name →
        ∃ ws, new !! i = Some ws
              ∧ table_sheet db (sheets ++ take i new) table_name = Ok ws.
Proof.
  revert sheets table_names; induction names as [|n names IH];
    intros sheets table_names Hadd.
  - cbn [add_tables] in Hadd. inversion Hadd; subst. exists [].
    rewrite app_nil_r.
    split; [done |]. split; [done |]. intros i t Hi. by rewrite lookup_nil in Hi.
  - cbn [add_tables] in Hadd.
    destruct (table_sheet db sheets n) as [ws|e] eqn:Hws; run_bind Hadd;
      [| done].
    destruct (IH _ _ Hadd) as (new & -> & Hlen & Hnew).
    exists (ws :: new).
    split; [by rewrite <- app_assoc |]. split; [by rewrite length_cons, Hlen |].
    intros [|i] t Hi; simpl in Hi |- *.
    + inversion Hi; subst. exists ws. by rewrite app_nil_r.
    + destruct (Hnew _ _ Hi) as (ws' & Hl & Hs). exists ws'.
      split; [done |]. by rewrite <- app_assoc in Hs.
Qed.


(** The links of [table_names] after the sheets are made. *)
Lemma add_tables_names (db : database) (names : list string)
    (sheets new : list worksheet) (table_names table_names' : dict string) :
  add_tables db names sheets table_names = Ok (sheets ++ new, table_names') →
  (∀ t, t ∉ title <$> new → dict_get t table_names' = dict_get t table_names)
  ∧ (∀ i table_name sheet,
        names !! i = Some table_name →
        new !! i = Some sheet →
        title sheet ∉ title <$> drop (S i) new →
        dict_get (title sheet) table_names' = Some table_name).
Proof.
  revert sheets table_names new; induction names as [|n names IH];
    intros sheets table_names new Heq; cbn [add_tables] in Heq.
  - inversion Heq as [[Hs Ht]]. split; [done |].
    intros i t s Hi. by rewrite lookup_nil in Hi.
  - destruct (table_sheet db sheets n) as [ws|e] eqn:Hws; run_bind Heq;
      [| done].
    destruct (add_tables_sheets _ _ _ _ _ _ Heq) as (new' & Heq' & _ & _).
    assert (new = ws :: new') as ->.
    { rewrite <- app_assoc in Heq'. by apply app_inv_head in Heq'. }
    replace (sheets ++ ws :: new') with ((sheets ++ [ws]) ++ new') in Heq
      by (by rewrite <- app_assoc).
    destruct (IH _ _ _ Heq) as [Hkeep Hlink]. split.
    + intros t Ht. rewrite fmap_cons, not_elem_of_cons in Ht.
      destruct Ht as [Hne Ht]. rewrite (Hkeep _ Ht).
      by apply dict_get_set_ne.
    + intros [|i] t s Hi Hs Hlater; simpl in Hi, Hs, Hlater.
      * inversion Hi; inversion Hs; subst.
        rewrite (Hkeep _ Hlater). apply dict_get_set_eq.
      * by apply (Hlink i).
Qed.

Lemma make_workbook_sheets (db : database) (wb : workbook) :
  make_workbook db = Ok wb
  ↔ ∃ table_names,
      add_tables db (tables db) [] [] = Ok (worksheets wb, table_names)
      ∧ description wb
        = AUTOGEN_PREFIX +:+ json_dumps (workbook_metadata table_names).
Proof.
  unfold make_workbook. split.
  - destruct (add_tables db (tables db) [] []) as [[sheets tn]|e];
      cbn [mbind result_bind]; [| done].
    intros Hwb. inversion Hwb; subst. by exists tn.
  - intros (tn & -> & Hd). cbn [mbind result_bind]. destruct wb as [ws d].
    cbn [worksheets description] in *. by subst.
Qed.

(** One sheet per table, in the order of the tables, each made in the
    workbook of the sheets before it. *)
Lemma make_workbook_nth (db : database) (wb : workbook) :
  make_workbook db = Ok wb →
  length (worksheets wb) = length (tables db)
  ∧ ∀ i table_name,
      tables db !! i = Some table_name →
      ∃ ws, worksheets wb !! i = Some ws
            ∧ table_sheet db (take i (worksheets wb)) table_name = Ok ws.
Proof.
  intros Hwb. apply make_workbook_sheets in Hwb as (tn & Hadd & _).
  destruct (add_tables_sheets _ _ _ _ _ _ Hadd) as (new & -> & Hlen & Hnew).
  cbn [app]. split; [done |]. intros i t Hi. by apply Hnew.
Qed.


End TablesFacts.

Section NotMade.
Context `{Libraries}.





(** With titles that are distinct the links are the titles and the names,
    sheet by sheet. *)
Lemma add_tables_links (db : database) (names : list string)
    (sheets new : list worksheet) (table_names table_names' : dict string) :
  add_tables db names sheets table_names = Ok (sheets ++ new, table_names') →
  NoDup (table_names.*1 ++ (title <$> new)) →
  table_names' = table_names ++ zip (title <$> new) names.
Proof.
  revert sheets table_names new; induction names as [|n names IH];
    intros sheets table_names new Heq Hnd; cbn [add_tables] in Heq.
  - inversion Heq as [[Hs Ht]].
    rewrite <- (app_nil_r sheets) in Hs at 1. apply app_inv_head in Hs as <-.
    by rewrite app_nil_r.
  - destruct (table_sheet db sheets n) as [ws|e] eqn:Hws; run_bind Heq;
      [| done].
    destruct (add_tables_sheets _ _ _ _ _ _ Heq) as (new' & Heq' & _ & _).
    assert (new = ws :: new') as ->.
    { rewrite <- app_assoc in Heq'. by apply app_inv_head in Heq'. }
    replace (sheets ++ ws :: new') with ((sheets ++ [ws]) ++ new') in Heq
      by (by rewrite <- app_assoc).
    rewrite fmap_cons in Hnd.
    assert (title ws ∉ table_names.*1) as Hfree.
    { apply NoDup_app in Hnd as (_ & Hdis & _). intros Hin.
      apply (Hdis _ Hin). left. }
    rewrite dict_set_absent in Heq by done.
    rewrite (IH _ _ _ Heq).
    + cbn [zip zip_with]. by rewrite <- app_assoc.
    + rewrite fmap_app. cbn [fmap list_fmap fst]. by rewrite <- app_assoc.
Qed.

End NotMade.


Lemma NoDup_not_later {A} (l : list A) (i : nat) (x : A) :
  NoDup l → l !! i = Some x → x ∉ drop (S i) l.
Proof.
  intros Hnd Hi. rewrite <- (take_drop_middle l i x Hi) in Hnd.
  apply NoDup_app in Hnd as (_ & _ & Hnd). by apply NoDup_cons in Hnd as [? _].
Qed.

(** C6, as the script has it.  For each table the forward mapper asks
    openpyxl for a sheet titled with the first 29 characters of the table
    name, a prefix of the name that is 29 characters long when the name has
    35.  The title of the sheet is what openpyxl answers, which is for
    openpyxl to choose: it need not be the title asked for.  The description
    of the workbook is the prefix followed by the JSON text of
    {"table_names": links}, and when the titles that openpyxl has given are
    distinct, the links are the titles of the sheets with the full names of
    their tables, in the order of the tables. *)
Theorem sheet_name_truncation `{Libraries} (db : database) (wb : workbook) :
  make_workbook db = Ok wb →
  NoDup (title <$> worksheets wb) →
  description wb
  = AUTOGEN_PREFIX
    +:+ json_dumps
          (JObj [("table_names",
                  JObj (prod_map id JStr
                        <$> zip (title <$> worksheets wb) (tables db)))])
  ∧ ∀ i table_name,
      tables db !! i = Some table_name →
      ∃ sheet,
        worksheets wb !! i = Some sheet
        ∧ create_sheet (title <$> take i (worksheets wb))
            (str_take 29 table_name) = Ok (title sheet)
        ∧ dict_get (title sheet) (zip (title <$> worksheets wb) (tables db))
          = Some table_name
        ∧ String.length (str_take 29 table_name) ≤ 29
        ∧ (∃ rest, table_name = str_take 29 table_name +:+ rest)
        ∧ (String.length table_name = 35 →
           String.length (str_take 29 table_name) = 29).
Proof.
  intros Hwb Hnd.
  destruct (make_workbook_nth db wb Hwb) as [Hlen Hnth].
  apply make_workbook_sheets in Hwb as (table_names & Hadd & Hdesc).
  assert (table_names = zip (title <$> worksheets wb) (tables db)) as ->.
  { apply (add_tables_links db (tables db) [] (worksheets wb) [] _ Hadd).
    exact Hnd. }
  split; [exact Hdesc |].
  intros i t Hi. destruct (Hnth i t Hi) as (sheet & Hsheet & Hmade).
  exists sheet. split; [done |].
  split; [| split; [| split; [| split]]].
  - apply table_sheet_cells in Hmade as (? & ? & ? & ? & Htitle & _).
    exact Htitle.
  - destruct (add_tables_names db (tables db) [] (worksheets wb) [] _ Hadd)
      as [_ Hlink].
    apply (Hlink i); [done.. |].
    rewrite fmap_drop. apply NoDup_not_later; [done |].
    by rewrite list_lookup_fmap, Hsheet.
  - rewrite str_take_length. lia.
  - exists (str_drop 29 t). by rewrite str_take_drop.
  - intros Hl. rewrite str_take_length, Hl. reflexivity.
Qed.

(** * The round trip *)

Lemma fmap_seq_lookup {A B} (f : nat → B) (g : A → B) (l : list A) (a : nat) :
  (∀ i x, l !! i = Some x → f (a + i) = g x) →
  f <$> seq a (length l) = g <$> l.
Proof.
  revert a; induction l as [|x l IH]; intros a Hfg; [reflexivity |].
  cbn [length seq fmap list_fmap]. f_equal.
  - rewrite <- (Hfg 0 x); [f_equal; lia | reflexivity].
  - apply IH. intros i y Hi. rewrite <- (Hfg (S i) y); [f_equal; lia | done].
Qed.

Lemma getitem_pk (c : column_info) :
  getitem (field_metadata c) "pk" = Ok (JInt (pk c)).
Proof. reflexivity. Qed.

Lemma getitem_type (c : column_info) :
  getitem (field_metadata c) "type" = Ok (JStr (col_type c)).
Proof. reflexivity. Qed.

Lemma getitem_not_null (c : column_info) :
  getitem (field_metadata c) "not_null"
  = Ok (JBool (negb (notnull c =? 0)%Z)).
Proof. reflexivity. Qed.

Section RoundTripFacts.
Context `{Libraries}.

(** The column lines of the fields read back from a sheet of the forward
    mapper.  [pk0] is the primary key met so far: none, and then at most one
    of the columns is a primary key; or one, different from the names of the
    columns, and then none of them is. *)
Lemma add_fields_columns (table_name : string) (cols : list column_info)
    (pk0 : scalar) (script : string) :
  Forall (fun c => col_name c ≠ EmptyString) cols →
  NoDup (col_name <$> cols) →
  (pk0 = PNone ∧ length (primary_key_columns cols) ≤ 1)
  ∨ (∃ p, pk0 = PStr p ∧ (p ∉ col_name <$> cols)
          ∧ primary_key_columns cols = []) →
  add_fields table_name
    (zip (PStr ∘ col_name <$> cols) (field_metadata <$> cols)) pk0 script
  = Ok (match pk0, primary_key_columns cols with
        | PNone, c :: _ => PStr (col_name c)
        | _, _ => pk0
        end,
        script +:+ str_concat (column_definition <$> cols)).
Proof.
  intros Hnames; revert pk0 script;
    induction Hnames as [|c cols Hc Hnames IH]; intros pk0 script Hnd Hpk.
  - cbn [fmap list_fmap zip zip_with add_fields str_concat foldr].
    rewrite str_app_nil_r.
    destruct Hpk as [[-> _] | (p & -> & _)]; reflexivity.
  - rewrite !fmap_cons in *. apply NoDup_cons in Hnd as [Hfresh Hnd].
    cbn [zip zip_with add_fields compose].
    rewrite getitem_pk, getitem_type, getitem_not_null.
    cbn [mbind result_bind json_truthy json_str].
    unfold primary_key_columns in *.
    destruct (decide (pk c = 0%Z)) as [Hzero | Hkey].
    + (* not a primary key: the name is written between quotes *)
      rewrite filter_cons_False in * by (by intros ?).
      rewrite Hzero. cbn [Z.eqb negb mbind result_bind].
      assert (py_eq pk0 (PStr (col_name c)) = false) as ->.
      { destruct Hpk as [[-> _] | (p & -> & Hp & _)]; [reflexivity |].
        cbn [py_eq]. apply string_eqb_false. intros ->.
        apply Hp. by left. }
      rewrite IH; [| done |].
      * f_equal. f_equal.
        change (str_concat (?x :: ?l)) with (x +:+ str_concat l).
        unfold column_definition, column_line. rewrite Hzero. cbn [Z.eqb].
        destruct (notnull c =? 0)%Z; cbn [negb];
          by rewrite ?str_app_assoc, ?str_app_nil_l.
      * destruct Hpk as [[-> Hle] | (p & -> & Hp & Hnone)]; [by left |].
        right. exists p. split; [done |]. split; [| done].
        intros Hin. apply Hp. by right.
    + (* the primary key: no primary key before, none after *)
      rewrite filter_cons_True in * by done.
      destruct Hpk as [[-> Hle] | (p & -> & _ & Hnone)]; [| done].
      apply Z.eqb_neq in Hkey as Hneq. rewrite Hneq.
      cbn [negb is_none mbind result_bind py_eq]. rewrite String.eqb_refl.
      cbn [length] in Hle.
      assert (filter (fun c => pk c ≠ 0%Z) cols = []) as Hnone.
      { apply length_zero_iff_nil. lia. }
      rewrite IH; [| done |].
      * f_equal. f_equal.
        change (str_concat (?x :: ?l)) with (x +:+ str_concat l).
        unfold column_definition, column_line. rewrite Hneq.
        destruct (notnull c =? 0)%Z; cbn [negb];
          by rewrite ?str_app_assoc, ?str_app_nil_l.
      * right. exists (col_name c). by rewrite Hnone.
Qed.

(** The CREATE TABLE statement read back from a sheet of the forward mapper,
    for a table with one primary-key column. *)
Lemma create_table_columns (table_name : string) (cols : list column_info)
    (script : string) :
  Forall (fun c => col_name c ≠ EmptyString) cols →
  NoDup (col_name <$> cols) →
  length (primary_key_columns cols) = 1 →
  create_table table_name (PStr ∘ col_name <$> cols) (field_metadata <$> cols)
    script
  = Ok (script +:+ create_statement table_name cols).
Proof.
  intros Hnames Hnd Hone. unfold create_table.
  rewrite add_fields_columns; [| done | done | left; split; [done | lia]].
  unfold create_statement, primary_key_name.
  destruct (primary_key_columns cols) as [|c rest]; [done |].
  cbn [mbind result_bind is_none negb py_str].
  by rewrite !str_app_assoc.
Qed.

End RoundTripFacts.

(** ** What a file keeps *)

Lemma truthy_name (s : string) : s ≠ EmptyString → truthy (PStr s) = true.
Proof. intros Hs. cbn [truthy]. by rewrite string_eqb_false. Qed.

Lemma stored_truthy (v : scalar) : truthy (stored v) = truthy v.
Proof.
  unfold stored. destruct v as [|b|n|x|s|b]; try reflexivity.
  cbn [is_empty]. destruct (String.eqb s EmptyString) eqn:He;
    cbn [truthy]; by rewrite ?He.
Qed.

Lemma stored_text `{Libraries} (v : scalar) : cell_text (stored v) = cell_text v.
Proof.
  unfold stored. destruct v as [|b|n|x|s|b]; try reflexivity.
  cbn [is_empty]. destruct (String.eqb_spec s EmptyString) as [-> |];
    reflexivity.
Qed.

Lemma stored_same_truthy (v v' : scalar) :
  stored v' = stored v → truthy v' = truthy v.
Proof. intros Hs. by rewrite <- (stored_truthy v'), Hs, stored_truthy. Qed.

Lemma stored_same_text `{Libraries} (v v' : scalar) :
  stored v' = stored v → cell_text v' = cell_text v.
Proof. intros Hs. by rewrite <- (stored_text v'), Hs, stored_text. Qed.

(** A value that counts is kept as it is. *)
Lemma stored_same_value (v v' : scalar) :
  stored v' = stored v → truthy v = true → v' = v.
Proof.
  intros Hs Ht.
  assert (stored v = v) as Hv.
  { unfold stored. destruct v as [|b|n|x|s|b]; try reflexivity.
    cbn [is_empty truthy] in *. by destruct (String.eqb s EmptyString). }
  rewrite Hv in Hs. unfold stored in Hs.
  destruct (is_empty v'); [| done]. subst v. done.
Qed.

Lemma same_cells_refl (ws : worksheet) : same_cells ws ws.
Proof. split; [reflexivity |]. by intros r c. Qed.

(** Values that openpyxl stores as they are given. *)
Lemma bound_same `{Libraries} (values held : list scalar) :
  Forall (fun v => bind_value v = Ok v) values →
  bound values held → held = values.
Proof.
  intros Hall Hb. induction Hb as [|v v' values held Hv Hb IH];
    [reflexivity |].
  apply Forall_cons in Hall as [Hk Hall]. rewrite Hk in Hv.
  inversion Hv; subst. f_equal. by apply IH.
Qed.

Lemma bound_same_rows `{Libraries} (rows held : list (list scalar)) :
  Forall (Forall (fun v => bind_value v = Ok v)) rows →
  Forall2 bound rows held → held = rows.
Proof.
  intros Hall Hb. induction Hb as [|row h rows held Hrow Hb IH];
    [reflexivity |].
  apply Forall_cons in Hall as [Hk Hall]. f_equal; [| by apply IH].
  by apply bound_same.
Qed.

(** ** The rows of a sheet below its last row *)

Lemma ws_cell_below (ws : worksheet) (r c : nat) :
  max_row ws < r → ws_cell ws r c = empty_cell.
Proof.
  intros Hlt. unfold ws_cell.
  destruct (_cells ws !! (r, c)) as [x|] eqn:Hl; [| reflexivity].
  apply max_row_ge in Hl. lia.
Qed.

Lemma any_value_row (sheet : worksheet) (r : nat) :
  any_value (row_obj sheet r) = true
  ↔ ∃ c, 1 ≤ c ∧ truthy (value (ws_cell sheet r c)) = true.
Proof.
  unfold any_value, row_obj. rewrite existsb_exists. split.
  - intros (x & Hin & Ht).
    apply list_elem_of_In, list_elem_of_fmap in Hin as (c & -> & Hc).
    apply elem_of_seq in Hc. exists c. split; [lia | done].
  - intros (c & Hc & Ht). exists (ws_cell sheet r c). split; [| done].
    apply list_elem_of_In, list_elem_of_fmap. exists c. split; [done |].
    apply elem_of_seq. apply truthy_cell_within in Ht. lia.
Qed.

Lemma any_value_none (sheet : worksheet) (r : nat) :
  (∀ c, 1 ≤ c → truthy (value (ws_cell sheet r c)) = false) →
  any_value (row_obj sheet r) = false.
Proof.
  intros Hnone. apply not_true_is_false. intros Hany.
  apply any_value_row in Hany as (c & Hc & Ht). by rewrite Hnone in Ht.
Qed.

Lemma str_concat_empty {A} (f : A → string) (l : list A) :
  (∀ x, x ∈ l → f x = EmptyString) → str_concat (f <$> l) = EmptyString.
Proof.
  induction l as [|x l IH]; intros Hall; [reflexivity |].
  rewrite fmap_cons.
  change (str_concat (?a :: ?k)) with (a +:+ str_concat k).
  rewrite Hall by left. rewrite IH; [reflexivity |].
  intros y Hy. apply Hall. by right.
Qed.

Section Heights.
Context `{Libraries}.

(** The rows that [sheet.rows] gives, and any number of rows below them. *)
Lemma insert_records_height (sheet : worksheet) (table_name : string)
    (fields : list scalar) (m : nat) :
  max_row sheet - 1 ≤ m →
  insert_records sheet table_name fields
  = str_concat (row_text sheet table_name (length fields) <$> seq 2 m).
Proof.
  intros Hm. rewrite insert_records_rows.
  replace m with ((max_row sheet - 1) + (m - (max_row sheet - 1))) by lia.
  rewrite seq_app, fmap_app, str_concat_app.
  rewrite (str_concat_empty _ (seq (2 + (max_row sheet - 1)) _)).
  - by rewrite str_app_nil_r.
  - intros r Hr. apply elem_of_seq in Hr. unfold row_text.
    rewrite any_value_none; [reflexivity |].
    intros c _. rewrite ws_cell_below; [reflexivity |].
    pose proof (max_row_pos sheet). lia.
Qed.

End Heights.

(** ** A sheet that holds a table *)

Section HoldsTable.
Context `{Libraries}.

Lemma header_cell_metadata (col : column_info) (v : scalar) :
  json_loads (json_dumps (field_metadata col)) = Some (field_metadata col) →
  cell_metadata (header_cell col v) = Ok (field_metadata col).
Proof.
  intros Hcodec. unfold cell_metadata, header_cell. cbn [comment].
  change AUTOGEN_PREFIX with COMMENT_PREFIX.
  by rewrite str_take_app, str_drop_app, String.eqb_refl, Hcodec.
Qed.

(** A row 1 of [n] named cells with readable metadata, and then a cell that
    does not count, is a header of [n] fields. *)
Lemma detect_fields_reads (sheet : worksheet) (n : nat)
    (name : nat → scalar) (metadata : nat → json) :
  (∀ i, i < n →
        value (ws_cell sheet 1 (1 + i)) = name i
        ∧ truthy (name i) = true
        ∧ cell_metadata (ws_cell sheet 1 (1 + i)) = Ok (metadata i)) →
  truthy (value (ws_cell sheet 1 (1 + n))) = false →
  detect_fields sheet = Ok (name <$> seq 0 n, metadata <$> seq 0 n).
Proof.
  intros Hcells Hend. unfold detect_fields.
  rewrite (header_loop_reads sheet n (max_column sheet) 1 name metadata);
    [done | | done | done].
  destruct n as [|n]; [lia |].
  destruct (Hcells n) as (Hv & Ht & _); [lia |].
  rewrite <- Hv in Ht. apply truthy_cell_within in Ht. lia.
Qed.

(** The header of a sheet whose row 1 has the header cells of [named], and
    then a cell that does not count. *)
Lemma header_cells_detect (sheet : worksheet) (named : list column_info) :
  (∀ j col, named !! j = Some col →
            ws_cell sheet 1 (1 + j) = header_cell col (PStr (col_name col))) →
  truthy (value (ws_cell sheet 1 (1 + length named))) = false →
  Forall (fun c => col_name c ≠ EmptyString) named →
  Forall (fun c => json_loads (json_dumps (field_metadata c))
                   = Some (field_metadata c)) named →
  detect_fields sheet
  = Ok (PStr ∘ col_name <$> named, field_metadata <$> named).
Proof.
  intros Hcells Hend Hnames Hcodec.
  rewrite (detect_fields_reads _ (length named)
             (fun i => default PNone ((PStr ∘ col_name) <$> named !! i))
             (fun i => default JNull (field_metadata <$> named !! i))).
  - f_equal. f_equal.
    + apply (fmap_seq_lookup _ _ named 0). intros i col Hi. cbn [Nat.add].
      by rewrite Hi.
    + apply (fmap_seq_lookup _ _ named 0). intros i col Hi. cbn [Nat.add].
      by rewrite Hi.
  - intros i Hi. destruct (lookup_lt_is_Some_2 named i Hi) as [col Hcol].
    rewrite (Hcells i col Hcol), Hcol.
    cbn [fmap option_fmap option_map default compose header_cell value].
    rewrite Forall_forall in Hnames. rewrite Forall_forall in Hcodec.
    assert (col ∈ named) as Hin by (apply list_elem_of_lookup; eauto).
    split; [reflexivity |]. split.
    + apply truthy_name, Hnames, Hin.
    + apply (header_cell_metadata col), Hcodec, Hin.
  - exact Hend.
Qed.

Lemma existsb_truthy_lookup (row : list scalar) :
  existsb truthy row = true ↔ ∃ j v, row !! j = Some v ∧ truthy v = true.
Proof.
  rewrite existsb_exists. split.
  - intros (v & Hin & Ht). apply list_elem_of_In, list_elem_of_lookup in Hin.
    destruct Hin as [j Hj]. by exists j, v.
  - intros (j & v & Hj & Ht). exists v. split; [| done].
    apply list_elem_of_In, list_elem_of_lookup. by exists j.
Qed.

(** The statements read back from a sheet that holds a table. *)
Lemma holds_table_convert (sheet : worksheet) (cols : list column_info)
    (rows : list (list scalar)) (script : string) :
  holds_table sheet cols rows →
  Forall (fun c => col_name c ≠ EmptyString) cols →
  NoDup (col_name <$> cols) →
  length (primary_key_columns cols) = 1 →
  Forall (fun c => json_loads (json_dumps (field_metadata c))
                   = Some (field_metadata c)) cols →
  Forall (fun row => length row = length cols) rows →
  convert_sheet sheet script
  = Ok (script
        +:+ table_statements cell_text (existsb truthy) (title sheet)
              cols rows).
Proof.
  intros [Hhead Hbody] Hnames Hnd Hone Hcodec Hwidth.
  assert (detect_fields sheet
          = Ok (PStr ∘ col_name <$> cols, field_metadata <$> cols)) as Hd.
  { apply header_cells_detect; [| | done | done].
    - intros j col Hcol. specialize (Hhead j). by rewrite Hcol in Hhead.
    - specialize (Hhead (length cols)).
      by rewrite lookup_ge_None_2 in Hhead by lia. }
  unfold convert_sheet. rewrite Hd. cbn [mbind result_bind].
  rewrite create_table_columns by done. cbn [mbind result_bind].
  rewrite (insert_records_height _ _ _
             (length rows + (max_row sheet - 1))) by lia.
  rewrite length_fmap. unfold table_statements.
  rewrite str_app_assoc. do 3 f_equal.
  rewrite seq_app, fmap_app, str_concat_app.
  rewrite (str_concat_empty _ (seq (2 + length rows) _)).
  2: { intros r Hr. apply elem_of_seq in Hr. unfold row_text.
       rewrite any_value_none; [reflexivity |].
       intros c Hc. specialize (Hbody (r - 2) (c - 1)).
       replace (2 + (r - 2)) with r in Hbody by lia.
       replace (1 + (c - 1)) with c in Hbody by lia.
       rewrite lookup_ge_None_2 in Hbody by lia.
       cbn [mbind option_bind default] in Hbody.
       by rewrite (stored_same_truthy _ _ Hbody). }
  rewrite str_app_nil_r. f_equal.
  apply fmap_seq_lookup. intros i row Hi.
  assert (length row = length cols) as Hlen.
  { rewrite Forall_forall in Hwidth. apply Hwidth.
    apply list_elem_of_lookup. eauto. }
  assert (∀ j, stored (value (ws_cell sheet (2 + i) (1 + j)))
               = stored (default PNone (row !! j))) as Hrow.
  { intros j. rewrite Hbody, Hi. reflexivity. }
  unfold row_text.
  assert (any_value (row_obj sheet (2 + i)) = existsb truthy row) as ->.
  { apply eq_iff_eq_true. rewrite any_value_row, existsb_truthy_lookup. split.
    - intros (c & Hc & Ht). exists (c - 1).
      specialize (Hrow (c - 1)). replace (1 + (c - 1)) with c in Hrow by lia.
      rewrite (stored_same_truthy _ _ Hrow) in Ht.
      destruct (row !! (c - 1)) as [v|]; [| done]. by exists v.
    - intros (j & v & Hj & Ht). exists (1 + j). split; [lia |].
      specialize (Hrow j). rewrite Hj in Hrow.
      by rewrite (stored_same_truthy _ _ Hrow). }
  destruct (existsb truthy row); [| reflexivity]. f_equal.
  unfold row_texts. rewrite <- Hlen.
  apply (fmap_seq_lookup _ _ row 0). intros j v Hj. cbn [Nat.add].
  specialize (Hrow j). rewrite Hj in Hrow.
  replace (j + 1) with (1 + j) by lia. exact (stored_same_text _ _ Hrow).
Qed.

(** Every cell of the sheet of a table that is made. *)
Lemma made_sheet_cells (db : database) (sheets : list worksheet)
    (table_name : string) (ws : worksheet) :
  table_sheet db sheets table_name = Ok ws →
  ∃ names held,
    table_info db table_name = Ok (columns db table_name)
    ∧ select_all db table_name = Ok (records db table_name)
    ∧ bound (PStr ∘ col_name <$> columns db table_name) names
    ∧ Forall2 bound (records db table_name) held
    ∧ ∀ r c,
        _cells ws !! (r, c)
        = if decide (r = 1 ∧ 0 < c)
          then (fun f => header_cell f.1 f.2)
               <$> zip (columns db table_name) names !! (c - 1)
          else if decide (2 ≤ r ∧ 0 < c)
               then held !! (r - 2) ≫= fun row =>
                      (fun v => Cell v None) <$> row !! (c - 1)
               else None.
Proof.
  intros Hmade.
  apply table_sheet_cells in Hmade
    as (fields & rows & names & held & _ & Hf & Hr & Hn & Hh & Hws).
  exists names, held. unfold columns, records. rewrite Hf, Hr.
  split; [done |]. split; [done |]. split; [done |]. split; [done |].
  intros r c.
  pose proof (table_cells_lookup (title ws) (zip fields names) held r c) as Hl.
  by rewrite <- Hws in Hl.
Qed.

(** A sheet with the cells of the sheet of a table, as it is made or as it
    is read back from a file that keeps them, holds the table. *)
Lemma made_sheet_holds (db : database) (sheets : list worksheet)
    (table_name : string) (ws ws' : worksheet) :
  table_sheet db sheets table_name = Ok ws →
  same_cells ws ws' →
  Forall (fun c => col_name c ≠ EmptyString) (columns db table_name) →
  Forall (fun c => bind_value (PStr (col_name c)) = Ok (PStr (col_name c)))
         (columns db table_name) →
  Forall (Forall (fun v => bind_value v = Ok v)) (records db table_name) →
  holds_table ws' (columns db table_name) (records db table_name).
Proof.
  intros Hmade [_ Hsame] Hnames Hbn Hbv.
  destruct (made_sheet_cells _ _ _ _ Hmade)
    as (names & held & _ & _ & Hn & Hh & Hcells).
  set (cols := columns db table_name) in *.
  set (rows := records db table_name) in *.
  assert (names = PStr ∘ col_name <$> cols) as ->.
  { apply bound_same; [| done]. by apply Forall_fmap. }
  assert (held = rows) as -> by (by apply bound_same_rows).
  split.
  - intros j. destruct (Hsame 1 (1 + j)) as [Hc Hv].
    unfold ws_cell at 2 in Hc. unfold ws_cell at 2 in Hv.
    rewrite Hcells in Hc, Hv. rewrite decide_True in Hc, Hv by lia.
    replace (1 + j - 1) with j in Hc, Hv by lia.
    destruct (cols !! j) as [col|] eqn:Hcol.
    + assert (zip cols (PStr ∘ col_name <$> cols) !! j
              = Some (col, PStr (col_name col))) as Hz.
      { apply lookup_zip_with_Some. exists col, (PStr (col_name col)).
        split; [done |]. split; [done |].
        by rewrite list_lookup_fmap, Hcol. }
      rewrite Hz in Hc, Hv.
      cbn [fmap option_fmap option_map default header_cell fst snd value
           comment] in Hc, Hv.
      apply stored_same_value in Hv.
      2: { rewrite Forall_forall in Hnames. apply truthy_name, Hnames.
           apply list_elem_of_lookup. eauto. }
      destruct (ws_cell ws' 1 (1 + j)) as [v c]. cbn [value comment] in *.
      by subst.
    + assert (zip cols (PStr ∘ col_name <$> cols) !! j = None) as Hz.
      { apply lookup_ge_None_2. rewrite length_zip_with, length_fmap.
        apply lookup_ge_None_1 in Hcol. lia. }
      rewrite Hz in Hv. cbn [fmap option_fmap option_map default] in Hv.
      by rewrite (stored_same_truthy _ _ Hv).
  - intros i j. destruct (Hsame (2 + i) (1 + j)) as [_ Hv]. rewrite Hv.
    unfold ws_cell. rewrite Hcells.
    rewrite decide_False by lia. rewrite decide_True by lia.
    replace (2 + i - 2) with i by lia. replace (1 + j - 1) with j by lia.
    destruct (rows !! i) as [row|]; cbn [mbind option_bind]; [| reflexivity].
    by destruct (row !! j).
Qed.

(** Sheets that each add their own text to any script. *)
Lemma convert_sheets_texts (sheets : list worksheet) (texts : list string)
    (script : string) :
  Forall2 (fun sheet text =>
             ∀ script, convert_sheet sheet script = Ok (script +:+ text))
          sheets texts →
  convert_sheets sheets script = Ok (script +:+ str_concat texts).
Proof.
  intros Hall; revert script;
    induction Hall as [|sheet text sheets texts Hsheet Hall IH]; intros script.
  - cbn [convert_sheets str_concat foldr]. by rewrite str_app_nil_r.
  - cbn [convert_sheets]. rewrite Hsheet. cbn [mbind result_bind].
    rewrite IH.
    change (str_concat (text :: texts)) with (text +:+ str_concat texts).
    by rewrite str_app_assoc.
Qed.

Lemma empty_or_truthy (row : list scalar) :
  existsb truthy row = true ∨ forallb is_empty row = true →
  existsb truthy row = negb (forallb is_empty row).
Proof.
  induction row as [|v row IH]; intros Hrow.
  - destruct Hrow as [Hex | _]; [done | reflexivity].
  - cbn [existsb forallb] in *.
    destruct (is_empty v) eqn:He.
    + assert (truthy v = false) as Ht.
      { destruct v as [|b|n|x|s|b]; try done. cbn [is_empty truthy] in *.
        by rewrite He. }
      rewrite Ht in *. cbn [orb andb] in *. by apply IH.
    + cbn [andb negb] in *. destruct Hrow as [Hex | Hall]; done.
Qed.

(** The script that the reverse mapper makes of a workbook with the cells
    of the workbook of the forward mapper. *)
Lemma loaded_workbook_script (db : database) (written loaded : workbook) :
  make_workbook db = Ok written →
  file_keeps written loaded →
  (∀ t, t ∈ tables db → table_ok db t) →
  xlsx_to_sql loaded
  = Ok (round_trip_script cell_text (existsb truthy) db written).
Proof.
  intros Hmade Hkeeps Hok. unfold xlsx_to_sql, round_trip_script.
  destruct (make_workbook_nth db written Hmade) as [Hlen Hnth].
  rewrite (convert_sheets_texts (worksheets loaded)
             (zip_with (fun sheet t =>
                          table_statements cell_text (existsb truthy)
                            (title sheet) (columns db t) (records db t))
                (worksheets written) (tables db))).
  - cbn [mbind result_bind]. by rewrite str_app_nil_l, !str_app_assoc.
  - unfold file_keeps in Hkeeps.
    pose proof (Forall2_length _ _ _ Hkeeps) as Hlen'.
    apply Forall2_same_length_lookup_2.
    { rewrite length_zip_with. lia. }
    intros i sheet' text Hsheet' Htext script.
    apply lookup_zip_with_Some in Htext as (sheet & t & -> & Hsheet & Ht).
    assert (t ∈ tables db) as Hin by (apply list_elem_of_lookup; eauto).
    destruct (Hnth i t Ht) as (ws & Hws & Hmade_ws).
    rewrite Hsheet in Hws. inversion Hws; subst ws; clear Hws.
    pose proof (Forall2_lookup_lr _ _ _ _ _ _ Hkeeps Hsheet Hsheet') as Hsame.
    destruct (Hok t Hin) as [Hnames Hnd Hone Hcodec Hwidth Hbn Hbv].
    rewrite (holds_table_convert sheet' (columns db t) (records db t));
      try done.
    + destruct Hsame as [-> _]. reflexivity.
    + by apply (made_sheet_holds db (take i (worksheets written)) t sheet
                  sheet').
Qed.

End HoldsTable.

(** C1, as the scripts have it.  Take a database whose tables each have one
    primary-key column, with named, distinct columns, descriptors that the
    JSON codec reads back, and names and values that openpyxl stores in a
    cell as they are given, and whose records each hold a value that counts
    as true or hold nothing but NULLs and empty strings.  When the forward
    mapper makes its workbook and saves it, and the workbook loaded from the
    file has the cells of the one saved, an empty string being an empty
    cell, the reverse mapper gives a script, and the script has for each
    table, under the title of its sheet, the CREATE TABLE statement with the
    name, type, NOT NULL flag and primary key of every column, and one INSERT
    for each record that is not made of NULLs and empty strings alone, with
    its values as text, NULL as the empty text.  The records made of NULLs
    and empty strings alone have no INSERT. *)
Theorem round_trip `{Libraries} (db : database) (written loaded : workbook)
    (file : xlsx_file) :
  make_workbook db = Ok written →
  save written = Ok file →
  load_workbook file = Ok loaded →
  file_keeps written loaded →
  (∀ t, t ∈ tables db → table_ok db t) →
  (∀ t row, t ∈ tables db → row ∈ records db t →
            existsb truthy row = true ∨ forallb is_empty row = true) →
  reverse_of_forward db
  = Ok (round_trip_script cell_text
          (fun row => negb (forallb is_empty row)) db written).
Proof.
  intros Hmade Hsave Hload Hkeeps Hok Hrows.
  unfold reverse_of_forward, sql_to_xlsx.
  rewrite Hmade. cbn [mbind result_bind]. rewrite Hsave.
  cbn [mbind result_bind]. rewrite Hload. cbn [mbind result_bind].
  rewrite (loaded_workbook_script db written loaded) by done.
  f_equal. unfold round_trip_script.
  destruct (make_workbook_nth db written Hmade) as [Hlen _].
  match goal with
  | |- ?lhs = ?rhs =>
      match lhs with
      | context [str_concat ?l] =>
          match rhs with
          | context [str_concat ?l'] => assert (l = l') as ->; [| reflexivity]
          end
      end
  end.
  apply list_eq_same_length with (length (tables db));
    [rewrite length_zip_with; lia | rewrite length_zip_with; lia |].
  intros i x y _ Hx Hy.
  apply lookup_zip_with_Some in Hx as (sheet & t & -> & Hsheet & Ht).
  apply lookup_zip_with_Some in Hy as (sheet' & t' & -> & Hsheet' & Ht').
  rewrite Hsheet in Hsheet'. rewrite Ht in Ht'.
  inversion Hsheet'; inversion Ht'; subst.
  unfold table_statements. do 2 f_equal.
  apply list_fmap_ext. intros j row Hrow.
  rewrite (empty_or_truthy row); [reflexivity |].
  apply (Hrows t'); [apply list_elem_of_lookup; eauto |].
  apply list_elem_of_lookup. eauto.
Qed.

(** * Runs on small inputs *)

Section Runs.
#[local] Existing Instance sample_libraries.

Lemma stored_idem (v : scalar) : stored (stored v) = stored v.
Proof.
  unfold stored. destruct (is_empty v) eqn:He; [reflexivity |]. by rewrite He.
Qed.

(** The file of the examples keeps the cells: what is left out is empty. *)
Lemma store_sheet_same (ws : worksheet) : same_cells ws (store_sheet ws).
Proof.
  split; [reflexivity |]. intros r c. unfold ws_cell, store_sheet.
  cbn [_cells]. rewrite lookup_omap.
  destruct (_cells ws !! (r, c)) as [[v cm]|]; cbn [mbind option_bind];
    [| done].
  unfold store_cell. cbn [value comment].
  destruct (decide (Cell (stored v) cm = empty_cell)) as [Heq | Hne];
    cbn [default value comment].
  - injection Heq as Hv Hc. subst cm. unfold id. cbn [value comment].
    split; [reflexivity |]. rewrite Hv. reflexivity.
  - unfold id. cbn [value comment]. split; [reflexivity | apply stored_idem].
Qed.

Lemma store_sheets_same (sheets : list worksheet) :
  Forall2 same_cells sheets (store_sheet <$> sheets).
Proof.
  induction sheets as [|ws sheets IH]; constructor;
    [apply store_sheet_same | exact IH].
Qed.

Lemma sample_file_keeps (wb file : workbook) :
  save wb = Ok file → file_keeps wb file.
Proof.
  cbn [save sample_libraries]. intros Hsave.
  destruct (worksheets wb) as [|ws sheets] eqn:Hws; [done |].
  inversion Hsave; subst. unfold file_keeps. cbn [worksheets]. rewrite Hws.
  apply (store_sheets_same (ws :: sheets)).
Qed.

Lemma shop_run : reverse_of_forward shop_db = Ok shop_script.
Proof. vm_compute. reflexivity. Qed.

Lemma shop_made : make_workbook shop_db = Ok (workbook_of shop_db).
Proof. vm_compute. reflexivity. Qed.

Lemma shop_saved : save (workbook_of shop_db) = Ok (loaded_of shop_db).
Proof. vm_compute. reflexivity. Qed.

Lemma shop_loaded_run : xlsx_to_sql (loaded_of shop_db) = Ok shop_script.
Proof. vm_compute. reflexivity. Qed.

Lemma shop_tables :
  tables shop_db = ["people"; "customer_order_line_item_history_v2"].
Proof. vm_compute. reflexivity. Qed.

Lemma notes_fields :
  detect_fields notes_sheet
  = Ok ([PStr "id"; PStr "note"],
        [descriptor "INTEGER" false 1; DEFAULT_METADATA]).
Proof. vm_compute. reflexivity. Qed.

Lemma notes_run : convert_sheets [notes_sheet] begin_text = Ok notes_script.
Proof. vm_compute. reflexivity. Qed.


(** C7 on [notes_sheet]: its second column has no comment. *)
Lemma default_descriptor_fallback_witness :
  cell_metadata (plain (PStr "note"))
  = Ok (JObj [("type", JStr "VARCHAR(255)"); ("not_null", JBool false);
              ("pk", JInt 0)])
  ∧ [descriptor "INTEGER" false 1; DEFAULT_METADATA] !! 1
    = Some (JObj [("type", JStr "VARCHAR(255)"); ("not_null", JBool false);
                  ("pk", JInt 0)]).
Proof.
  destruct (default_descriptor_fallback (plain (PStr "note")) eq_refl)
    as [Hcell Hfield].
  split; [exact Hcell |].
  apply (Hfield notes_sheet [PStr "id"; PStr "note"]).
  - exact notes_fields.
  - simpl. lia.
  - vm_compute. reflexivity.
Defined.

(** C2 on a sheet without a primary key, a sheet with two, and a sheet with
    one. *)
Lemma primary_key_cardinality_witness :
  xlsx_to_sql (Workbook [notes_sheet; keyless_sheet] EmptyString)
  = Raise (XLSXParseError "Table keyless: no primary key field detected!")
  ∧ xlsx_to_sql (Workbook [notes_sheet; two_keys_sheet] EmptyString)
    = Raise (XLSXParseError
               "Table two_keys: multiple primary key fields detected!")
  ∧ ∃ text, convert_sheet notes_sheet begin_text = Ok (begin_text +:+ text).
Proof.
  split; [| split].
  - apply (primary_key_cardinality
             (Workbook [notes_sheet; keyless_sheet] EmptyString)
             [notes_sheet] [] keyless_sheet [PStr "a"] [DEFAULT_METADATA]
             notes_script).
    + reflexivity.
    + exact notes_run.
    + vm_compute. reflexivity.
    + repeat constructor.
    + vm_compute. reflexivity.
  - apply (primary_key_cardinality
             (Workbook [notes_sheet; two_keys_sheet] EmptyString)
             [notes_sheet] [] two_keys_sheet [PStr "id"; PStr "k"]
             [descriptor "INTEGER" false 1; descriptor "TEXT" false 1]
             notes_script).
    + reflexivity.
    + exact notes_run.
    + vm_compute. reflexivity.
    + repeat constructor.
    + vm_compute. lia.
  - apply (primary_key_cardinality (Workbook [notes_sheet] EmptyString)
             [] [] notes_sheet [PStr "id"; PStr "note"]
             [descriptor "INTEGER" false 1; DEFAULT_METADATA] begin_text).
    + reflexivity.
    + reflexivity.
    + exact notes_fields.
    + repeat constructor.
    + vm_compute. reflexivity.
Defined.

(** C2 as stated fails on [incomplete_sheet]: one field, flagged as primary
    key, and no statement: its descriptor has no "type" entry. *)
Lemma primary_key_cardinality_counterexample :
  detect_fields incomplete_sheet = Ok ([PStr "id"], [JObj [("pk", JInt 1)]])
  ∧ count_pk [JObj [("pk", JInt 1)]] = 1
  ∧ xlsx_to_sql (Workbook [incomplete_sheet] EmptyString)
    = Raise (KeyError "type").
Proof. repeat split; vm_compute; reflexivity. Qed.

(** C5 on a sheet whose comment is not the mapper's, on one whose comment is
    not JSON after the prefix, and on one whose descriptor has only a "pk"
    entry, each after [notes_sheet]. *)
Lemma metadata_decode_failure_witness :
  xlsx_to_sql (Workbook [notes_sheet; edited_sheet] EmptyString)
  = Raise (XLSXParseError "Comment verification failed: 'my own comment'")
  ∧ xlsx_to_sql (Workbook [notes_sheet; malformed_sheet] EmptyString)
    = Raise JSONDecodeError
  ∧ cell_metadata (ws_cell incomplete_sheet 1 (1 + 0))
    = Ok (JObj [("pk", JInt 1)])
  ∧ ∃ e, xlsx_to_sql (Workbook [notes_sheet; incomplete_sheet] EmptyString)
         = Raise e
         ∧ (e = TypeError ∨ (∃ key, e = KeyError key)
            ∨ e = XLSXParseError
                    ("Table " +:+ title incomplete_sheet
                     +:+ ": multiple primary key fields detected!")).
Proof.
  destruct (metadata_decode_failure
              (Workbook [notes_sheet; edited_sheet] EmptyString)
              [notes_sheet] [] edited_sheet notes_script 0 "my own comment"
              eq_refl notes_run) as (Hprefix & _);
    [intros i Hi; lia | reflexivity | reflexivity |].
  destruct (metadata_decode_failure
              (Workbook [notes_sheet; malformed_sheet] EmptyString)
              [notes_sheet] [] malformed_sheet notes_script 0
              (COMMENT_PREFIX +:+ "{") eq_refl notes_run) as (_ & Hjson & _);
    [intros i Hi; lia | reflexivity | reflexivity |].
  destruct (metadata_decode_failure
              (Workbook [notes_sheet; incomplete_sheet] EmptyString)
              [notes_sheet] [] incomplete_sheet notes_script 0
              (COMMENT_PREFIX +:+ dumps_plain (JObj [("pk", JInt 1)]))
              eq_refl notes_run) as (_ & _ & Hread & Hkeys);
    [intros i Hi; lia | reflexivity | reflexivity |].
  split; [| split; [| split]].
  - apply Hprefix. vm_compute. discriminate.
  - apply Hjson; vm_compute; reflexivity.
  - apply Hread; vm_compute; reflexivity.
  - apply (Hkeys [PStr "id"] [JObj [("pk", JInt 1)]]).
    + vm_compute. reflexivity.
    + apply Exists_cons_hd. reflexivity.
Defined.

(** C5 as stated fails: text that is not JSON ends the run with the decoder's
    error, not with the script's own; and a descriptor with a missing entry is
    decoded, the run ending later with a [KeyError]. *)
Lemma metadata_decode_counterexample :
  xlsx_to_sql (Workbook [malformed_sheet] EmptyString) = Raise JSONDecodeError
  ∧ cell_metadata (ws_cell incomplete_sheet 1 1) = Ok (JObj [("pk", JInt 1)])
  ∧ xlsx_to_sql (Workbook [incomplete_sheet] EmptyString)
    = Raise (KeyError "type").
Proof. repeat split; vm_compute; reflexivity. Qed.

(** C8 on the round trip of [shop_db]. *)
Lemma value_serialization_witness :
  ∃ texts,
    Forall2 sheet_statements (worksheets (loaded_of shop_db)) texts
    ∧ shop_script = "BEGIN TRANSACTION;" +:+ nl +:+ str_concat texts
                    +:+ "COMMIT;" +:+ nl.
Proof.
  exact (proj1 (value_serialization (loaded_of shop_db) shop_script
                  shop_loaded_run)).
Defined.


(** C6 on [shop_db]: the second table has a name of 35 characters. *)
Lemma sheet_name_truncation_witness :
  description (workbook_of shop_db)
  = AUTOGEN_PREFIX
    +:+ json_dumps
          (JObj [("table_names",
                  JObj (prod_map id JStr
                        <$> zip (title <$> worksheets (workbook_of shop_db))
                              (tables shop_db)))])
  ∧ ∃ sheet,
      worksheets (workbook_of shop_db) !! 1 = Some sheet
      ∧ create_sheet (title <$> take 1 (worksheets (workbook_of shop_db)))
          (str_take 29 "customer_order_line_item_history_v2")
        = Ok (title sheet)
      ∧ dict_get (title sheet)
          (zip (title <$> worksheets (workbook_of shop_db)) (tables shop_db))
        = Some "customer_order_line_item_history_v2".
Proof.
  destruct (sheet_name_truncation shop_db (workbook_of shop_db) shop_made)
    as [Hdesc Hall].
  { apply (bool_decide_unpack _). vm_compute. exact I. }
  split; [exact Hdesc |].
  destruct (Hall 1 "customer_order_line_item_history_v2")
    as (sheet & Hsheet & Htitle & Hlink & _).
  { rewrite shop_tables. reflexivity. }
  exists sheet. split; [exact Hsheet |]. split; [exact Htitle | exact Hlink].
Defined.

(** C6 as stated fails on [twin_db]: the sheet of the second table, whose
    name has 35 characters, is asked for under the title that the first has
    taken; its title has 30 characters and is not the beginning of the name
    of the table. *)
Lemma sheet_title_collision :
  make_workbook twin_db = Ok (workbook_of twin_db)
  ∧ tables twin_db !! 1 = Some "customer_order_line_item_history_v2"
  ∧ String.length "customer_order_line_item_history_v2" = 35
  ∧ title <$> worksheets (workbook_of twin_db) !! 1
    = Some "customer_order_line_item_hist1"
  ∧ String.length "customer_order_line_item_hist1" = 30
  ∧ "customer_order_line_item_hist1"
    ≠ str_take 30 "customer_order_line_item_history_v2".
Proof. repeat split; vm_compute; (reflexivity || discriminate). Qed.

Lemma shop_table_ok (t : string) : t ∈ tables shop_db → table_ok shop_db t.
Proof.
  rewrite shop_tables. intros Ht.
  apply list_elem_of_In in Ht. destruct Ht as [<- | [<- | []]].
  - constructor.
    + repeat constructor; discriminate.
    + apply (bool_decide_unpack _). vm_compute. exact I.
    + reflexivity.
    + repeat constructor.
    + repeat constructor.
    + repeat constructor.
    + repeat constructor.
  - constructor.
    + repeat constructor; discriminate.
    + apply (bool_decide_unpack _). vm_compute. exact I.
    + reflexivity.
    + repeat constructor.
    + repeat constructor.
    + repeat constructor.
    + repeat constructor.
Defined.

Lemma shop_records (t : string) (row : list scalar) :
  t ∈ tables shop_db → row ∈ records shop_db t →
  existsb truthy row = true ∨ forallb is_empty row = true.
Proof.
  rewrite shop_tables. intros Ht Hrow.
  apply list_elem_of_In in Ht. destruct Ht as [<- | [<- | []]];
    apply list_elem_of_In in Hrow; cbn in Hrow.
  - destruct Hrow as [<- | [<- | []]]; by left.
  - destruct Hrow as [<- | [<- | []]]; [by left | by right].
Defined.

(** C1 on [shop_db]: three records are written back, the blank one is not. *)
Lemma round_trip_witness :
  reverse_of_forward shop_db
  = Ok (round_trip_script cell_text
          (fun row => negb (forallb is_empty row)) shop_db
          (workbook_of shop_db)).
Proof.
  exact (round_trip shop_db (workbook_of shop_db) (loaded_of shop_db)
           (loaded_of shop_db) shop_made shop_saved eq_refl
           (sample_file_keeps _ _ shop_saved) shop_table_ok shop_records).
Defined.

(** C1 as stated fails on [blank_db], a table with one primary-key column:
    its second record, the empty string, comes back in no INSERT. *)
Lemma round_trip_counterexample :
  table_ok blank_db "t"
  ∧ tables blank_db = ["t"]
  ∧ reverse_of_forward blank_db
    = Ok (script_of
            ["BEGIN TRANSACTION;"; create_line "t"; tab +:+ "k TEXT,";
             "  PRIMARY KEY (k)"; ");"; insert_into "t" "'a'"; "COMMIT;"])
  ∧ round_trip_script py_str (fun _ => true) blank_db (workbook_of blank_db)
    = script_of
        ["BEGIN TRANSACTION;"; create_line "t"; tab +:+ "k TEXT,";
         "  PRIMARY KEY (k)"; ");"; insert_into "t" "'a'"; insert_into "t" "''";
         "COMMIT;"]
  ∧ reverse_of_forward blank_db
    ≠ Ok (round_trip_script py_str (fun _ => true) blank_db
            (workbook_of blank_db)).
Proof.
  split; [| split; [| split; [| split]]].
  - constructor.
    + repeat constructor; discriminate.
    + apply (bool_decide_unpack _). vm_compute. exact I.
    + reflexivity.
    + repeat constructor.
    + repeat constructor.
    + repeat constructor.
    + repeat constructor.
  - reflexivity.
  - vm_compute. reflexivity.
  - vm_compute. reflexivity.
  - vm_compute. discriminate.
Qed.


(** The sheet of a table is not always made: the name "a/b" is a title that
    openpyxl refuses, the statements built from the name "it's" are not
    statements, and a database without a table gives a workbook without a
    sheet, which openpyxl does not save. *)
Lemma no_workbook_runs :
  make_workbook slash_db = Raise ValueError
  ∧ make_workbook quote_db = Raise OperationalError
  ∧ sql_to_xlsx (Database [] (fun _ => Ok []) (fun _ => no_such_table))
    = Raise IndexError.
Proof. repeat split; vm_compute; reflexivity. Qed.

(** C3: the record of [zero_db] is the integer 0.  Its cell is not empty, yet
    the row counts as blank and the script has no INSERT for it. *)
Theorem zero_record_skipped :
  select_all zero_db "t" = Ok [[PInt 0]]
  ∧ sql_to_xlsx zero_db ≫= load_workbook = Ok (loaded_of zero_db)
  ∧ (fun sheet => ws_cell sheet 2 1) <$> worksheets (loaded_of zero_db)
    = [Cell (PInt 0) None]
  ∧ is_none (PInt 0) = false
  ∧ reverse_of_forward zero_db
    = Ok (script_of
            ["BEGIN TRANSACTION;"; create_line "t"; tab +:+ "id INTEGER,";
             "  PRIMARY KEY (id)"; ");"; "COMMIT;"]).
Proof. repeat split; vm_compute; reflexivity. Qed.

End Runs.

(** * More of the reverse mapper *)

Section HeaderMore.
Context `{Libraries}.

(** Two sheets whose rows 1 agree up to the first empty cell have the same
    header, whatever fuel the loops are given beyond it. *)
Lemma header_loop_agree (sheet sheet' : worksheet) (k fuel fuel' column : nat) :
  k ≤ fuel → k ≤ fuel' →
  (∀ i, i < k → truthy (value (ws_cell sheet 1 (column + i))) = true) →
  truthy (value (ws_cell sheet 1 (column + k))) = false →
  (∀ i, i ≤ k → ws_cell sheet' 1 (column + i) = ws_cell sheet 1 (column + i)) →
  header_loop sheet' fuel' column = header_loop sheet fuel column.
Proof.
  revert fuel fuel' column; induction k as [|k IH];
    intros fuel fuel' column Hf Hf' Htrue Hend Hsame.
  - pose proof (Hsame 0 (Nat.le_refl 0)) as H0.
    rewrite Nat.add_0_r in Hend, H0.
    destruct fuel, fuel'; simpl; by rewrite ?H0, Hend.
  - destruct fuel as [|fuel]; [lia |]. destruct fuel' as [|fuel']; [lia |].
    pose proof (Hsame 0 (Nat.le_0_l _)) as H0.
    pose proof (Htrue 0 (Nat.lt_0_succ _)) as Ht0.
    rewrite Nat.add_0_r in H0, Ht0. simpl. rewrite H0, Ht0.
    rewrite (IH fuel fuel' (column + 1)); [reflexivity | lia | lia | | |].
    + intros i Hi. replace (column + 1 + i) with (column + S i) by lia.
      apply Htrue. lia.
    + by replace (column + 1 + k) with (column + S k) by lia.
    + intros i Hi. replace (column + 1 + i) with (column + S i) by lia.
      apply Hsame. lia.
Qed.

(** The fields number as many as the named cells before the first empty
    one. *)
Lemma detect_fields_count (sheet : worksheet) (k : nat)
    (fields : list scalar) (mds : list json) :
  (∀ i, i < k → truthy (value (ws_cell sheet 1 (1 + i))) = true) →
  truthy (value (ws_cell sheet 1 (1 + k))) = false →
  detect_fields sheet = Ok (fields, mds) →
  fields = (fun i => value (ws_cell sheet 1 (1 + i))) <$> seq 0 k.
Proof.
  intros Htrue Hend Hd.
  destruct (detect_fields_spec _ _ _ Hd) as (n & -> & _ & Hall & Hstop).
  assert (n = k) as ->; [| reflexivity].
  destruct (Nat.lt_trichotomy n k) as [Hlt | [-> | Hgt]]; [| done |].
  - rewrite (Htrue n Hlt) in Hstop. done.
  - rewrite Forall_forall in Hall.
    assert (truthy (value (ws_cell sheet 1 (1 + k))) = true) as Hk; [| congruence].
    apply Hall. apply list_elem_of_lookup. exists k.
    rewrite list_lookup_fmap, lookup_seq_lt by lia. reflexivity.
Qed.

(** When every named cell of row 1 has metadata that is read and satisfies
    [P], the header is read and all its metadata satisfy [P]. *)
Lemma header_loop_all (P : json → Prop) (sheet : worksheet) (fuel column : nat)
    (r : result (list scalar * list json)) :
  (∀ c, truthy (value (ws_cell sheet 1 c)) = true →
        ∃ m, cell_metadata (ws_cell sheet 1 c) = Ok m ∧ P m) →
  header_loop sheet fuel column = Some r →
  ∃ fields mds, r = Ok (fields, mds) ∧ Forall P mds.
Proof.
  intros Hcells; revert column r; induction fuel as [|fuel IH];
    intros column r Hloop; simpl in Hloop.
  - destruct (truthy (value (ws_cell sheet 1 column))); [done |].
    inversion Hloop; subst. by exists [], [].
  - destruct (truthy (value (ws_cell sheet 1 column))) eqn:Ht.
    + destruct (Hcells column Ht) as (m & Hm & HP). rewrite Hm in Hloop.
      destruct (header_loop sheet fuel (column + 1)) as [r'|] eqn:Hrec;
        [| done].
      destruct (IH _ _ Hrec) as (fs & ms & -> & Hall).
      inversion Hloop; subst. exists (value (ws_cell sheet 1 column) :: fs),
        (m :: ms). split; [reflexivity | by constructor].
    + inversion Hloop; subst. by exists [], [].
Qed.

Lemma detect_fields_all (P : json → Prop) (sheet : worksheet) :
  (∀ c, truthy (value (ws_cell sheet 1 c)) = true →
        ∃ m, cell_metadata (ws_cell sheet 1 c) = Ok m ∧ P m) →
  ∃ fields mds, detect_fields sheet = Ok (fields, mds) ∧ Forall P mds.
Proof.
  intros Hcells.
  apply (header_loop_all P sheet (max_column sheet) 1); [exact Hcells |].
  apply detect_fields_header_loop.
Qed.

Lemma count_pk_none (mds : list json) :
  Forall (fun m => pk_flag m = false) mds → count_pk mds = 0.
Proof.
  induction 1 as [|m mds Hm _ IH]; [reflexivity |].
  by rewrite count_pk_cons, Hm, IH.
Qed.

Lemma convert_sheets_raise_inv (sheets : list worksheet) (script : string)
    (e : exn) :
  convert_sheets sheets script = Raise e →
  ∃ pre sheet post script',
    sheets = pre ++ sheet :: post
    ∧ convert_sheets pre script = Ok script'
    ∧ convert_sheet sheet script' = Raise e.
Proof.
  revert script; induction sheets as [|sheet sheets IH]; intros script Hc;
    cbn [convert_sheets] in Hc; [done |].
  destruct (convert_sheet sheet script) as [s|e'] eqn:Hs; run_bind Hc.
  - destruct (IH _ Hc) as (pre & sh & post & s' & -> & Hpre & Hsh).
    exists (sheet :: pre), sh, post, s'. split; [reflexivity |].
    split; [| exact Hsh]. cbn [convert_sheets]. by rewrite Hs.
  - inversion Hc; subst. exists [], sheet, sheets, script. by repeat split.
Qed.

End HeaderMore.

(** X1.  The header of a sheet is its row 1 up to the first cell whose value
    does not count as true: with [k] named cells before that cell the sheet
    has [k] fields, and nothing to the right of that cell is read, be it a
    name, a comment or a comment that could not be decoded. *)
Theorem header_ends_at_first_empty `{Libraries} (sheet sheet' : worksheet)
    (k : nat) :
  (∀ i, i < k → truthy (value (ws_cell sheet 1 (1 + i))) = true) →
  truthy (value (ws_cell sheet 1 (1 + k))) = false →
  (∀ i, i ≤ k → ws_cell sheet' 1 (1 + i) = ws_cell sheet 1 (1 + i)) →
  detect_fields sheet' = detect_fields sheet
  ∧ ∀ fields mds,
      detect_fields sheet = Ok (fields, mds) →
      length fields = k
      ∧ fields = (fun i => value (ws_cell sheet 1 (1 + i))) <$> seq 0 k.
Proof.
  intros Htrue Hend Hsame. split.
  - assert (k ≤ max_column sheet ∧ k ≤ max_column sheet') as [Hk Hk'].
    { destruct k as [|k]; [lia |]. split.
      - pose proof (Htrue k (Nat.lt_succ_diag_r k)) as Ht.
        apply truthy_cell_within in Ht. lia.
      - pose proof (Htrue k (Nat.lt_succ_diag_r k)) as Ht.
        rewrite <- Hsame in Ht by lia. apply truthy_cell_within in Ht. lia. }
    unfold detect_fields.
    by rewrite (header_loop_agree sheet sheet' k (max_column sheet)
                  (max_column sheet') 1).
  - intros fields mds Hd.
    rewrite (detect_fields_count sheet k fields mds Htrue Hend Hd).
    by rewrite length_fmap, length_seq.
Qed.

(** X2.  A run ends with an exception exactly when one of its sheets does,
    the sheets before it being converted: the exception of the run is the one
    of the first such sheet, and the sheets after it play no part. *)
Theorem run_fails_at_first_failing_sheet `{Libraries} (wb : workbook) (e : exn) :
  xlsx_to_sql wb = Raise e
  ↔ ∃ pre sheet post script,
      worksheets wb = pre ++ sheet :: post
      ∧ convert_sheets pre ("BEGIN TRANSACTION;" +:+ nl) = Ok script
      ∧ convert_sheet sheet script = Raise e.
Proof.
  split.
  - unfold xlsx_to_sql. intros Hrun.
    destruct (convert_sheets (worksheets wb) _) as [s|e'] eqn:Hs; run_bind Hrun;
      [done |].
    inversion Hrun; subst. rewrite str_app_nil_l in Hs.
    apply convert_sheets_raise_inv in Hs. exact Hs.
  - intros (pre & sheet & post & script & Hwb & Hpre & Hsheet).
    by eapply xlsx_to_sql_raises.
Qed.

(** X3.  A sheet none of whose header cells has a comment cannot be
    converted: all its fields get the default descriptor, none is a primary
    key, and the sheet ends the run with "no primary key field detected".
    An empty sheet is such a sheet. *)
Theorem sheet_without_comments_fails `{Libraries} (sheet : worksheet)
    (script : string) :
  (∀ c, comment (ws_cell sheet 1 c) = None) →
  convert_sheet sheet script
  = Raise (XLSXParseError
             ("Table " +:+ title sheet +:+ ": no primary key field detected!")).
Proof.
  intros Hnone.
  destruct (detect_fields_all (fun m => m = DEFAULT_METADATA) sheet)
    as (fields & mds & Hd & Hall).
  { intros c _. exists DEFAULT_METADATA. split; [| done].
    unfold cell_metadata. by rewrite Hnone. }
  destruct (detect_fields_spec _ _ _ Hd) as (n & _ & _ & Htruthy & _).
  pose proof (create_table_pk (title sheet) fields mds script
                (detect_fields_length _ _ _ Hd) Htruthy) as Hpk.
  rewrite count_pk_none in Hpk.
  - unfold convert_sheet. rewrite Hd. cbn [mbind result_bind].
    rewrite Hpk; [reflexivity |].
    eapply Forall_impl; [exact Hall |]. by intros m ->.
  - eapply Forall_impl; [exact Hall |]. by intros m ->.
Qed.

Section ScriptMore.
Context `{Libraries}.

Lemma bind_raise {A B} (e : exn) (k : A → result B) :
  (Raise e : result A) ≫= k = Raise e.
Proof. reflexivity. Qed.

(** The column lines do not depend on the script they are appended to. *)
Lemma add_fields_script (table_name : string) (fields : list (scalar * json))
    (pk0 : scalar) (script : string) :
  add_fields table_name fields pk0 script
  = add_fields table_name fields pk0 EmptyString
    ≫= fun r => Ok (r.1, script +:+ r.2).
Proof.
  revert pk0 script; induction fields as [|[name md] rest IH];
    intros pk0 script.
  - cbn [add_fields mbind result_bind fst snd]. by rewrite str_app_nil_r.
  - cbn [add_fields].
    destruct (getitem md "pk") as [pkv|e]; cbn [mbind result_bind];
      [| reflexivity].
    destruct (if json_truthy pkv
              then if negb (is_none pk0)
                   then Raise (multiple_pk_error table_name) else Ok name
              else Ok pk0) as [pk'|e] eqn:Hsel;
      unfold multiple_pk_error in Hsel; rewrite Hsel;
      cbn [mbind result_bind]; [| reflexivity].
    destruct (getitem md "type") as [ty|e]; cbn [mbind result_bind];
      [| reflexivity].
    destruct (getitem md "not_null") as [nn|e]; cbn [mbind result_bind];
      [| reflexivity].
    rewrite IH. symmetry. rewrite IH.
    destruct (add_fields table_name rest pk' EmptyString) as [[p text]|e];
      cbn [mbind result_bind fst snd]; [| reflexivity].
    f_equal. f_equal.
    destruct (py_eq pk' name), (json_truthy nn);
      by rewrite ?str_app_assoc, ?str_app_nil_l.
Qed.

Lemma create_table_script (table_name : string) (fields : list scalar)
    (mds : list json) (script : string) :
  create_table table_name fields mds script
  = create_table table_name fields mds EmptyString
    ≫= fun text => Ok (script +:+ text).
Proof.
  unfold create_table. rewrite add_fields_script. symmetry.
  rewrite add_fields_script.
  destruct (add_fields table_name (zip fields mds) PNone EmptyString)
    as [[p text]|e]; cbn [mbind result_bind fst snd]; [| reflexivity].
  destruct (is_none p); cbn [negb mbind result_bind]; [reflexivity |].
  f_equal. by rewrite ?str_app_assoc, ?str_app_nil_l.
Qed.

Lemma convert_sheet_script (sheet : worksheet) (script : string) :
  convert_sheet sheet script
  = convert_sheet sheet EmptyString ≫= fun text => Ok (script +:+ text).
Proof.
  unfold convert_sheet.
  destruct (detect_fields sheet) as [[fields mds]|e];
    cbn [mbind result_bind]; [| reflexivity].
  rewrite create_table_script. symmetry. rewrite create_table_script.
  destruct (create_table (title sheet) fields mds EmptyString) as [text|e];
    cbn [mbind result_bind]; [| reflexivity].
  f_equal. by rewrite ?str_app_assoc, ?str_app_nil_l.
Qed.

Lemma convert_sheets_own_texts (sheets : list worksheet)
    (script script' : string) :
  convert_sheets sheets script = Ok script' →
  ∃ texts,
    Forall2 (fun sheet text => convert_sheet sheet EmptyString = Ok text)
            sheets texts
    ∧ script' = script +:+ str_concat texts.
Proof.
  revert script; induction sheets as [|sheet sheets IH]; intros script Hc;
    cbn [convert_sheets] in Hc.
  - inversion Hc; subst. exists []. split; [constructor |].
    by rewrite str_app_nil_r.
  - rewrite convert_sheet_script in Hc.
    destruct (convert_sheet sheet EmptyString) as [text|e] eqn:Hs;
      run_bind Hc; [| done].
    apply IH in Hc as (texts & Htexts & ->). exists (text :: texts).
    split; [by constructor |].
    change (str_concat (text :: texts)) with (text +:+ str_concat texts).
    by rewrite str_app_assoc.
Qed.

Lemma py_eq_refl (v : scalar) : py_eq v v = true.
Proof.
  destruct v as [|b|n|x|s|b]; cbn [py_eq].
  - reflexivity.
  - by destruct b.
  - apply Z.eqb_refl.
  - destruct x as [s|s|s m e]; cbn [float_eqb].
    + reflexivity.
    + by destruct s.
    + unfold dyadic_eqb. apply Z.eqb_refl.
  - apply String.eqb_refl.
  - by apply bool_decide_eq_true_2.
Qed.

Lemma add_fields_app (table_name : string) (l1 l2 : list (scalar * json))
    (pk0 : scalar) (script : string) :
  add_fields table_name (l1 ++ l2) pk0 script
  = add_fields table_name l1 pk0 script
    ≫= fun r => add_fields table_name l2 r.1 r.2.
Proof.
  revert pk0 script; induction l1 as [|[name md] l1 IH]; intros pk0 script.
  - reflexivity.
  - cbn [app add_fields].
    destruct (getitem md "pk") as [pkv|e]; cbn [mbind result_bind];
      [| reflexivity].
    destruct (if json_truthy pkv
              then if negb (is_none pk0)
                   then Raise (multiple_pk_error table_name) else Ok name
              else Ok pk0) as [pk'|e] eqn:Hsel;
      unfold multiple_pk_error in Hsel; rewrite Hsel;
      cbn [mbind result_bind]; [| reflexivity].
    destruct (getitem md "type") as [ty|e]; cbn [mbind result_bind];
      [| reflexivity].
    destruct (getitem md "not_null") as [nn|e]; cbn [mbind result_bind];
      [| reflexivity].
    apply IH.
Qed.

(** The lines of fields that are not flagged: the key met so far stays, and
    a name is quoted unless it equals the key. *)
Lemma add_fields_unflagged (table_name : string)
    (fields : list (scalar * json)) (pk0 : scalar) (script : string) :
  Forall (fun f => complete_descriptor f.2 = true ∧ pk_flag f.2 = false)
         fields →
  add_fields table_name fields pk0 script
  = Ok (pk0,
        script
        +:+ str_concat
              ((fun f => descriptor_line (negb (py_eq pk0 f.1)) f) <$> fields)).
Proof.
  intros Hall; revert script;
    induction Hall as [|[name md] rest [Hc Hflag] _ IH]; intros script.
  - cbn [add_fields fmap list_fmap str_concat foldr]. by rewrite str_app_nil_r.
  - cbn [fst snd] in Hc, Hflag. unfold complete_descriptor in Hc.
    unfold pk_flag in Hflag. cbn [add_fields fmap list_fmap].
    change (list_fmap _ _ ?f rest) with (f <$> rest).
    unfold descriptor_line at 1. cbn [fst snd].
    destruct (getitem md "pk") as [pkv|]; [| done].
    destruct (getitem md "type") as [ty|]; [| done].
    destruct (getitem md "not_null") as [nn|]; [| done].
    cbn [mbind result_bind]. rewrite Hflag. cbn [mbind result_bind].
    rewrite IH. f_equal. f_equal.
    change (str_concat (?x :: ?l)) with (x +:+ str_concat l).
    unfold column_line.
    destruct (py_eq pk0 name), (json_truthy nn); cbn [negb];
      by rewrite ?str_app_assoc, ?str_app_nil_l.
Qed.

End ScriptMore.

(** X4.  The statements of a sheet depend on the sheet alone, not on the
    script written so far; and a run writes a script exactly when every sheet
    can be converted on its own, the script being "BEGIN TRANSACTION;", the
    statements of the sheets in the order of the workbook, and "COMMIT;". *)
Theorem script_is_sheet_by_sheet `{Libraries} :
  (∀ sheet script,
      convert_sheet sheet script
      = convert_sheet sheet EmptyString ≫= fun text => Ok (script +:+ text))
  ∧ ∀ wb script,
      xlsx_to_sql wb = Ok script
      ↔ ∃ texts,
          Forall2 (fun sheet text => convert_sheet sheet EmptyString = Ok text)
                  (worksheets wb) texts
          ∧ script = "BEGIN TRANSACTION;" +:+ nl +:+ str_concat texts
                     +:+ "COMMIT;" +:+ nl.
Proof.
  split; [apply convert_sheet_script |].
  intros wb script. unfold xlsx_to_sql. rewrite str_app_nil_l. split.
  - intros Hrun.
    destruct (convert_sheets (worksheets wb) _) as [s|e] eqn:Hs; run_bind Hrun;
      [| done].
    inversion Hrun; subst.
    apply convert_sheets_own_texts in Hs as (texts & Htexts & ->).
    exists texts. split; [done |]. by rewrite !str_app_assoc.
  - intros (texts & Htexts & ->).
    rewrite (convert_sheets_texts (worksheets wb) texts).
    + cbn [mbind result_bind]. by rewrite !str_app_assoc.
    + eapply Forall2_impl; [exact Htexts |].
      intros sheet text Hs s. rewrite convert_sheet_script, Hs. reflexivity.
Qed.

(** X5.  Which rows are records: a row below the header gets an INSERT
    exactly when one of its cells, in whatever column, holds a value that
    counts as true.  A row that holds nothing but empty cells, empty strings,
    zeros and False gets none; a row whose only value stands to the right of
    the header gets an INSERT of the cells under the header, empty as they
    may be. *)
Theorem record_needs_a_true_value `{Libraries} (sheet : worksheet)
    (table_name : string) (fields : list scalar) (row_index : nat)
    (cells : list cell) :
  0 < row_index →
  rows sheet !! row_index = Some cells →
  ((∀ c, 1 ≤ c → truthy (value (ws_cell sheet (row_index + 1) c)) = false) →
   record_text sheet table_name fields row_index cells = EmptyString)
  ∧ ((∃ c, 1 ≤ c ∧ truthy (value (ws_cell sheet (row_index + 1) c)) = true) →
     record_text sheet table_name fields row_index cells
     = insert_line table_name
         (row_texts sheet (length fields) (row_index + 1))).
Proof.
  intros Hpos Hrow. unfold rows in Hrow. rewrite list_lookup_fmap in Hrow.
  destruct (seq 1 (max_row sheet) !! row_index) as [r|] eqn:Hr; [| done].
  apply lookup_seq in Hr as [-> _]. cbn [fmap option_fmap option_map] in Hrow.
  inversion Hrow; subst cells; clear Hrow.
  replace (S row_index) with (row_index + 1) by lia.
  unfold record_text. destruct (Nat.eqb_spec row_index 0) as [-> | _]; [lia |].
  rewrite insert_statement_line. split.
  - intros Hnone.
    assert (any_value ((fun c => ws_cell sheet (row_index + 1) c)
                       <$> seq 1 (max_column sheet)) = false) as ->;
      [| reflexivity].
    apply not_true_is_false. intros Hex. unfold any_value in Hex.
    apply existsb_exists in Hex as (x & Hin & Ht).
    apply list_elem_of_In, list_elem_of_fmap in Hin as (c & -> & Hc).
    apply elem_of_seq in Hc. rewrite Hnone in Ht by lia. done.
  - intros (c & Hc & Ht).
    assert (any_value ((fun c => ws_cell sheet (row_index + 1) c)
                       <$> seq 1 (max_column sheet)) = true) as ->;
      [| reflexivity].
    unfold any_value. apply existsb_exists.
    exists (ws_cell sheet (row_index + 1) c). split; [| exact Ht].
    apply list_elem_of_In, list_elem_of_fmap. exists c. split; [done |].
    apply elem_of_seq. apply truthy_cell_within in Ht. lia.
Qed.

(** X6.  In the CREATE TABLE statement of a sheet with one flagged field and
    complete descriptors, the fields before the key are written between
    double quotes, the key is written bare, and a field after the key is
    written between double quotes unless its name equals the key; every line
    carries the type of its descriptor and NOT NULL when its not_null entry
    counts as true, and the PRIMARY KEY line names the key. *)
Theorem key_column_is_bare `{Libraries} (table_name : string)
    (fields : list scalar) (mds : list json)
    (before after : list (scalar * json)) (key : scalar) (key_md : json)
    (script : string) :
  zip fields mds = before ++ (key, key_md) :: after →
  truthy key = true →
  complete_descriptor key_md = true → pk_flag key_md = true →
  Forall (fun f => truthy f.1 = true ∧ complete_descriptor f.2 = true
                   ∧ pk_flag f.2 = false) before →
  Forall (fun f => complete_descriptor f.2 = true ∧ pk_flag f.2 = false)
         after →
  create_table table_name fields mds script
  = Ok (script +:+ "CREATE TABLE " +:+ dq +:+ table_name +:+ dq +:+ " (" +:+ nl
        +:+ str_concat (descriptor_line true <$> before)
        +:+ descriptor_line false (key, key_md)
        +:+ str_concat
              ((fun f => descriptor_line (negb (py_eq key f.1)) f) <$> after)
        +:+ "  PRIMARY KEY (" +:+ py_str key +:+ ")" +:+ nl
        +:+ ");" +:+ nl).
Proof.
  intros Hzip Hkey Hkc Hkflag Hbefore Hafter.
  unfold create_table. rewrite Hzip, add_fields_app.
  rewrite add_fields_unflagged.
  2: { eapply Forall_impl; [exact Hbefore |]. by intros f (_ & ? & ?). }
  cbn [mbind result_bind fst snd].
  assert ((fun f : scalar * json => descriptor_line (negb (py_eq PNone f.1)) f)
          <$> before = descriptor_line true <$> before) as ->.
  { apply Forall_fmap_ext. eapply Forall_impl; [exact Hbefore |].
    intros [v m] (Hv & _ & _). cbn [fst] in *. by destruct v. }
  cbn [add_fields]. unfold complete_descriptor in Hkc. unfold pk_flag in Hkflag.
  assert (descriptor_line false (key, key_md)
          = match getitem key_md "type", getitem key_md "not_null" with
            | Ok ty, Ok not_null =>
                column_line false key (json_str ty) (json_truthy not_null)
            | _, _ => EmptyString
            end) as -> by reflexivity.
  destruct (getitem key_md "pk") as [pkv|]; [| done].
  destruct (getitem key_md "type") as [ty|]; [| done].
  destruct (getitem key_md "not_null") as [nn|]; [| done].
  cbn [mbind result_bind]. rewrite Hkflag.
  cbn [is_none negb mbind result_bind]. rewrite py_eq_refl.
  rewrite add_fields_unflagged by exact Hafter.
  cbn [mbind result_bind]. rewrite (truthy_not_none key Hkey).
  cbn [negb mbind result_bind]. f_equal. unfold column_line.
  destruct (json_truthy nn); by rewrite ?str_app_assoc, ?str_app_nil_l.
Qed.

(** * More of the forward mapper *)

Lemma str_take_short (n : nat) (s : string) :
  String.length s ≤ n → str_take n s = s.
Proof.
  revert n; induction s as [|x s IH]; intros n Hn; [by destruct n |].
  destruct n as [|n]; simpl in Hn; [lia |].
  simpl. f_equal. apply IH. lia.
Qed.

Lemma count_pk_columns (cols : list column_info) :
  count_pk (field_metadata <$> cols) = length (primary_key_columns cols).
Proof.
  induction cols as [|c cols IH]; [reflexivity |].
  rewrite fmap_cons, count_pk_cons, IH. unfold primary_key_columns.
  unfold pk_flag. rewrite getitem_pk. cbn [json_truthy].
  destruct (Z.eqb_spec (pk c) 0) as [Hz | Hnz]; cbn [negb].
  - by rewrite filter_cons_False by (intros ?; done).
  - by rewrite filter_cons_True by done.
Qed.

Lemma zip_diag {A} (l : list A) : zip l l = (fun x => (x, x)) <$> l.
Proof. induction l as [|x l IH]; [reflexivity |]. cbn. by rewrite <- IH. Qed.

Section ForwardMore.
Context `{Libraries}.

(** Row 1 of a sheet with the cells of the sheet of a table: the header
    cells of the columns, with the names as openpyxl has stored them, and
    nothing after them. *)
Lemma made_sheet_header (db : database) (sheets : list worksheet)
    (table_name : string) (ws ws' : worksheet) (j : nat) :
  table_sheet db sheets table_name = Ok ws →
  same_cells ws ws' →
  match columns db table_name !! j with
  | Some col =>
      ∃ v, bind_value (PStr (col_name col)) = Ok v
           ∧ comment (ws_cell ws' 1 (1 + j))
             = Some (AUTOGEN_PREFIX +:+ json_dumps (field_metadata col))
           ∧ stored (value (ws_cell ws' 1 (1 + j))) = stored v
  | None => truthy (value (ws_cell ws' 1 (1 + j))) = false
  end.
Proof.
  intros Hmade [_ Hsame].
  destruct (made_sheet_cells _ _ _ _ Hmade)
    as (names & held & _ & _ & Hn & _ & Hcells).
  destruct (Hsame 1 (1 + j)) as [Hc Hv].
  unfold ws_cell at 2 in Hc. unfold ws_cell at 2 in Hv.
  rewrite Hcells in Hc, Hv. rewrite decide_True in Hc, Hv by lia.
  replace (1 + j - 1) with j in Hc, Hv by lia.
  destruct (columns db table_name !! j) as [col|] eqn:Hcol.
  - assert (∃ v, names !! j = Some v
                 ∧ bind_value (PStr (col_name col)) = Ok v) as (v & Hj & Hb).
    { unfold bound in Hn.
      apply (Forall2_lookup_l _ _ _ j (PStr (col_name col))) in Hn; [done |].
      by rewrite list_lookup_fmap, Hcol. }
    assert (zip (columns db table_name) names !! j = Some (col, v)) as Hz.
    { apply lookup_zip_with_Some. by exists col, v. }
    rewrite Hz in Hc, Hv.
    cbn [fmap option_fmap option_map default header_cell fst snd value
         comment] in Hc, Hv.
    by exists v.
  - assert (zip (columns db table_name) names !! j = None) as Hz.
    { apply lookup_ge_None_2. rewrite length_zip_with.
      apply lookup_ge_None_1 in Hcol. lia. }
    rewrite Hz in Hv. cbn [fmap option_fmap option_map default] in Hv.
    by rewrite (stored_same_truthy _ _ Hv).
Qed.

(** The header read back from such a sheet: the columns up to the first one
    whose name does not count. *)
Lemma made_sheet_detect (db : database) (sheets : list worksheet)
    (table_name : string) (ws ws' : worksheet)
    (named rest : list column_info) :
  table_sheet db sheets table_name = Ok ws →
  same_cells ws ws' →
  columns db table_name = named ++ rest →
  Forall (fun c => col_name c ≠ EmptyString) named →
  Forall (fun c => bind_value (PStr (col_name c)) = Ok (PStr (col_name c)))
         named →
  (∀ c v, head rest = Some c → bind_value (PStr (col_name c)) = Ok v →
          truthy v = false) →
  Forall (fun c => json_loads (json_dumps (field_metadata c))
                   = Some (field_metadata c)) named →
  detect_fields ws'
  = Ok (PStr ∘ col_name <$> named, field_metadata <$> named).
Proof.
  intros Hmade Hsame Hcols Hnames Hbound Hrest Hcodec.
  apply header_cells_detect; [| | done | done].
  - intros j col Hcol.
    pose proof (made_sheet_header db sheets table_name ws ws' j Hmade Hsame)
      as Hj.
    rewrite Hcols, (lookup_app_l_Some _ _ _ _ Hcol) in Hj.
    destruct Hj as (v & Hv & Hc & Hs).
    assert (col ∈ named) as Hin by (apply list_elem_of_lookup; eauto).
    rewrite Forall_forall in Hbound. rewrite (Hbound col Hin) in Hv.
    inversion Hv; subst v.
    apply stored_same_value in Hs.
    2: { rewrite Forall_forall in Hnames. by apply truthy_name, Hnames. }
    destruct (ws_cell ws' 1 (1 + j)) as [v c]. cbn [value comment] in *.
    unfold header_cell. by subst.
  - pose proof (made_sheet_header db sheets table_name ws ws' (length named)
                  Hmade Hsame) as Hj.
    rewrite Hcols, lookup_app_r, Nat.sub_diag in Hj by lia.
    destruct rest as [|c rest]; [exact Hj |].
    cbn [lookup list_lookup] in Hj. destruct Hj as (v & Hv & _ & Hs).
    rewrite (stored_same_truthy _ _ Hs). by apply (Hrest c v).
Qed.

(** A sheet that cannot be converted ends the run. *)
Lemma convert_sheets_fails (sheets : list worksheet) (sheet : worksheet)
    (script : string) :
  sheet ∈ sheets →
  (∀ s, ∃ e, convert_sheet sheet s = Raise e) →
  ∃ e, convert_sheets sheets script = Raise e.
Proof.
  intros Hin Hfail. apply list_elem_of_split in Hin as (pre & post & ->).
  rewrite convert_sheets_app.
  destruct (convert_sheets pre script) as [s|e]; cbn [mbind result_bind];
    [| by exists e].
  cbn [convert_sheets]. destruct (Hfail s) as [e ->]. by exists e.
Qed.

(** The sheet of a table whose columns are named, after the number of its
    primary-key columns. *)
Lemma made_sheet_keys (db : database) (sheets : list worksheet)
    (table_name : string) (ws ws' : worksheet) (script : string) :
  Forall (fun c => col_name c ≠ EmptyString) (columns db table_name) →
  Forall (fun c => bind_value (PStr (col_name c)) = Ok (PStr (col_name c)))
         (columns db table_name) →
  Forall (fun c => json_loads (json_dumps (field_metadata c))
                   = Some (field_metadata c)) (columns db table_name) →
  table_sheet db sheets table_name = Ok ws →
  same_cells ws ws' →
  match length (primary_key_columns (columns db table_name)) with
  | 0 => convert_sheet ws' script = Raise (no_pk_error (title ws'))
  | 1 => ∃ s, convert_sheet ws' script = Ok s
  | _ => convert_sheet ws' script = Raise (multiple_pk_error (title ws'))
  end.
Proof.
  intros Hnames Hbound Hcodec Hmade Hsame.
  set (cols := columns db table_name) in *.
  assert (detect_fields ws'
          = Ok (PStr ∘ col_name <$> cols, field_metadata <$> cols)) as Hd.
  { apply (made_sheet_detect db sheets table_name ws ws' cols []);
      try done; by rewrite app_nil_r. }
  unfold convert_sheet. rewrite Hd. cbn [mbind result_bind].
  pose proof (create_table_pk (title ws') (PStr ∘ col_name <$> cols)
                (field_metadata <$> cols) script) as Hpk.
  rewrite count_pk_columns in Hpk.
  assert (Forall (fun v => truthy v = true) (PStr ∘ col_name <$> cols))
    as Htruthy.
  { apply Forall_fmap. eapply Forall_impl; [exact Hnames |].
    intros c Hc. by apply truthy_name. }
  assert (Forall (fun m => complete_descriptor m = true)
                 (field_metadata <$> cols)) as Hcomplete.
  { apply Forall_fmap. by apply Forall_true. }
  specialize (Hpk ltac:(by rewrite !length_fmap) Htruthy Hcomplete).
  destruct (length (primary_key_columns cols)) as [|[|n]].
  - by rewrite Hpk.
  - destruct Hpk as [s ->]. cbn [mbind result_bind]. eauto.
  - by rewrite Hpk.
Qed.

(** The titles of the sheets when openpyxl gives each sheet the title asked
    for. *)
Lemma make_workbook_titles (db : database) (wb : workbook) (i : nat) :
  make_workbook db = Ok wb →
  (∀ j t, tables db !! j = Some t →
          create_sheet (take j (tables db)) (sheet_target_name t) = Ok t) →
  title <$> take i (worksheets wb) = take i (tables db).
Proof.
  intros Hwb Hkept.
  destruct (make_workbook_nth db wb Hwb) as [Hlen Hnth].
  induction i as [|i IH]; [reflexivity |].
  destruct (tables db !! i) as [t|] eqn:Ht.
  - destruct (Hnth i t Ht) as (ws & Hws & Hmade).
    rewrite (take_S_r _ _ _ Hws), (take_S_r _ _ _ Ht), fmap_app, IH.
    cbn [fmap list_fmap]. do 2 f_equal.
    apply table_sheet_cells in Hmade as (? & ? & ? & ? & Htitle & _).
    rewrite IH, (Hkept i t Ht) in Htitle. by inversion Htitle.
  - apply lookup_ge_None_1 in Ht.
    rewrite !take_ge in IH by lia. by rewrite !take_ge by lia.
Qed.

Lemma xlsx_to_sql_own_texts (wb : workbook) (script : string) :
  xlsx_to_sql wb = Ok script →
  ∃ texts,
    Forall2 (fun sheet text => convert_sheet sheet EmptyString = Ok text)
            (worksheets wb) texts
    ∧ script = "BEGIN TRANSACTION;" +:+ nl +:+ str_concat texts
               +:+ "COMMIT;" +:+ nl.
Proof.
  unfold xlsx_to_sql. rewrite str_app_nil_l. intros Hrun.
  destruct (convert_sheets (worksheets wb) _) as [s|e] eqn:Hs; run_bind Hrun;
    [| done].
  inversion Hrun; subst.
  apply convert_sheets_own_texts in Hs as (texts & Htexts & ->).
  exists texts. split; [done |]. by rewrite !str_app_assoc.
Qed.

End ForwardMore.

(** X7.  The sheet of a table, when it is made, holds the table and nothing
    else: SQLite has answered the two statements, openpyxl has stored the
    names of the columns and the values of the records, and row 1 has, for
    each column in order, a cell with the name as stored and the comment with
    the descriptor; row i + 2 has the values of record i as stored, in order
    and without comments; and every cell of the sheet is one of these. *)
Theorem sheet_is_the_table `{Libraries} (db : database)
    (sheets : list worksheet) (table_name : string) (ws : worksheet) :
  table_sheet db sheets table_name = Ok ws →
  ∃ names held,
    table_info db table_name = Ok (columns db table_name)
    ∧ select_all db table_name = Ok (records db table_name)
    ∧ bound (PStr ∘ col_name <$> columns db table_name) names
    ∧ Forall2 bound (records db table_name) held
    ∧ (∀ j col v,
          columns db table_name !! j = Some col → names !! j = Some v →
          ws_cell ws 1 (j + 1) = header_cell col v)
    ∧ (∀ i j row v,
          held !! i = Some row → row !! j = Some v →
          ws_cell ws (i + 2) (j + 1) = Cell v None)
    ∧ (∀ r c x,
          _cells ws !! (r, c) = Some x →
          (r = 1 ∧ 0 < c
           ∧ ∃ col v, columns db table_name !! (c - 1) = Some col
                      ∧ names !! (c - 1) = Some v
                      ∧ x = header_cell col v)
          ∨ (2 ≤ r ∧ 0 < c
             ∧ ∃ row v, held !! (r - 2) = Some row
                        ∧ row !! (c - 1) = Some v ∧ x = Cell v None)).
Proof.
  intros Hmade.
  destruct (made_sheet_cells _ _ _ _ Hmade)
    as (names & held & Hf & Hr & Hn & Hh & Hcells).
  exists names, held. do 4 (split; [done |]).
  split; [| split].
  - intros j col v Hcol Hv. unfold ws_cell. rewrite Hcells.
    rewrite decide_True by lia. replace (j + 1 - 1) with j by lia.
    assert (zip (columns db table_name) names !! j = Some (col, v)) as ->.
    { apply lookup_zip_with_Some. by exists col, v. }
    reflexivity.
  - intros i j row v Hrow Hv. unfold ws_cell. rewrite Hcells.
    rewrite decide_False by lia. rewrite decide_True by lia.
    replace (i + 2 - 2) with i by lia. replace (j + 1 - 1) with j by lia.
    rewrite Hrow. cbn [mbind option_bind]. by rewrite Hv.
  - intros r c x Hx. rewrite Hcells in Hx.
    destruct (decide (r = 1 ∧ 0 < c)) as [[-> Hc] | _].
    + left. split; [done |]. split; [done |].
      destruct (zip (columns db table_name) names !! (c - 1))
        as [[col v]|] eqn:Hz;
        cbn [fmap option_fmap option_map fst snd] in Hx; [| done].
      apply lookup_zip_with_Some in Hz as (col' & v' & Heq & Hcol & Hv).
      inversion Heq; subst col' v'.
      exists col, v. split; [done |]. split; [done |]. by inversion Hx.
    + destruct (decide (2 ≤ r ∧ 0 < c)) as [[Hr' Hc] | _]; [| done].
      right. split; [done |]. split; [done |].
      destruct (held !! (r - 2)) as [row|] eqn:Hrow; [| done].
      cbn [mbind option_bind] in Hx.
      destruct (row !! (c - 1)) as [v|] eqn:Hv;
        cbn [fmap option_fmap option_map] in Hx; [| done].
      exists row, v. split; [done |]. split; [done |]. by inversion Hx.
Qed.

(** X8.  The header that the reverse mapper reads from the sheet of a table,
    as it is made or as it is read back from a file that keeps its cells, is
    the list of the columns up to the first column whose name does not count
    (an empty name), each with the descriptor the forward mapper wrote for
    it: the comment passes the prefix check, and the columns from the unnamed
    one on are not fields.  The names are names that openpyxl stores as they
    are given, the descriptors are read back by the JSON codec as they were
    written. *)
Theorem header_read_back `{Libraries} (db : database)
    (sheets : list worksheet) (table_name : string) (ws ws' : worksheet)
    (named rest : list column_info) :
  table_sheet db sheets table_name = Ok ws →
  same_cells ws ws' →
  table_info db table_name = Ok (named ++ rest) →
  Forall (fun c => col_name c ≠ EmptyString) named →
  Forall (fun c => bind_value (PStr (col_name c)) = Ok (PStr (col_name c)))
         named →
  (∀ c v, head rest = Some c → bind_value (PStr (col_name c)) = Ok v →
          truthy v = false) →
  Forall (fun c => json_loads (json_dumps (field_metadata c))
                   = Some (field_metadata c)) named →
  detect_fields ws'
  = Ok (PStr ∘ col_name <$> named, field_metadata <$> named).
Proof.
  intros Hmade Hsame Hinfo. apply (made_sheet_detect db sheets table_name ws);
    [done | done |]. unfold columns. by rewrite Hinfo.
Qed.

(** X9.  Which records come back from a round trip: for a database whose
    tables each have one primary-key column (named, distinct columns,
    descriptors that the JSON codec reads back, records as wide as the
    columns, names and values that openpyxl stores as they are given), when
    the forward mapper saves its workbook and the workbook loaded from the
    file has the cells of the one saved, an empty string being an empty
    cell, the reverse mapper gives a script with, for each table, its CREATE
    TABLE statement and an INSERT for exactly the records that hold a value
    that counts as true.  The records made only of NULL, empty strings,
    zeros and False are lost. *)
Theorem round_trip_keeps_true_records `{Libraries} (db : database)
    (written loaded : workbook) (file : xlsx_file) :
  make_workbook db = Ok written →
  save written = Ok file →
  load_workbook file = Ok loaded →
  file_keeps written loaded →
  (∀ t, t ∈ tables db → table_ok db t) →
  reverse_of_forward db
  = Ok (round_trip_script cell_text (existsb truthy) db written).
Proof.
  intros Hmade Hsave Hload Hkeeps Hok.
  unfold reverse_of_forward, sql_to_xlsx.
  rewrite Hmade. cbn [mbind result_bind]. rewrite Hsave.
  cbn [mbind result_bind]. rewrite Hload. cbn [mbind result_bind].
  by apply loaded_workbook_script.
Qed.

(** X10.  A table comes back from a round trip only when it has exactly one
    primary-key column.  With named columns, names that openpyxl stores as
    they are given and descriptors that the JSON codec reads back, the sheet
    of a table without a primary key, as it is made or as it is read back
    from a file that keeps its cells, gives "no primary key field detected",
    the sheet of a table with a primary key of several columns gives
    "multiple primary key fields detected", and the sheet of a table with
    one primary-key column gives statements; and a database with one table
    of the first two kinds has no round trip at all: when every file that
    the forward mapper saves keeps the cells, the reverse mapper run after
    the forward mapper ends with an exception and writes no script. *)
Theorem table_needs_one_key_column `{Libraries} (db : database)
    (table_name : string) :
  Forall (fun c => col_name c ≠ EmptyString) (columns db table_name) →
  Forall (fun c => bind_value (PStr (col_name c)) = Ok (PStr (col_name c)))
         (columns db table_name) →
  Forall (fun c => json_loads (json_dumps (field_metadata c))
                   = Some (field_metadata c)) (columns db table_name) →
  (∀ sheets ws ws' script,
      table_sheet db sheets table_name = Ok ws →
      same_cells ws ws' →
      match length (primary_key_columns (columns db table_name)) with
      | 0 => convert_sheet ws' script = Raise (no_pk_error (title ws'))
      | 1 => ∃ s, convert_sheet ws' script = Ok s
      | _ => convert_sheet ws' script = Raise (multiple_pk_error (title ws'))
      end)
  ∧ (table_name ∈ tables db →
     length (primary_key_columns (columns db table_name)) ≠ 1 →
     (∀ written file loaded,
         make_workbook db = Ok written → save written = Ok file →
         load_workbook file = Ok loaded → file_keeps written loaded) →
     ∃ e, reverse_of_forward db = Raise e).
Proof.
  intros Hnames Hbound Hcodec. split.
  - intros sheets ws ws' script Hmade Hsame.
    by apply (made_sheet_keys db sheets table_name ws ws').
  - intros Hin Hkeys Hkeeps. unfold reverse_of_forward, sql_to_xlsx.
    destruct (make_workbook db) as [written|e] eqn:Hmade;
      cbn [mbind result_bind]; [| by exists e].
    destruct (save written) as [file|e] eqn:Hsave;
      cbn [mbind result_bind]; [| by exists e].
    destruct (load_workbook file) as [loaded|e] eqn:Hload;
      cbn [mbind result_bind]; [| by exists e].
    specialize (Hkeeps written file loaded eq_refl Hsave Hload).
    apply list_elem_of_lookup in Hin as [i Hi].
    destruct (make_workbook_nth db written Hmade) as [_ Hnth].
    destruct (Hnth i _ Hi) as (ws & Hws & Hmade_ws).
    destruct (Forall2_lookup_l _ _ _ _ _ Hkeeps Hws) as (ws' & Hws' & Hsame).
    destruct (convert_sheets_fails (worksheets loaded) ws'
                ("BEGIN TRANSACTION;" +:+ nl)) as [e He].
    + apply list_elem_of_lookup. eauto.
    + intros s.
      pose proof (made_sheet_keys db _ table_name ws ws' s Hnames Hbound
                    Hcodec Hmade_ws Hsame) as Hone.
      destruct (length (primary_key_columns (columns db table_name)))
        as [|[|n]]; [eauto | done | eauto].
    + exists e. unfold xlsx_to_sql. rewrite str_app_nil_l, He. reflexivity.
Qed.

(** X11.  Table names of at most 29 characters are kept when openpyxl gives
    each sheet the title it is asked for: when the workbook is made, the
    names of the tables are distinct and none is longer than 29 characters,
    and for each table openpyxl answers the request for a sheet under its
    name, in the workbook of the sheets before it, with that name, the
    titles of the sheets are the names of the tables, in order, and the
    description links each name to itself. *)
Theorem short_table_names_are_kept `{Libraries} (db : database)
    (wb : workbook) :
  make_workbook db = Ok wb →
  (∀ i t, tables db !! i = Some t →
          create_sheet (take i (tables db)) t = Ok t) →
  NoDup (tables db) →
  Forall (fun t => String.length t ≤ 29) (tables db) →
  title <$> worksheets wb = tables db
  ∧ description wb
    = AUTOGEN_PREFIX
      +:+ json_dumps
            (JObj [("table_names",
                    JObj ((fun t => (t, JStr t)) <$> tables db))]).
Proof.
  intros Hwb Hkept Hnd Hshort.
  destruct (make_workbook_nth db wb Hwb) as [Hlen _].
  assert (title <$> worksheets wb = tables db) as Htitles.
  { pose proof (make_workbook_titles db wb (length (tables db)) Hwb) as Ht.
    rewrite !take_ge in Ht by lia. apply Ht.
    intros j t Hj. unfold sheet_target_name. rewrite str_take_short.
    - by apply Hkept.
    - rewrite Forall_forall in Hshort. apply Hshort.
      apply list_elem_of_lookup. eauto. }
  split; [exact Htitles |].
  apply make_workbook_sheets in Hwb as (table_names & Hadd & ->).
  rewrite (add_tables_links db (tables db) [] (worksheets wb) [] _ Hadd).
  - cbn [app]. rewrite Htitles, zip_diag. unfold workbook_metadata.
    by rewrite <- list_fmap_compose.
  - cbn [fmap list_fmap app]. by rewrite Htitles.
Qed.

(** X12.  The workbook is removed only after the script is written: when a
    run of xlsx_to_sql.py removes a file, the file is the input workbook,
    --delete-xlsx is in force, every sheet has been converted, and the write
    of the whole script, from BEGIN TRANSACTION to COMMIT, comes just before
    the removal.  A run that fails on a sheet writes and removes nothing. *)
Theorem workbook_removed_after_script_written `{Libraries} (args : options)
    (platform_system : string) (wb : workbook) :
  (∀ p, Remove p ∈ (xlsx_to_sql_script args platform_system wb).1 →
        p = INPUT_FILE args ∧ DELETE_XLSX args = true
        ∧ ∃ texts rest,
            Forall2 (fun sheet text => convert_sheet sheet EmptyString = Ok text)
                    (worksheets wb) texts
            ∧ xlsx_to_sql_script args platform_system wb
              = (WriteFile (OUTPUT_FILE args)
                   ("BEGIN TRANSACTION;" +:+ nl +:+ str_concat texts
                    +:+ "COMMIT;" +:+ nl)
                 :: Remove (INPUT_FILE args) :: rest, None))
  ∧ (∀ e, xlsx_to_sql wb = Raise e →
          xlsx_to_sql_script args platform_system wb = ([], Some e)).
Proof.
  unfold xlsx_to_sql_script. split.
  - intros p Hp.
    destruct (xlsx_to_sql wb) as [script|e] eqn:Hrun; cbn [fst] in Hp;
      [| by apply elem_of_nil in Hp].
    apply xlsx_to_sql_own_texts in Hrun as (texts & Htexts & ->).
    destruct (DELETE_XLSX args) eqn:Hdel.
    + cbn [app] in Hp |- *.
      apply elem_of_cons in Hp as [Hp | Hp]; [done |].
      apply elem_of_cons in Hp as [Hp | Hp].
      * inversion Hp; subst. split; [done |]. split; [done |]. eauto.
      * destruct (OPEN_FILE args); [| by apply elem_of_nil in Hp].
        destruct (String.eqb platform_system "Windows");
          apply list_elem_of_singleton in Hp; done.
    + cbn [app] in Hp.
      apply elem_of_cons in Hp as [Hp | Hp]; [done |].
      destruct (OPEN_FILE args); [| by apply elem_of_nil in Hp].
      destruct (String.eqb platform_system "Windows");
        apply list_elem_of_singleton in Hp; done.
  - by intros e ->.
Qed.

(** * More runs on small inputs *)

Section MoreRuns.
#[local] Existing Instance sample_libraries.

(** X1 on [notes_sheet] and [gap_sheet]: the header is "id", "note", and the
    cell after the gap is not read. *)
Lemma header_ends_at_first_empty_witness :
  detect_fields gap_sheet = detect_fields notes_sheet
  ∧ length [PStr "id"; PStr "note"] = 2
  ∧ [PStr "id"; PStr "note"]
    = (fun i => value (ws_cell notes_sheet 1 (1 + i))) <$> seq 0 2.
Proof.
  destruct (header_ends_at_first_empty notes_sheet gap_sheet 2)
    as [Hsame Hfields].
  - intros i Hi. destruct i as [|[|i]]; [reflexivity | reflexivity | lia].
  - reflexivity.
  - intros i Hi.
    destruct i as [|[|[|i]]]; [reflexivity | reflexivity | reflexivity | lia].
  - split; [exact Hsame |].
    exact (Hfields [PStr "id"; PStr "note"]
             [descriptor "INTEGER" false 1; DEFAULT_METADATA] notes_fields).
Defined.

(** X3 on [keyless_sheet], whose only header cell has no comment. *)
Lemma sheet_without_comments_fails_witness :
  convert_sheet keyless_sheet begin_text
  = Raise (XLSXParseError
             ("Table " +:+ title keyless_sheet
              +:+ ": no primary key field detected!")).
Proof.
  apply (sheet_without_comments_fails keyless_sheet begin_text).
  intros c. unfold ws_cell.
  destruct (_cells keyless_sheet !! (1, c)) as [x|] eqn:Hx; [| reflexivity].
  unfold keyless_sheet, sheet_of in Hx. cbn [_cells] in Hx.
  apply elem_of_list_to_map_2, list_elem_of_In in Hx.
  destruct Hx as [Hx | [Hx | []]]; inversion Hx; reflexivity.
Defined.

(** X5 on row 4 of [notes_sheet]: its only value is True, in column 2. *)
Lemma record_needs_a_true_value_witness :
  record_text notes_sheet "notes" [PStr "id"; PStr "note"] 3
    [empty_cell; plain (PBool true); empty_cell]
  = insert_line "notes" (row_texts notes_sheet 2 4).
Proof.
  destruct (record_needs_a_true_value notes_sheet "notes"
              [PStr "id"; PStr "note"] 3
              [empty_cell; plain (PBool true); empty_cell])
    as [_ Hwritten]; [lia | reflexivity |].
  apply Hwritten. exists 2. split; [lia | reflexivity].
Defined.

(** X6 on a header "note", "id", "id" whose second field is the key. *)
Lemma key_column_is_bare_witness :
  create_table "t" [PStr "note"; PStr "id"; PStr "id"]
    [DEFAULT_METADATA; descriptor "INTEGER" false 1; DEFAULT_METADATA]
    EmptyString
  = Ok (EmptyString +:+ "CREATE TABLE " +:+ dq +:+ "t" +:+ dq +:+ " (" +:+ nl
        +:+ str_concat
              (descriptor_line true <$> [(PStr "note", DEFAULT_METADATA)])
        +:+ descriptor_line false (PStr "id", descriptor "INTEGER" false 1)
        +:+ str_concat
              ((fun f => descriptor_line (negb (py_eq (PStr "id") f.1)) f)
               <$> [(PStr "id", DEFAULT_METADATA)])
        +:+ "  PRIMARY KEY (" +:+ py_str (PStr "id") +:+ ")" +:+ nl
        +:+ ");" +:+ nl).
Proof.
  apply (key_column_is_bare "t" [PStr "note"; PStr "id"; PStr "id"]
           [DEFAULT_METADATA; descriptor "INTEGER" false 1; DEFAULT_METADATA]
           [(PStr "note", DEFAULT_METADATA)] [(PStr "id", DEFAULT_METADATA)]
           (PStr "id") (descriptor "INTEGER" false 1) EmptyString);
    try reflexivity; repeat constructor.
Defined.

Lemma people_made :
  table_sheet shop_db [] "people" = Ok (table_sheet_of shop_db "people").
Proof. vm_compute. reflexivity. Qed.

Lemma log_made : table_sheet log_db [] "log" = Ok (table_sheet_of log_db "log").
Proof. vm_compute. reflexivity. Qed.

Lemma autoincrement_made :
  make_workbook autoincrement_db = Ok (workbook_of autoincrement_db).
Proof. vm_compute. reflexivity. Qed.

(** X7 on the table "people" of [shop_db]. *)
Lemma sheet_is_the_table_witness :
  ws_cell (table_sheet_of shop_db "people") 1 (0 + 1)
  = header_cell (ColumnInfo 0 "id" "INTEGER" 0 PNone 1) (PStr "id")
  ∧ ws_cell (table_sheet_of shop_db "people") (0 + 2) (1 + 1)
    = Cell (PStr "Ann") None.
Proof.
  destruct (sheet_is_the_table shop_db [] "people"
              (table_sheet_of shop_db "people") people_made)
    as (names & held & _ & _ & Hn & Hh & Hhead & Hbody & _).
  apply bound_same in Hn; [| repeat constructor].
  apply bound_same_rows in Hh; [| repeat constructor].
  subst names held. split.
  - apply Hhead; reflexivity.
  - apply (Hbody 0 1 [PInt 1; PStr "Ann"; PNone]); reflexivity.
Defined.

(** X8 on the table "people" of [shop_db], read back from the file. *)
Lemma header_read_back_witness :
  detect_fields (store_sheet (table_sheet_of shop_db "people"))
  = Ok (PStr ∘ col_name <$> columns shop_db "people",
        field_metadata <$> columns shop_db "people").
Proof.
  apply (header_read_back shop_db [] "people"
           (table_sheet_of shop_db "people")
           (store_sheet (table_sheet_of shop_db "people"))
           (columns shop_db "people") []).
  - exact people_made.
  - apply store_sheet_same.
  - reflexivity.
  - repeat constructor; discriminate.
  - repeat constructor.
  - intros c v Hc. discriminate.
  - repeat constructor.
Defined.

(** X9 on [shop_db]. *)
Lemma round_trip_keeps_true_records_witness :
  reverse_of_forward shop_db
  = Ok (round_trip_script cell_text (existsb truthy) shop_db
          (workbook_of shop_db)).
Proof.
  exact (round_trip_keeps_true_records shop_db (workbook_of shop_db)
           (loaded_of shop_db) (loaded_of shop_db) shop_made shop_saved eq_refl
           (sample_file_keeps _ _ shop_saved) shop_table_ok).
Defined.

(** X10 on [log_db], whose table has no primary key. *)
Lemma table_needs_one_key_column_witness :
  convert_sheet (store_sheet (table_sheet_of log_db "log")) EmptyString
  = Raise (no_pk_error (title (store_sheet (table_sheet_of log_db "log"))))
  ∧ ∃ e, reverse_of_forward log_db = Raise e.
Proof.
  destruct (table_needs_one_key_column log_db "log") as [Hsheet Hrun].
  - repeat constructor; discriminate.
  - repeat constructor.
  - repeat constructor.
  - split.
    + apply (Hsheet [] (table_sheet_of log_db "log")); [exact log_made |].
      apply store_sheet_same.
    + apply Hrun.
      * apply list_elem_of_In. left. reflexivity.
      * intros Hone. vm_compute in Hone. discriminate.
      * intros written file loaded _ Hsave Hload.
        cbn [load_workbook sample_libraries] in Hload.
        inversion Hload; subst. by apply sample_file_keeps.
Defined.

(** X11 on [autoincrement_db]. *)
Lemma short_table_names_are_kept_witness :
  title <$> worksheets (workbook_of autoincrement_db)
  = tables autoincrement_db
  ∧ description (workbook_of autoincrement_db)
    = AUTOGEN_PREFIX
      +:+ json_dumps
            (JObj [("table_names",
                    JObj ((fun t => (t, JStr t))
                          <$> tables autoincrement_db))]).
Proof.
  apply (short_table_names_are_kept autoincrement_db
           (workbook_of autoincrement_db)).
  - exact autoincrement_made.
  - change (tables autoincrement_db) with ["t"; "sqlite_sequence"].
    intros [|[|i]] t Hi; simpl in Hi; inversion Hi; subst; reflexivity.
  - apply (bool_decide_unpack _). vm_compute. exact I.
  - change (tables autoincrement_db) with ["t"; "sqlite_sequence"].
    repeat (constructor; [simpl; lia |]). constructor.
Defined.

End MoreRuns.
